(** * TalentLens screening bot: the conversation state machine, its link
      classifier, the scoring retry, the admin summary and the admin alert.

    The development embeds [src/bot/handlers.py], [src/services/llm_scoring.py],
    [src/services/sheets.py] and [src/models.py].  Python strings are lists of
    Unicode code points, so that [len] and slicing count what Python counts.
    A handler is a function in a small state monad over the FSM context of
    one user and the trace of effects it asked the transport for. *)

From Stdlib Require Import List NArith ZArith Bool Lia String Ascii.
From Stdlib Require Import Sorting.Sorted Sorting.Permutation.
Import ListNotations.

Set Warnings "-register-all".

(* ================================================================== *)
(** ** Python strings *)
(* ================================================================== *)

Module Py.

Definition char := N.
Definition str := list char.

(** Literals are written as UTF-8 text and decoded to code points. *)
Fixpoint utf8_decode (bs : list N) : str :=
  match bs with
  | [] => []
  | b :: r =>
    if (b <? 128)%N then b :: utf8_decode r
    else if (b <? 224)%N then
      match r with
      | b1 :: r1 => ((b - 192) * 64 + (b1 - 128))%N :: utf8_decode r1
      | _ => []
      end
    else if (b <? 240)%N then
      match r with
      | b1 :: b2 :: r2 =>
        ((b - 224) * 4096 + (b1 - 128) * 64 + (b2 - 128))%N :: utf8_decode r2
      | _ => []
      end
    else
      match r with
      | b1 :: b2 :: b3 :: r3 =>
        ((b - 240) * 262144 + (b1 - 128) * 4096 + (b2 - 128) * 64 + (b3 - 128))%N
          :: utf8_decode r3
      | _ => []
      end
  end.

Definition u (s : string) : str :=
  utf8_decode (map N_of_ascii (list_ascii_of_string s)).

Definition LF : char := 10%N.
Definition SPACE : char := 32%N.
Definition QUOTE : char := 34%N.
Definition DOT : char := 46%N.

(** [==] on [str]. *)
Fixpoint eqb (a b : str) : bool :=
  match a, b with
  | [], [] => true
  | x :: a', y :: b' => (x =? y)%N && eqb a' b'
  | _, _ => false
  end.

(** [x in {...}] for a set literal of strings. *)
Definition mem (x : str) (l : list str) : bool := existsb (eqb x) l.

(** Truthiness of a string: [if s:]. *)
Definition truthy (s : str) : bool :=
  match s with [] => false | _ => true end.

(** [a or b] on strings. *)
Definition or_else (a b : str) : str := if truthy a then a else b.

(** [c in s] for a one-character [c]. *)
Definition has_char (c : char) (s : str) : bool := existsb (N.eqb c) s.

(** [str.isspace] on one code point: the characters [str.strip()] removes. *)
Definition isspace (c : char) : bool :=
  ((9 <=? c) && (c <=? 13) || (28 <=? c) && (c <=? 32)
   || (c =? 133) || (c =? 160) || (c =? 5760)
   || (8192 <=? c) && (c <=? 8202)
   || (c =? 8232) || (c =? 8233) || (c =? 8239) || (c =? 8287)
   || (c =? 12288))%N.

Fixpoint lstrip (s : str) : str :=
  match s with
  | c :: r => if isspace c then lstrip r else s
  | [] => []
  end.

Definition rstrip (s : str) : str := rev (lstrip (rev s)).

Definition strip (s : str) : str := rstrip (lstrip s).

(** [str.lower] on the Basic Latin, Latin-1 and Cyrillic blocks, one code
    point at a time; code points of other scripts are left as they are. *)
Definition lower_char (c : char) : char :=
  (if (65 <=? c) && (c <=? 90) then c + 32
   else if (192 <=? c) && (c <=? 222) && negb (c =? 215) then c + 32
   else if (1024 <=? c) && (c <=? 1039) then c + 80
   else if (1040 <=? c) && (c <=? 1071) then c + 32
   else c)%N.

Definition lower (s : str) : str := map lower_char s.

Fixpoint startswith (p s : str) : bool :=
  match p, s with
  | [], _ => true
  | x :: p', y :: s' => (x =? y)%N && startswith p' s'
  | _ :: _, [] => false
  end.

Definition endswith (p s : str) : bool := startswith (rev p) (rev s).

(** [p in s] for a substring [p]. *)
Fixpoint contains (p s : str) : bool :=
  startswith p s ||
  match s with
  | [] => false
  | _ :: s' => contains p s'
  end.

(** [s.replace(c, r)] for a one-character [c]. *)
Definition replace1 (c : char) (r : str) (s : str) : str :=
  flat_map (fun x => if (x =? c)%N then r else [x]) s.

(** [s.split(c)] for a one-character separator: consecutive separators give
    empty pieces, and the result is never empty. *)
Fixpoint split (c : char) (s : str) : list str :=
  match s with
  | [] => [[]]
  | x :: r =>
    if (x =? c)%N then [] :: split c r
    else match split c r with
         | w :: ws => (x :: w) :: ws
         | [] => [[x]]
         end
  end.

(** [sep.join(l)]. *)
Fixpoint join (sep : str) (l : list str) : str :=
  match l with
  | [] => []
  | [x] => x
  | x :: r => x ++ sep ++ join sep r
  end.

(** [s[:n]]. *)
Definition slice_to (n : nat) (s : str) : str := firstn n s.

(** [str(n)] for an integer. *)
Fixpoint digits (fuel : nat) (n : N) (acc : str) : str :=
  match fuel with
  | O => acc
  | S f =>
    let acc' := (48 + n mod 10)%N :: acc in
    if (n <? 10)%N then acc' else digits f (n / 10)%N acc'
  end.

Definition str_of_N (n : N) : str := digits (S (N.to_nat (N.log2 n))) n [].

Definition str_of_Z (z : Z) : str :=
  match z with
  | Zneg p => 45%N :: str_of_N (Npos p)
  | _ => str_of_N (Z.to_N z)
  end.

Definition str_of_nat (n : nat) : str := str_of_N (N.of_nat n).

(** [s * n]. *)
Fixpoint repeat_str (s : str) (n : nat) : str :=
  match n with
  | O => []
  | S k => s ++ repeat_str s k
  end.

End Py.

Import Py.


(* ================================================================== *)
(** ** Values of the outside world *)
(* ================================================================== *)

(** An exception, kept by the text [str(e)] gives. *)
Inductive exn := Exn (msg : str).

Definition str_of_exn (e : exn) : str := let 'Exn m := e in m.

(** What [json.loads] returns.  A float is kept by a binary mantissa and
    exponent; no field of the schema is a float. *)
Inductive json :=
| JNull
| JBool (b : bool)
| JInt (z : Z)
| JFloat (mantissa exponent : Z)
| JStr (s : str)
| JArr (items : list json)
| JObj (fields : list (str * json)).

(** A [dict] with string keys, in insertion order. *)
Definition dict (V : Type) := list (str * V).

Fixpoint dict_get {V} (k : str) (d : dict V) : option V :=
  match d with
  | [] => None
  | (k', v) :: r => if Py.eqb k k' then Some v else dict_get k r
  end.

(** [d[k] = v]: an existing key keeps its place. *)
Fixpoint dict_set {V} (k : str) (v : V) (d : dict V) : dict V :=
  match d with
  | [] => [(k, v)]
  | (k', v') :: r =>
    if Py.eqb k k' then (k', v) :: r else (k', v') :: dict_set k v r
  end.

Definition dict_values {V} (d : dict V) : list V := map snd d.

(* ================================================================== *)
(** ** models.py *)
(* ================================================================== *)

Record ScoreCriterion := {
  name : str;
  score_0_10 : Z;        (* Field(ge=0, le=10) *)
  rationale : str
}.

Record ScoreResult := {
  criteria : list ScoreCriterion;   (* Field(min_length=3, max_length=3) *)
  overall_score_0_10 : Z;           (* Field(ge=0, le=10) *)
  hot : bool;
  summary_1_2_lines : str
}.

(** The row dict [link_handler] builds, with the field types of [SheetRow]. *)
Record SheetRow := {
  timestamp_utc_iso : str;
  tg_user_id : Z;                   (* Field(ge=0) *)
  username : option str;
  full_name : option str;
  answers_json : str;
  project_link : str;
  project_note : option str;
  scores_json : str;
  overall_score : Z;                (* Field(ge=0, le=10) *)
  top_candidate : bool;
  llm_model : str;
  latency_ms : Z;                   (* Field(ge=0) *)
  scoring_failed : bool;
  error : option str
}.

(** The functions of Python's library and of pydantic the code calls and
    whose text is not part of the repository. *)
Class Library := {
  (** [json.loads(text)] *)
  json_loads : str -> exn + json;
  (** [json.dumps(value, ensure_ascii=False)] *)
  json_dumps : json -> str;
  (** pydantic reading a value into an [int], a [str], a [bool] field *)
  int_field : json -> option Z;
  str_field : json -> option str;
  bool_field : json -> option bool;
  (** the [ValidationError] pydantic raises on a rejected value *)
  validation_error : json -> exn;
  row_validation_error : SheetRow -> exn;
  (** [int(s)] on a string, [None] when it raises *)
  int_of_str : str -> option Z;
  (** [int(v)] on a decoded JSON value, [None] when it raises *)
  int_of_json : json -> option Z;
  (** the text of [round(a / b, 1)], a float *)
  round1_div : Z -> Z -> str
}.

Definition in_range (lo hi z : Z) : bool := (lo <=? z)%Z && (z <=? hi)%Z.

Section Validation.
Context {L : Library}.

(** [ScoreCriterion.model_validate] on a decoded value: a mapping with the
    three fields, the score within 0..10; other keys are ignored. *)
Definition validate_criterion (j : json) : option ScoreCriterion :=
  match j with
  | JObj o =>
    match dict_get (u "name") o, dict_get (u "score_0_10") o,
          dict_get (u "rationale") o with
    | Some n, Some s, Some r =>
      match str_field n, int_field s, str_field r with
      | Some n', Some s', Some r' =>
        if in_range 0 10 s'
        then Some {| name := n'; score_0_10 := s'; rationale := r' |}
        else None
      | _, _, _ => None
      end
    | _, _, _ => None
    end
  | _ => None
  end.

Fixpoint validate_all (l : list json) : option (list ScoreCriterion) :=
  match l with
  | [] => Some []
  | j :: r =>
    match validate_criterion j, validate_all r with
    | Some c, Some cs => Some (c :: cs)
    | _, _ => None
    end
  end.

(** The checks of [ScoreResult.model_validate], [None] when one fails. *)
Definition validate_score_result (j : json) : option ScoreResult :=
  match j with
  | JObj o =>
    match dict_get (u "criteria") o, dict_get (u "overall_score_0_10") o,
          dict_get (u "hot") o, dict_get (u "summary_1_2_lines") o with
    | Some (JArr l), Some ov, Some h, Some sm =>
      if (3 <=? List.length l)%nat && (List.length l <=? 3)%nat then
        match validate_all l, int_field ov, bool_field h, str_field sm with
        | Some cs, Some ov', Some h', Some sm' =>
          if in_range 0 10 ov'
          then Some {| criteria := cs; overall_score_0_10 := ov';
                       hot := h'; summary_1_2_lines := sm' |}
          else None
        | _, _, _, _ => None
        end
      else None
    | _, _, _, _ => None
    end
  | _ => None
  end.

(** [ScoreResult.model_validate(data)]: the model, or the exception raised. *)
Definition model_validate (j : json) : exn + ScoreResult :=
  match validate_score_result j with
  | Some r => inr r
  | None => inl (validation_error j)
  end.

End Validation.

(** [scores.model_dump()]. *)
Definition dump_criterion (c : ScoreCriterion) : json :=
  JObj [(u "name", JStr (name c)); (u "score_0_10", JInt (score_0_10 c));
        (u "rationale", JStr (rationale c))].

Definition model_dump (r : ScoreResult) : json :=
  JObj [(u "criteria", JArr (map dump_criterion (criteria r)));
        (u "overall_score_0_10", JInt (overall_score_0_10 r));
        (u "hot", JBool (hot r));
        (u "summary_1_2_lines", JStr (summary_1_2_lines r))].

(** The checks of [SheetRow.model_validate] that a row of [link_handler]
    can fail: the three bounded integers. *)
Definition sheet_row_valid (r : SheetRow) : bool :=
  (0 <=? tg_user_id r)%Z && in_range 0 10 (overall_score r)
  && (0 <=? latency_ms r)%Z.

(* ================================================================== *)
(** ** bot/handlers.py: the pure helpers *)
(* ================================================================== *)

Definition HTTP : str := Eval vm_compute in u "http://".
Definition HTTPS : str := Eval vm_compute in u "https://".
Definition NDA : str := Eval vm_compute in u "nda".
Definition DECLINED : str := Eval vm_compute in u "declined".
Definition DASH : str := Eval vm_compute in u "—".
Definition STAR : str := Eval vm_compute in u "⭐".

Definition _stars_0_10 (score : Z) : str :=
  let s := Z.max 0 (Z.min 10 score) in
  (* ceil(s / 2) *)
  let n := Z.to_nat ((s + 1) / 2) in
  if (0 <? n)%nat then repeat_str STAR n else DASH.

Definition _material_line (project_link : option str) : str :=
  let pl := match project_link with Some l => l | None => [] end in
  let t := lower (strip pl) in
  if mem t [u "nda"; u "n/a"; u "na"] then u "NDA (ссылка в анкете)."
  else if mem t [u "declined"; u "не хочу"; u "нехочу"; u "skip"; u "нет"]
  then u "Отказался делиться ссылкой."
  else if startswith HTTP pl || startswith HTTPS pl then pl
  else or_else (strip (match project_link with
                       | Some l => or_else l DASH
                       | None => DASH
                       end)) DASH.

Definition _norm (text : option str) : str :=
  strip (match text with Some t => or_else t [] | None => [] end).

Definition _is_decline (text : str) : bool :=
  let t := replace1 SPACE [] (lower text) in
  mem t [u "нехочу"; u "не хочу"; u "declined"; u "нет"; u "skip"].

Definition DOMAIN_SUFFIXES : list str :=
  Eval vm_compute in
  [u ".com"; u ".net"; u ".org"; u ".io"; u ".ai"; u ".ru"; u ".dev";
   u ".app"; u ".me"; u ".co"].

Definition DOMAIN_PATHS : list str :=
  Eval vm_compute in [u ".com/"; u ".ru/"; u ".io/"; u ".ai/"; u ".dev/"].

Definition _looks_like_domain_without_scheme (text : str) : bool :=
  let t := lower (strip text) in
  if negb (truthy t) then false
  else if startswith HTTP t || startswith HTTPS t then false
  else if has_char SPACE t then false
  else if has_char DOT t && existsb (fun suf => endswith suf t) DOMAIN_SUFFIXES
  then true
  else if existsb (fun p => contains p t) DOMAIN_PATHS then true
  else false.

Definition nda_words (t : str) : list str :=
  filter (fun w => truthy (strip w)) (split SPACE (replace1 LF [SPACE] t)).

Definition _is_reasonable_nda_note (text : str) : bool :=
  let t := strip text in
  if negb (truthy t) then false
  else
    let words := nda_words t in
    if (List.length t <? 8)%nat then false
    else (2 <=? List.length words)%nat.

Definition _is_valid_http_url (text : str) : bool :=
  let t := strip text in
  startswith HTTP t || startswith HTTPS t.

(** The classification at the head of [link_handler] (the [if]/[elif] chain
    on the trimmed text): the pair [(project_link, project_note)], or [None]
    on the branch that answers with the list of formats and returns. *)
Definition classify_link (text : str) : option (str * option str) :=
  let t := strip text in
  let tl := lower t in
  if _is_decline t then Some (DECLINED, None)
  else if _is_valid_http_url t then Some (t, None)
  else if Py.eqb tl NDA then Some (NDA, None)
  else if _is_reasonable_nda_note t then Some (NDA, Some t)
  else None.

(* ================================================================== *)
(** ** The messages of the flow *)
(* ================================================================== *)

Definition q (s : str) : str := [QUOTE] ++ s ++ [QUOTE].

Definition QUESTIONS : list str := Eval vm_compute in
  [ u "Вопрос 1." ++ [LF] ++ u "Расскажи о любой рабочей задаче, которую ты решил с помощью AI. Что именно ты ему делегировал и какой результат получил на выходе?";
    u "Вопрос 2." ++ [LF] ++ u "Опиши логику своего самого эффективного промпта или цепочки (chain). Как ты проверял, что AI выдает корректный и валидный ответ, а не просто правдоподобный текст?";
    u "Вопрос 3." ++ [LF] ++ u "Был ли в твоей практике случай, когда AI выдал критическую ошибку или «галлюцинацию»? Как ты изменил подход или архитектуру, чтобы минимизировать такие риски в будущем?";
    u "Вопрос 4." ++ [LF] ++ u "Как ты объективно оцениваешь качество работы AI в продукте? На какие 2–3 метрики или сигнала ты смотришь в первую очередь, чтобы понять, что фича работает как надо?";
    u "Вопрос 5." ++ [LF] ++ u "Если нужно собрать и запустить работающую AI-фичу всего за 24 часа, на чем ты сэкономишь время, а какие этапы контроля качества оставишь обязательными?";
    u "Вопрос 6." ++ [LF] ++ u "Как бы ты организовал работу с LLM, если данные проекта нельзя передавать во внешние облачные API? Опиши стек или архитектурный подход, который ты бы выбрал в этом случае." ].

Definition RULES_TEXT : str := Eval vm_compute in
  u "Привет! Это короткий HR-скрининг (5 вопросов, ~3–5 минут)." ++ [LF]
  ++ u "Правила: можно остановить в любой момент командой /cancel, перезапустить — /restart. Ответы используются только для оценки." ++ [LF]
  ++ u "Готов? Жми кнопку ниже 🙂".

Definition CANCEL_TEXT : str := Eval vm_compute in
  u "Ок, остановил. Если захочешь начать заново — /start".

Definition REPROMPT_Q1 : str := Eval vm_compute in
  u "Коротко: напиши пару предложений (можно без деталей).".
Definition REPROMPT_Q2 : str := Eval vm_compute in
  u "Ок, но нужно хоть 1–2 строки. Как именно использовал AI?".
Definition REPROMPT_Q3 : str := Eval vm_compute in
  u "Если не было — так и напиши: " ++ q (u "не было") ++ u ".".
Definition REPROMPT_Q4 : str := Eval vm_compute in
  u "Можно без цифр, но нужен пример " ++ q (u "до/после") ++ u ".".
Definition REPROMPT_Q5 : str := Eval vm_compute in
  u "Коротко шагами — 3–6 пунктов, можно тезисно.".
Definition REPROMPT_Q6 : str := Eval vm_compute in
  u "Можно коротко: 2–5 предложений.".
Definition REPROMPT_LINK : str := Eval vm_compute in
  u "Нужна ссылка (http/https) или напиши " ++ q (u "не хочу") ++ u ".".

Definition LINK_PROMPT : str := Eval vm_compute in
  u "Вопрос 7." ++ [LF]
  ++ u "Поделись ссылкой на свой проект, репозиторий или описание кейса с AI (GitHub, Notion, Demo). Если всё под NDA — коротко напиши, в чем была суть самой интересной задачи." ++ [LF]
  ++ u "Если не хочешь делиться — напиши " ++ q (u "не хочу")
  ++ u ". (Если даёшь ссылку, она должна начинаться с http:// или https://)".

Definition FORMATS_TEXT : str := Eval vm_compute in
  u "Не понял формат." ++ [LF]
  ++ u "Варианты:" ++ [LF]
  ++ u "1) ссылка должна начинаться с https:// или http://" ++ [LF]
  ++ u "2) напиши " ++ q (u "nda")
  ++ u " или кратко опиши проект текстом (если под NDA)" ++ [LF]
  ++ u "3) или " ++ q (u "не хочу").

Definition SCORING_TEXT : str := Eval vm_compute in u "⏳ Оцениваю ответы…".

Definition THANKS_TEXT : str := Eval vm_compute in
  u "Спасибо! Готово." ++ [LF] ++ u "Если хочешь пройти ещё раз — /restart".

Definition accepted_text (q_no : nat) : str :=
  u "✅ Ответ на Вопрос " ++ str_of_nat q_no ++ u " принят. Следующий вопрос…".

(* ================================================================== *)
(** ** bot/states.py and the transport *)
(* ================================================================== *)

Inductive ScreeningStates := rules | q1 | q2 | q3 | q4 | q5 | q6 | link.

Record User := {
  user_id : Z;
  user_username : option str;
  user_full_name : str
}.

Record Message := {
  msg_from_user : option User;
  msg_text : option str;
  msg_chat_id : Z;
  msg_message_id : Z
}.

Inductive keyboard := RulesKb | AdminEntryKb.

(** What a handler asks of the outside world, in the order it asks. *)
Inductive effect :=
| SendMessage (chat : Z) (text : str) (reply_markup : option keyboard)
| DeleteMessage (chat : Z) (message_id : Z)
| EditMessageText (chat : Z) (message_id : Z) (text : str)
| EditReplyMarkup (chat : Z) (message_id : Z)
| SendChatAction (chat : Z)
| AnswerCallback (text : option str)
| Sleep
| OracleCall (lang_name : str) (prompt : str)
| AppendRow (row : SheetRow).

(** The FSM context of one user: the state ([None] is the idle state) and
    the two keys of its data ([None] for a key that is absent or [None]). *)
Record FSMContext := {
  fsm_state : option ScreeningStates;
  answers : option (dict str);
  last_bot_msg_id : option Z
}.

(** What the outside world gives one handler run: the settings, the clock,
    the replies of the scoring oracle to the successive calls, the outcome
    of the spreadsheet call and the ids the transport gives to new messages. *)
Record Env := {
  admin_user_id : Z;
  admin_alert_chat_id : Z;
  settings_llm_model : str;
  now_iso : str;
  elapsed_ms : Z;
  oracle : nat -> str -> str -> exn + str;
  store : option exn;
  message_ids : nat -> Z
}.

Record World := {
  ctx : FSMContext;
  trace : list effect;
  sent : nat
}.

Definition M (A : Type) : Type := World -> A * World.

Definition ret {A} (a : A) : M A := fun w => (a, w).

Definition bind {A B} (m : M A) (k : A -> M B) : M B :=
  fun w => let (a, w') := m w in k a w'.

Notation "x <- m ;; k" := (bind m (fun x => k))
  (at level 61, m at next level, right associativity).
Notation "m ;;; k" := (bind m (fun _ => k))
  (at level 61, right associativity).

Definition emit (e : effect) : M unit :=
  fun w => (tt, {| ctx := ctx w; trace := trace w ++ [e]; sent := sent w |}).

Fixpoint emit_all (l : list effect) : M unit :=
  match l with
  | [] => ret tt
  | e :: r => emit e ;;; emit_all r
  end.

Definition with_ctx (f : FSMContext -> FSMContext) : M unit :=
  fun w => (tt, {| ctx := f (ctx w); trace := trace w; sent := sent w |}).

(** [state.get_data()], [state.get_state()]. *)
Definition get_data : M FSMContext := fun w => (ctx w, w).
Definition get_state : M (option ScreeningStates) :=
  fun w => (fsm_state (ctx w), w).

(** [state.set_state(s)] leaves the data as it is. *)
Definition set_state (s : option ScreeningStates) : M unit :=
  with_ctx (fun c => {| fsm_state := s; answers := answers c;
                        last_bot_msg_id := last_bot_msg_id c |}).

(** [state.clear()]: no state and empty data. *)
Definition clear : M unit :=
  with_ctx (fun _ => {| fsm_state := None; answers := None;
                        last_bot_msg_id := None |}).

Definition update_answers (a : dict str) : M unit :=
  with_ctx (fun c => {| fsm_state := fsm_state c; answers := Some a;
                        last_bot_msg_id := last_bot_msg_id c |}).

Definition update_last_bot_msg_id (i : option Z) : M unit :=
  with_ctx (fun c => {| fsm_state := fsm_state c; answers := answers c;
                        last_bot_msg_id := i |}).

(** [data.get("answers", {})]. *)
Definition answers_of (c : FSMContext) : dict str :=
  match answers c with Some a => a | None => [] end.

(** [if last_id:] on [data.get("last_bot_msg_id")]. *)
Definition truthy_id (i : option Z) : option Z :=
  match i with
  | Some z => if (z =? 0)%Z then None else Some z
  | None => None
  end.

Definition opt_truthy (s : option str) : bool :=
  match s with Some t => truthy t | None => false end.

Section Handlers.
Context {L : Library}.
Variable env : Env.

(** [message.answer(text, reply_markup=kb)]: the id of the message sent. *)
Definition answer (m : Message) (text : str) (kb : option keyboard) : M Z :=
  fun w =>
    (message_ids env (sent w),
     {| ctx := ctx w;
        trace := trace w ++ [SendMessage (msg_chat_id m) text kb];
        sent := S (sent w) |}).

Definition _is_admin (m : Message) : bool :=
  match msg_from_user m with
  | Some usr => (user_id usr =? admin_user_id env)%Z
  | None => false
  end.

Definition _send_rules (m : Message) : M unit :=
  answer m RULES_TEXT (Some RulesKb) ;;; ret tt.

Definition _send_replace (m : Message) (text : str) (kb : option keyboard)
  : M unit :=
  data <- get_data ;;
  emit Sleep ;;;
  match truthy_id (last_bot_msg_id data) with
  | Some last_id => emit (DeleteMessage (msg_chat_id m) last_id)
  | None => ret tt
  end ;;;
  sent_id <- answer m text kb ;;
  update_last_bot_msg_id (Some sent_id).

Definition _transition_accepted (m : Message) (q_no : nat) : M unit :=
  data <- get_data ;;
  match truthy_id (last_bot_msg_id data) with
  | None => emit Sleep
  | Some last_id =>
    emit (EditMessageText (msg_chat_id m) last_id (accepted_text q_no)) ;;;
    emit Sleep
  end.

Definition _ask_q (m : Message) (idx : nat) : M unit :=
  _send_replace m (nth idx QUESTIONS []) None.

Definition start_handler (m : Message) : M unit :=
  clear ;;; set_state (Some rules) ;;; _send_rules m.

Definition restart_handler (m : Message) : M unit :=
  clear ;;; set_state (Some rules) ;;; _send_rules m.

(** The handler of the [go:start] button; [m] is the message that carries
    the button. *)
Definition go_start_cb (m : Message) : M unit :=
  cur <- get_state ;;
  match cur with
  | Some rules =>
    emit (EditReplyMarkup (msg_chat_id m) (msg_message_id m)) ;;;
    emit (DeleteMessage (msg_chat_id m) (msg_message_id m)) ;;;
    set_state (Some q1) ;;;
    update_answers [] ;;;
    update_last_bot_msg_id None ;;;
    _ask_q m 0 ;;;
    emit (AnswerCallback None)
  | _ => emit (AnswerCallback (Some (u "Ок")))
  end.

Definition cancel_handler (m : Message) : M unit :=
  clear ;;; answer m CANCEL_TEXT None ;;; ret tt.

(** The body [q1_handler] .. [q5_handler] share: the reprompt on an empty
    answer, else the answer stored under [key], the previous prompt marked
    as accepted, the next state and the next question. *)
Definition question_handler (reprompt key : str) (q_no : nat)
    (next : ScreeningStates) (m : Message) : M unit :=
  let text := _norm (msg_text m) in
  if negb (truthy text) then answer m reprompt None ;;; ret tt
  else
    data <- get_data ;;
    update_answers (dict_set key text (answers_of data)) ;;;
    _transition_accepted m q_no ;;;
    set_state (Some next) ;;;
    _ask_q m q_no.

Definition q1_handler := question_handler REPROMPT_Q1 (u "q1") 1 q2.
Definition q2_handler := question_handler REPROMPT_Q2 (u "q2") 2 q3.
Definition q3_handler := question_handler REPROMPT_Q3 (u "q3") 3 q4.
Definition q4_handler := question_handler REPROMPT_Q4 (u "q4") 4 q5.
Definition q5_handler := question_handler REPROMPT_Q5 (u "q5") 5 q6.

Definition q6_handler (m : Message) : M unit :=
  let text := _norm (msg_text m) in
  if negb (truthy text) then answer m REPROMPT_Q6 None ;;; ret tt
  else
    data <- get_data ;;
    update_answers (dict_set (u "q6") text (answers_of data)) ;;;
    set_state (Some link) ;;;
    _send_replace m LINK_PROMPT None.

End Handlers.

(* ================================================================== *)
(** ** services/llm_scoring.py *)
(* ================================================================== *)

(** The payload dict [link_handler] hands to [score_candidate]. *)
Record Payload := {
  p_tg_user_id : option Z;
  p_username : option str;
  p_full_name : option str;
  p_answers : dict str;
  p_project_link : str
}.

Definition json_opt {A} (f : A -> json) (o : option A) : json :=
  match o with Some a => f a | None => JNull end.

Definition json_of_answers (a : dict str) : json :=
  JObj (map (fun kv => (fst kv, JStr (snd kv))) a).

Definition json_of_payload (p : Payload) : json :=
  JObj [(u "tg_user_id", json_opt JInt (p_tg_user_id p));
        (u "username", json_opt JStr (p_username p));
        (u "full_name", json_opt JStr (p_full_name p));
        (u "answers", json_of_answers (p_answers p));
        (u "project_link", JStr (p_project_link p))].

(** [re.search(r"[А-Яа-яЁё]", answers_text)]. *)
Definition is_cyrillic (c : char) : bool :=
  ((1040 <=? c) && (c <=? 1103) || (c =? 1025) || (c =? 1105))%N.

Definition RETRY_SUFFIX : str := Eval vm_compute in
  [LF; LF] ++ u "return valid JSON only, no prose".

Section Scoring.
Context {L : Library}.
Variable env : Env.

Definition lang_name_of (p : Payload) : str :=
  let answers_text := join [SPACE] (dict_values (p_answers p)) in
  if existsb is_cyrillic answers_text then u "Russian" else u "English".

Definition user_prompt (p : Payload) : str :=
  u "Score this candidate based on their answers." ++ [LF]
  ++ u "Payload JSON:" ++ [LF] ++ json_dumps (json_of_payload p) ++ [LF]
  ++ u "Use exactly these 3 criteria names:" ++ [LF]
  ++ u "1) Practical AI Application" ++ [LF]
  ++ u "2) AI Reasoning & Control" ++ [LF]
  ++ u "3) AI Product Thinking" ++ [LF]
  ++ u "Overall score must be round(mean(criteria scores))." ++ [LF]
  ++ u "hot must be true if overall>=8 OR at least 2 criteria>=8." ++ [LF]
  ++ u "Return JSON ONLY.".

(** [json.loads(text)] then [ScoreResult.model_validate(data)]. *)
Definition parse_scores (text : str) : exn + ScoreResult :=
  match json_loads text with
  | inl e => inl e
  | inr data => model_validate data
  end.

(** [score_candidate(payload)]: the calls made to the oracle, and the model
    returned or the exception raised.  The system text of a call is fixed by
    [lang_name]; a call is recorded with [lang_name] and its prompt.  The
    first call is outside the [try]; the [except] branch makes the second. *)
Definition score_candidate (p : Payload)
  : list effect * (exn + ScoreResult) :=
  let lang := lang_name_of p in
  let user := user_prompt p in
  match oracle env 0 lang user with
  | inl e => ([OracleCall lang user], inl e)
  | inr text =>
    match parse_scores text with
    | inr r => ([OracleCall lang user], inr r)
    | inl _ =>
      let retry_prompt := user ++ RETRY_SUFFIX in
      ([OracleCall lang user; OracleCall lang retry_prompt],
       match oracle env 1 lang retry_prompt with
       | inl e => inl e
       | inr text2 => parse_scores text2
       end)
    end
  end.

(* ================================================================== *)
(** ** services/sheets.py *)
(* ================================================================== *)

(** [append_row(row)]: the row is validated, then the spreadsheet is
    reached and the row appended; [Some e] is the exception raised. *)
Definition append_row (r : SheetRow) : list effect * option exn :=
  if sheet_row_valid r then
    match store env with
    | None => ([AppendRow r], None)
    | Some e => ([], Some e)
    end
  else ([], Some (row_validation_error r)).

(* ================================================================== *)
(** ** bot/handlers.py: link_handler *)
(* ================================================================== *)

(** What the [try] around [score_candidate] leaves in the locals. *)
Record Scored := {
  s_scoring_failed : bool;
  s_error : option str;
  s_scores_json : str;
  s_overall_score : Z;
  s_top_candidate : bool
}.

Definition EMPTY_OBJECT : str := Eval vm_compute in u "{}".

Definition scored_of (res : exn + ScoreResult) : Scored :=
  match res with
  | inr scores =>
    {| s_scoring_failed := false; s_error := None;
       s_scores_json := json_dumps (model_dump scores);
       s_overall_score := overall_score_0_10 scores;
       s_top_candidate := hot scores |}
  | inl e =>
    {| s_scoring_failed := true;
       s_error := Some (slice_to 500 (str_of_exn e));
       s_scores_json := EMPTY_OBJECT;
       s_overall_score := 0;
       s_top_candidate := false |}
  end.

Definition make_row (m : Message) (answers_json project_link : str)
    (project_note : option str) (sc : Scored) : SheetRow :=
  {| timestamp_utc_iso := now_iso env;
     tg_user_id := match msg_from_user m with
                   | Some usr => user_id usr | None => 0 end;
     username := match msg_from_user m with
                 | Some usr => user_username usr | None => None end;
     full_name := match msg_from_user m with
                  | Some usr => Some (user_full_name usr) | None => None end;
     answers_json := answers_json;
     project_link := project_link;
     project_note := project_note;
     scores_json := s_scores_json sc;
     overall_score := s_overall_score sc;
     top_candidate := s_top_candidate sc;
     llm_model := settings_llm_model env;
     latency_ms := elapsed_ms env;
     scoring_failed := s_scoring_failed sc;
     error := s_error sc |}.

(** The display name of the candidate in the admin alert. *)
Definition alert_display (m : Message) : str :=
  let full_name := match msg_from_user m with
                   | Some usr => strip (or_else (user_full_name usr) [])
                   | None => [] end in
  let username := match msg_from_user m with
                  | Some usr =>
                    strip (match user_username usr with
                           | Some n => or_else n [] | None => [] end)
                  | None => [] end in
  let display := or_else full_name (u "Кандидат") in
  if truthy username then display ++ u " (@" ++ username ++ u ")"
  else display.

(** [crit]: the list under ["criteria"] of the decoded [scores_json]. *)
Definition alert_criteria (scores_json : str) : list json :=
  let scored := if truthy scores_json
                then match json_loads scores_json with
                     | inr j => j | inl _ => JObj [] end
                else JObj [] in
  match scored with
  | JObj o => match dict_get (u "criteria") o with
              | Some (JArr l) => l
              | _ => []
              end
  | _ => []
  end.

(** [int(c.get("score_0_10", 0))], [None] when it raises. *)
Definition criterion_score (c : json) : option Z :=
  match c with
  | JObj o => int_of_json (match dict_get (u "score_0_10") o with
                           | Some v => v | None => JInt 0 end)
  | _ => None
  end.

(** The three scores, all [None] when one of the three reads raises. *)
Definition alert_scores (crit : list json) : option (Z * Z * Z) :=
  match crit with
  | [a; b; c] =>
    match criterion_score a, criterion_score b, criterion_score c with
    | Some x, Some y, Some z => Some (x, y, z)
    | _, _, _ => None
    end
  | _ => None
  end.

Definition score_line (icon cname : str) (score : option Z) : str :=
  match score with
  | Some c => icon ++ u " " ++ cname ++ u ": " ++ _stars_0_10 c ++ u " ("
              ++ str_of_Z c ++ u "/10)" ++ [LF]
  | None => icon ++ u " " ++ cname ++ u ": —" ++ [LF]
  end.

Definition ALERT_SUMMARY : str := Eval vm_compute in
  u "Модель отмечает сильное AI-first мышление. Кандидат не просто «промптит», а выстраивает систему: внедряет валидацию ответов и умеет бороться с галлюцинациями LLM на уровне архитектуры.".

Definition alert_text (m : Message) (project_link : str) (sc : Scored)
    (sheet_error : option str) : str :=
  let display := alert_display m in
  let scores := alert_scores (alert_criteria (s_scores_json sc)) in
  (if s_top_candidate sc
   then u "🎯 Топ-кандидат: " ++ display ++ [LF; LF]
   else u "⚠️ Кандидат требует внимания: " ++ display ++ [LF; LF])
  ++ u "Краткое резюме:" ++ [LF]
  ++ ALERT_SUMMARY ++ [LF; LF]
  ++ u "Оценки по компетенциям:" ++ [LF]
  ++ score_line (u "🛠") (u "Практический опыт")
       (option_map (fun t => fst (fst t)) scores)
  ++ score_line (u "🧠") (u "Контроль и логика")
       (option_map (fun t => snd (fst t)) scores)
  ++ score_line (u "🚀") (u "Продуктовый подход")
       (option_map (fun t => snd t) scores)
  ++ [LF]
  ++ u "Материалы: " ++ _material_line (Some project_link) ++ [LF]
  ++ (if opt_truthy sheet_error || opt_truthy (s_error sc)
         || s_scoring_failed sc
      then [LF] ++ u "Тех. детали:" ++ [LF]
           ++ (if s_scoring_failed sc
               then u "• scoring_failed: True" ++ [LF] else [])
           ++ (match sheet_error with
               | Some e => if truthy e
                           then u "• sheets_error: " ++ slice_to 200 e ++ [LF]
                           else []
               | None => [] end)
           ++ (match s_error sc with
               | Some e => if truthy e
                           then u "• error: " ++ slice_to 200 e ++ [LF]
                           else []
               | None => [] end)
      else [])
  ++ [LF] ++ u "📥 Открыть полную анкету: /admin top".

(** The test that guards the admin alert. *)
Definition alert_due (sc : Scored) (sheet_error : option str) : bool :=
  s_scoring_failed sc || opt_truthy sheet_error || s_top_candidate sc.

(** The [payload] dict of [link_handler]. *)
Definition make_payload (m : Message) (answers : dict str)
    (project_link : str) : Payload :=
  {| p_tg_user_id := option_map user_id (msg_from_user m);
     p_username := match msg_from_user m with
                   | Some usr => user_username usr | None => None end;
     p_full_name := option_map user_full_name (msg_from_user m);
     p_answers := answers;
     p_project_link := project_link |}.

(** The part of [link_handler] after an accepted classification. *)
Definition complete_session (m : Message) (project_link : str)
    (project_note : option str) : M unit :=
  data <- get_data ;;
  let answers := answers_of data in
  let payload := make_payload m answers project_link in
  let answers_json := json_dumps (json_of_answers answers) in
  emit (SendChatAction (msg_chat_id m)) ;;;
  scoring_msg <- answer env m SCORING_TEXT None ;;
  let (calls, res) := score_candidate payload in
  emit_all calls ;;;
  match res with
  | inr _ => emit (DeleteMessage (msg_chat_id m) scoring_msg)
  | inl _ => ret tt
  end ;;;
  let sc := scored_of res in
  let row := make_row m answers_json project_link project_note sc in
  let (appended, raised) := append_row row in
  emit_all appended ;;;
  let sheet_error := option_map (fun e => slice_to 500 (str_of_exn e)) raised in
  (if alert_due sc sheet_error
   then emit (SendMessage (admin_alert_chat_id env)
                (alert_text m project_link sc sheet_error) None)
   else ret tt) ;;;
  _send_replace env m THANKS_TEXT
    (if _is_admin env m then Some AdminEntryKb else None) ;;;
  set_state None.

Definition link_handler (m : Message) : M unit :=
  let text := _norm (msg_text m) in
  if negb (truthy text) then answer env m REPROMPT_LINK None ;;; ret tt
  else
    match classify_link text with
    | Some (project_link, project_note) =>
      complete_session m project_link project_note
    | None => answer env m FORMATS_TEXT None ;;; ret tt
    end.

(* ================================================================== *)
(** ** The router, for the updates of the screening flow *)
(* ================================================================== *)

Inductive command := CmdStart | CmdRestart | CmdCancel.

(** An update as the router's filters see it: a message that is one of the
    three commands, another message, or a press on the [go:start] button
    (with the message that carries the button). *)
Inductive update :=
| UCommand (c : command) (m : Message)
| UMessage (m : Message)
| UGoStart (m : Message).

(** The handlers in registration order: the commands come before the
    handlers that filter on the state. *)
Definition dispatch (upd : update) : M unit :=
  match upd with
  | UCommand CmdStart m => start_handler env m
  | UCommand CmdRestart m => restart_handler env m
  | UCommand CmdCancel m => cancel_handler env m
  | UGoStart m => go_start_cb env m
  | UMessage m =>
    cur <- get_state ;;
    match cur with
    | Some q1 => q1_handler env m
    | Some q2 => q2_handler env m
    | Some q3 => q3_handler env m
    | Some q4 => q4_handler env m
    | Some q5 => q5_handler env m
    | Some q6 => q6_handler env m
    | Some link => link_handler m
    | Some rules | None => ret tt
    end
  end.

End Scoring.

(* ================================================================== *)
(** ** bot/handlers.py: _render_admin_stats *)
(* ================================================================== *)

(** One element of [norm]. *)
Record NormRow := {
  n_top_candidate : bool;
  n_overall : Z;
  n_scoring_failed : bool;
  n_display : str;
  n_ts : str
}.

(** [a < b] on strings: by code points, a proper prefix is smaller. *)
Fixpoint str_ltb (a b : str) : bool :=
  match a, b with
  | _, [] => false
  | [], _ :: _ => true
  | x :: a', y :: b' => (x <? y)%N || ((x =? y)%N && str_ltb a' b')
  end.

(** [<] on the sort key [(x["overall"], x["ts"])]. *)
Definition key_ltb (a b : NormRow) : bool :=
  (n_overall a <? n_overall b)%Z
  || ((n_overall a =? n_overall b)%Z && str_ltb (n_ts a) (n_ts b)).

(** [sorted(l, key=..., reverse=True)]: descending and stable. *)
Fixpoint insert_desc (x : NormRow) (l : list NormRow) : list NormRow :=
  match l with
  | [] => [x]
  | y :: l' => if key_ltb x y then y :: insert_desc x l' else x :: l
  end.

Fixpoint sorted_desc (l : list NormRow) : list NormRow :=
  match l with
  | [] => []
  | x :: r => insert_desc x (sorted_desc r)
  end.

Definition NO_DATA_TEXT : str := Eval vm_compute in
  u "📊 Статистика" ++ [LF] ++ u "Пока нет прохождений.".

Definition NO_TOP_TEXT : str := Eval vm_compute in
  u "📊 Статистика (топ)" ++ [LF] ++ u "Пока нет топ-кандидатов.".

(** [r.get(k, default)] and [r.get(k) or ""] on a fetched row. *)
Definition get_or (k default : str) (r : dict str) : str :=
  match dict_get k r with Some v => v | None => default end.

Definition count_if {A} (f : A -> bool) (l : list A) : nat :=
  List.length (filter f l).

Definition sum_overall (l : list NormRow) : Z :=
  fold_right (fun x acc => (n_overall x + acc)%Z) 0%Z l.

(** The numbers the summary shows. *)
Record Summary := {
  total : nat;
  avg : str;
  top_count : nat;
  failed_count : nat;
  top3 : list NormRow
}.

Section Reporting.
Context {L : Library}.

Definition _to_int (x : str) (default : Z) : Z :=
  match int_of_str (strip x) with Some z => z | None => default end.

Definition _to_bool (x : str) : bool :=
  mem (lower (strip x)) [u "true"; u "1"; u "yes"; u "y"; u "да"].

(** The top-candidate flag of a fetched row. *)
Definition row_is_top (r : dict str) : bool :=
  _to_bool (get_or (u "top_candidate") [] r).

Definition norm_of (r : dict str) : NormRow :=
  let usr := strip (or_else (get_or (u "username") [] r) []) in
  let full := strip (or_else (get_or (u "full_name") [] r) []) in
  {| n_top_candidate := row_is_top r;
     n_overall := _to_int (get_or (u "overall_score") (u "0") r) 0;
     n_scoring_failed := _to_bool (get_or (u "scoring_failed") (u "false") r);
     n_display := if truthy usr then u "@" ++ usr
                  else or_else full (u "unknown");
     n_ts := strip (or_else (get_or (u "timestamp_utc_iso") [] r) []) |}.

(** The loop that fills [norm]; a row that is not a top candidate is
    skipped by [continue] when [only_top] is set. *)
Fixpoint normalize (only_top : bool) (rows : list (dict str))
  : list NormRow :=
  match rows with
  | [] => []
  | r :: rest =>
    if only_top && negb (row_is_top r) then normalize only_top rest
    else norm_of r :: normalize only_top rest
  end.

Definition summarize (norm : list NormRow) : Summary :=
  let n := List.length norm in
  {| total := n;
     top_count := count_if n_top_candidate norm;
     failed_count := count_if n_scoring_failed norm;
     avg := round1_div (sum_overall norm) (Z.of_nat (Nat.max n 1));
     top3 := firstn 3 (sorted_desc norm) |}.

Fixpoint top_lines (i : nat) (l : list NormRow) : list str :=
  match l with
  | [] => []
  | t :: r =>
    (str_of_nat i ++ u ") " ++ (if n_top_candidate t then u "🔥 " else [])
     ++ n_display t ++ u " — " ++ str_of_Z (n_overall t) ++ u "/10")
    :: top_lines (S i) r
  end.

Definition render_summary (only_top : bool) (s : Summary) : str :=
  join [LF]
    ([ (if only_top then u "📊 Статистика (топ)" else u "📊 Статистика");
       u "Всего прохождений: " ++ str_of_nat (total s);
       u "Средний балл: " ++ avg s;
       u "Топ-кандидаты: " ++ str_of_nat (top_count s);
       u "LLM errors: " ++ str_of_nat (failed_count s);
       [];
       u "🏆 Топ-3:" ]
     ++ top_lines 1 (top3 s)).

(** [_render_admin_stats(only_top)] on the rows [fetch_rows()] returned. *)
Definition _render_admin_stats (only_top : bool) (rows : list (dict str))
  : str :=
  match rows with
  | [] => NO_DATA_TEXT
  | _ =>
    let norm := normalize only_top rows in
    match norm with
    | [] => NO_TOP_TEXT
    | _ => render_summary only_top (summarize norm)
    end
  end.

End Reporting.

(** A string that [lstrip] leaves as it is. *)
Definition no_lead (s : str) : Prop :=
  match s with
  | c :: _ => isspace c = false
  | [] => True
  end.

(* ================================================================== *)
(** ** Vocabulary of the statements *)
(* ================================================================== *)

(** The world a handler leaves. *)
Definition run (h : M unit) (w : World) : World := snd (h w).

(** The six question steps and the reprompt of each. *)
Definition question_step (s : ScreeningStates) : bool :=
  match s with
  | q1 | q2 | q3 | q4 | q5 | q6 => true
  | rules | link => false
  end.

Definition reprompt_of (s : ScreeningStates) : str :=
  match s with
  | q1 => REPROMPT_Q1
  | q2 => REPROMPT_Q2
  | q3 => REPROMPT_Q3
  | q4 => REPROMPT_Q4
  | q5 => REPROMPT_Q5
  | q6 => REPROMPT_Q6
  | rules | link => []
  end.

(** [score_candidate] raises [e]: the first call raises it, or the first
    output is rejected and the second call raises it or returns an output
    that is rejected with it. *)
Definition scoring_fails {L : Library} (env : Env) (p : Payload) (e : exn)
  : Prop :=
  let lang := lang_name_of p in
  let user := user_prompt p in
  oracle env 0 lang user = inl e
  \/ exists t1 e1,
       oracle env 0 lang user = inr t1 /\ parse_scores t1 = inl e1
       /\ (oracle env 1 lang (user ++ RETRY_SUFFIX) = inl e
           \/ exists t2, oracle env 1 lang (user ++ RETRY_SUFFIX) = inr t2
                         /\ parse_scores t2 = inl e).

(** The effects of the whole completion, in order. *)
Definition completion_effects {L : Library} (env : Env) (m : Message) (project_link : str)
    (project_note : option str) (w : World) : list effect :=
  let answers := answers_of (ctx w) in
  let sr := score_candidate env (make_payload m answers project_link) in
  let sc := scored_of (snd sr) in
  let row := make_row env m (json_dumps (json_of_answers answers))
               project_link project_note sc in
  let ar := append_row env row in
  let sheet_error :=
    option_map (fun e => slice_to 500 (str_of_exn e)) (snd ar) in
  [SendChatAction (msg_chat_id m);
   SendMessage (msg_chat_id m) SCORING_TEXT None]
  ++ fst sr
  ++ match snd sr with
     | inr _ => [DeleteMessage (msg_chat_id m) (message_ids env (sent w))]
     | inl _ => []
     end
  ++ fst ar
  ++ (if alert_due sc sheet_error
      then [SendMessage (admin_alert_chat_id env)
              (alert_text m project_link sc sheet_error) None]
      else [])
  ++ [Sleep]
  ++ match truthy_id (last_bot_msg_id (ctx w)) with
     | Some i => [DeleteMessage (msg_chat_id m) i]
     | None => []
     end
  ++ [SendMessage (msg_chat_id m) THANKS_TEXT
        (if _is_admin env m then Some AdminEntryKb else None)].

(** The effects a handler adds to the trace. *)
Definition new_effects (h : M unit) (w : World) : list effect :=
  skipn (List.length (trace w)) (trace (run h w)).

(** The row [link_handler] builds for an accepted classification. *)
Definition session_row {L : Library} (env : Env) (m : Message)
    (project_link : str) (project_note : option str) (w : World)
  : SheetRow :=
  let answers := answers_of (ctx w) in
  make_row env m (json_dumps (json_of_answers answers))
    project_link project_note
    (scored_of
       (snd (score_candidate env (make_payload m answers project_link)))).

(** The keyboard under the closing message. *)
Definition closing_keyboard (env : Env) (m : Message) : option keyboard :=
  if _is_admin env m then Some AdminEntryKb else None.

(** The header line of the alert, before the display name. *)
Definition alert_header (sc : Scored) : str :=
  if s_top_candidate sc then u "🎯 Топ-кандидат: "
  else u "⚠️ Кандидат требует внимания: ".

(** The trimmed handle and full name the alert reads from the sender. *)
Definition sender_handle (m : Message) : str :=
  match msg_from_user m with
  | Some usr => strip (match user_username usr with
                       | Some n => n | None => [] end)
  | None => []
  end.

Definition sender_full_name (m : Message) : str :=
  match msg_from_user m with
  | Some usr => strip (user_full_name usr)
  | None => []
  end.

(** The display name as the specification words it: the handle when there
    is one, else the full name, else the placeholder. *)
Definition display_handle_first (m : Message) : str :=
  if truthy (sender_handle m) then u "@" ++ sender_handle m
  else if truthy (sender_full_name m) then sender_full_name m
  else u "Кандидат".

(** The order of the leaderboard: an earlier row is never below a later
    one on [(overall, ts)]. *)
Definition not_below (a b : NormRow) : Prop := key_ltb a b = false.

(* ================================================================== *)
(** ** Sample data for the examples *)
(* ================================================================== *)

Definition sample_criterion (n : str) (s : Z) : json :=
  JObj [(u "name", JStr n); (u "score_0_10", JInt s);
        (u "rationale", JStr (u "Clear."))].

Definition sample_scores (l : list Z) (overall : Z) (h : bool) : json :=
  JObj [(u "criteria", JArr (map (sample_criterion (u "Criterion")) l));
        (u "overall_score_0_10", JInt overall);
        (u "hot", JBool h);
        (u "summary_1_2_lines", JStr (u "Summary."))].

Fixpoint decimal_value (s : str) (acc : Z) : option Z :=
  match s with
  | [] => Some acc
  | c :: r =>
    if ((48 <=? c) && (c <=? 57))%N
    then decimal_value r (10 * acc + Z.of_N (c - 48))
    else None
  end.

(** A stand-in for the library: it decodes five fixed texts, reads a field
    of the matching JSON type only, and reads unsigned decimal integers. *)
Definition sample_library : Library := {|
  json_loads := fun s =>
    if Py.eqb s (u "{}") then inr (JObj [])
    else if Py.eqb s (u "FAIR") then inr (sample_scores [6; 5; 6]%Z 6 false)
    else if Py.eqb s (u "HOT") then inr (sample_scores [9; 8; 9]%Z 9 true)
    else if Py.eqb s (u "TWO") then inr (sample_scores [6; 5]%Z 6 false)
    else if Py.eqb s (u "ELEVEN") then inr (sample_scores [11; 5; 6]%Z 7 false)
    else inl (Exn (u "Expecting value: line 1 column 1 (char 0)"));
  json_dumps := fun _ => u "<json>";
  int_field := fun j => match j with JInt z => Some z | _ => None end;
  str_field := fun j => match j with JStr s => Some s | _ => None end;
  bool_field := fun j => match j with JBool b => Some b | _ => None end;
  validation_error := fun _ => Exn (u "validation error for ScoreResult");
  row_validation_error := fun _ => Exn (u "validation error for SheetRow");
  int_of_str := fun s => match s with [] => None | _ => decimal_value s 0 end;
  int_of_json := fun j => match j with JInt z => Some z | _ => None end;
  round1_div := fun a b =>
    let t := ((20 * a + b) / (2 * b))%Z in
    str_of_Z (t / 10) ++ u "." ++ str_of_Z (t mod 10)
|}.

Definition sample_env (replies : nat -> exn + str) (st : option exn) : Env :=
  {| admin_user_id := 1;
     admin_alert_chat_id := -100;
     settings_llm_model := u "gpt-4o-mini";
     now_iso := u "2026-01-01T00:00:00Z";
     elapsed_ms := 1200;
     oracle := fun k _ _ => replies k;
     store := st;
     message_ids := fun n => (500 + Z.of_nat n)%Z |}.

Definition ann : User :=
  {| user_id := 42; user_username := Some (u "ann");
     user_full_name := u "Ann Lee" |}.

Definition message_of (t : str) : Message :=
  {| msg_from_user := Some ann; msg_text := Some t;
     msg_chat_id := 42; msg_message_id := 7 |}.

Definition six_answers : dict str :=
  [(u "q1", u "a1"); (u "q2", u "a2"); (u "q3", u "a3");
   (u "q4", u "a4"); (u "q5", u "a5"); (u "q6", u "a6")].

Definition world_at (s : option ScreeningStates) (a : dict str) : World :=
  {| ctx := {| fsm_state := s; answers := Some a;
               last_bot_msg_id := Some 499%Z |};
     trace := []; sent := 0 |}.

Definition always (t : str) : nat -> exn + str := fun _ => inr t.
Definition unreachable : nat -> exn + str :=
  fun _ => inl (Exn (u "Connection error."))  .

Definition sheet_record (usr full score top failed ts : str) : dict str :=
  [(u "timestamp_utc_iso", ts); (u "username", usr); (u "full_name", full);
   (u "overall_score", score); (u "top_candidate", top);
   (u "scoring_failed", failed)].

Definition sample_payload : Payload :=
  make_payload (message_of (u "https://x.com")) six_answers (u "https://x.com").

(** An oracle that answers the first call with [a] and the next with [b]. *)
Definition first_then (a b : str) : nat -> exn + str :=
  fun k => match k with O => inr a | S _ => inr b end.

Definition three_rows : list (dict str) :=
  [sheet_record (u "ann") (u "Ann Lee") (u "8") (u "TRUE") (u "FALSE")
     (u "2026-01-02T10:00:00Z");
   sheet_record [] (u "Bob Ray") (u "6") (u "FALSE") (u "FALSE")
     (u "2026-01-03T10:00:00Z");
   sheet_record (u "eve") [] (u "10") (u "TRUE") (u "FALSE")
     (u "2026-01-01T10:00:00Z")].

Definition no_top_rows : list (dict str) :=
  [sheet_record [] (u "Bob Ray") (u "6") (u "FALSE") (u "FALSE")
     (u "2026-01-03T10:00:00Z")].

(* ================================================================== *)
(** ** bot/handlers.py: the remaining helpers *)
(* ================================================================== *)

Definition _is_nda_word (text : str) : bool :=
  let t := lower (strip text) in
  let t_compact := replace1 SPACE [] t in
  mem t_compact [u "nda"; u "ндав"; u "подnda"; u "подnda:"; u "подnda.";
                 u "подnda!"; u "подnda?"]
  || mem t [u "nda"; u "под nda"; u "под нда"].

Definition _ai_first_label (overall : Z) : str :=
  if (8 <=? overall)%Z then u "сильное"
  else if (5 <=? overall)%Z then u "устойчивое"
  else u "ограниченное".

(** [items.sort(key=lambda x: x[1], reverse=True)]: descending and stable. *)
Fixpoint insert_score (x : str * Z) (l : list (str * Z)) : list (str * Z) :=
  match l with
  | [] => [x]
  | y :: l' => if (snd x <? snd y)%Z then y :: insert_score x l' else x :: l
  end.

Fixpoint sort_scores (l : list (str * Z)) : list (str * Z) :=
  match l with
  | [] => []
  | x :: r => insert_score x (sort_scores r)
  end.

(** [[x for x in items if isinstance(x[1], int)]]. *)
Fixpoint int_items (l : list (str * option Z)) : list (str * Z) :=
  match l with
  | [] => []
  | (n, Some v) :: r => (n, v) :: int_items r
  | (_, None) :: r => int_items r
  end.

Definition strength_items (c1 c2 c3 : option Z) : list (str * Z) :=
  int_items [(u "практический опыт", c1); (u "контроль и логика", c2);
             (u "продуктовый подход", c3)].

Definition _top_strength_ru (c1 c2 c3 : option Z) : str :=
  match sort_scores (strength_items c1 c2 c3) with
  | [] => u "сильные стороны"
  | x :: _ => fst x
  end.

(** [t[:k]] for an integer [k]: a negative [k] counts from the end. *)
Definition py_slice_to (k : Z) (s : str) : str :=
  if (0 <=? k)%Z then firstn (Z.to_nat k) s
  else firstn (List.length s - Z.to_nat (- k)) s.

Definition _shorten (text : str) (max_len : Z) : str :=
  let t := replace1 LF [SPACE] (strip text) in
  if (Z.of_nat (List.length t) <=? max_len)%Z then t
  else rstrip (py_slice_to (max_len - 3) t) ++ u "...".

(* ================================================================== *)
(** ** bot/handlers.py: the buffer of admin messages *)
(* ================================================================== *)

(** [_ADMIN_MSG_IDS]: for a user id, the [(chat_id, message_id)] pairs of
    the admin messages sent last. *)
Definition admin_buffers := list (Z * list (Z * Z)).

Definition _ADMIN_MSG_LIMIT : nat := 6.

(** [_ADMIN_MSG_IDS.get(user_id, [])]. *)
Fixpoint buffer_get (user_id : Z) (b : admin_buffers) : list (Z * Z) :=
  match b with
  | [] => []
  | (k, v) :: r => if (k =? user_id)%Z then v else buffer_get user_id r
  end.

(** [_ADMIN_MSG_IDS[user_id] = buf]. *)
Fixpoint buffer_set (user_id : Z) (buf : list (Z * Z)) (b : admin_buffers)
  : admin_buffers :=
  match b with
  | [] => [(user_id, buf)]
  | (k, v) :: r =>
    if (k =? user_id)%Z then (k, buf) :: r
    else (k, v) :: buffer_set user_id buf r
  end.

(** [l[-n:]] for a positive [n]. *)
Definition last_n {A} (n : nat) (l : list A) : list A :=
  skipn (List.length l - n) l.

Definition _track_admin_msg (user_id chat_id message_id : Z)
    (b : admin_buffers) : admin_buffers :=
  let buf := buffer_get user_id b ++ [(chat_id, message_id)] in
  let buf := if (_ADMIN_MSG_LIMIT <? List.length buf)%nat
             then last_n _ADMIN_MSG_LIMIT buf else buf in
  buffer_set user_id buf b.

Inductive admin_keyboard := AdminMenuKb.

(** What an admin handler asks of the transport. *)
Inductive admin_effect :=
| ASendMessage (chat : Z) (text : str) (reply_markup : option admin_keyboard)
| ADeleteMessage (chat : Z) (message_id : Z)
| AAnswerCallback (text : option str) (show_alert : bool).

(** The state the admin handlers share: the buffers, and the effects asked
    for so far with the count of messages sent. *)
Record AdminWorld := {
  buffers : admin_buffers;
  a_trace : list admin_effect;
  a_sent : nat
}.

(** A press on a button: the user who pressed and the message that carries
    the button. *)
Record CallbackQuery := {
  cb_from_user : option User;
  cb_message : Message
}.

(** [_thanos_delete(bot, user_id)]: the tracked messages are deleted newest
    first (an error of a deletion is passed over) and the buffer emptied. *)
Definition _thanos_delete (user_id : Z) (w : AdminWorld) : AdminWorld :=
  let items := buffer_get user_id (buffers w) in
  {| buffers := buffer_set user_id [] (buffers w);
     a_trace := a_trace w
                ++ map (fun it => ADeleteMessage (fst it) (snd it)) (rev items);
     a_sent := a_sent w |}.

Definition ADMIN_ONLY_ALERT : str := Eval vm_compute in
  u "⛔️ Только для администратора.".
Definition ADMIN_ONLY_TEXT : str := Eval vm_compute in
  u "⛔️ Команда доступна только администратору.".
Definition SHEET_ERROR_PREFIX : str := Eval vm_compute in
  u "⚠️ Не удалось прочитать Google Sheet: ".
Definition ADMIN_PANEL_TEXT : str := Eval vm_compute in u "Админ-панель:".
Definition CLOSED_TEXT : str := Eval vm_compute in u "Закрыто ✅".

(** [parts = text.strip().split(maxsplit=1)]: the rest after the first
    run of blanks, empty when [parts] has fewer than two items. *)
Fixpoint after_first_token (s : str) : str :=
  match s with
  | [] => []
  | c :: r => if isspace c then lstrip r else after_first_token r
  end.

(** The filter of [/admin]: [only_top] is set by a second word [top]. *)
Definition admin_only_top (text : option str) : bool :=
  match text with
  | Some t =>
    if truthy t then
      let rest := after_first_token (strip t) in
      truthy rest && mem (lower (strip rest)) [u "top"; u "топ"]
    else false
  | None => false
  end.

Section AdminHandlers.
Context {L : Library}.
Variable env : Env.
(** What [fetch_rows()] returns or raises during the run. *)
Variable fetched : exn + list (dict str).

(** [callback.from_user and callback.from_user.id == settings.admin_user_id]. *)
Definition cb_is_admin (cb : CallbackQuery) : bool :=
  match cb_from_user cb with
  | Some usr => (user_id usr =? admin_user_id env)%Z
  | None => false
  end.

(** [m = message.answer(text, reply_markup=kb)], then the tracking of [m]
    when [track] is set. *)
Definition admin_answer (chat : Z) (text : str) (kb : option admin_keyboard)
    (track : bool) (w : AdminWorld) : AdminWorld :=
  {| buffers := if track
                then _track_admin_msg (admin_user_id env) chat
                       (message_ids env (a_sent w)) (buffers w)
                else buffers w;
     a_trace := a_trace w ++ [ASendMessage chat text kb];
     a_sent := S (a_sent w) |}.

Definition admin_callback_answer (text : option str) (show_alert : bool)
    (w : AdminWorld) : AdminWorld :=
  {| buffers := buffers w;
     a_trace := a_trace w ++ [AAnswerCallback text show_alert];
     a_sent := a_sent w |}.

(** The text of a statistics view: the summary, or the report of the
    exception with the first 300 characters of its text. *)
Definition stats_or_error (only_top : bool) : str :=
  match fetched with
  | inr rows => _render_admin_stats only_top rows
  | inl e => SHEET_ERROR_PREFIX ++ slice_to 300 (str_of_exn e)
  end.

Definition admin_handler (m : Message) (w : AdminWorld) : AdminWorld :=
  if negb (_is_admin env m)
  then admin_answer (msg_chat_id m) ADMIN_ONLY_TEXT None false w
  else admin_answer (msg_chat_id m)
         (stats_or_error (admin_only_top (msg_text m))) None false w.

Definition admin_menu_cb (cb : CallbackQuery) (w : AdminWorld) : AdminWorld :=
  if negb (cb_is_admin cb)
  then admin_callback_answer (Some ADMIN_ONLY_ALERT) true w
  else admin_callback_answer None false
         (admin_answer (msg_chat_id (cb_message cb)) ADMIN_PANEL_TEXT
            (Some AdminMenuKb) true w).

Definition admin_stats_cb (only_top : bool) (cb : CallbackQuery)
    (w : AdminWorld) : AdminWorld :=
  if negb (cb_is_admin cb)
  then admin_callback_answer (Some ADMIN_ONLY_ALERT) true w
  else admin_callback_answer None false
         (admin_answer (msg_chat_id (cb_message cb))
            (stats_or_error only_top) None true w).

Definition admin_all_cb := admin_stats_cb false.
Definition admin_top_cb := admin_stats_cb true.

Definition admin_close_cb (cb : CallbackQuery) (w : AdminWorld)
  : AdminWorld :=
  if negb (cb_is_admin cb)
  then admin_callback_answer (Some ADMIN_ONLY_ALERT) true w
  else
    let w1 := {| buffers := _track_admin_msg (admin_user_id env)
                              (msg_chat_id (cb_message cb))
                              (msg_message_id (cb_message cb)) (buffers w);
                 a_trace := a_trace w; a_sent := a_sent w |} in
    admin_callback_answer (Some CLOSED_TEXT) false
      (_thanos_delete (admin_user_id env) w1).

End AdminHandlers.

(* ================================================================== *)
(** ** services/sheets.py: the cells written and the rows read *)
(* ================================================================== *)

Definition or_empty (o : option str) : str :=
  match o with Some s => or_else s [] | None => [] end.

Definition bool_cell (b : bool) : str := if b then u "TRUE" else u "FALSE".

(** The [values] list of [append_row]. *)
Definition sheet_values (r : SheetRow) : list str :=
  [ timestamp_utc_iso r;
    str_of_Z (tg_user_id r);
    or_empty (username r);
    or_empty (full_name r);
    answers_json r;
    project_link r;
    or_empty (project_note r);
    scores_json r;
    str_of_Z (overall_score r);
    bool_cell (top_candidate r);
    llm_model r;
    str_of_Z (latency_ms r);
    bool_cell (scoring_failed r);
    or_empty (error r) ].

(** The column names [_render_admin_stats] looks a fetched row up by, in
    the order [append_row] writes the cells: the fields of [SheetRow]. *)
Definition SHEET_COLUMNS : list str := Eval vm_compute in
  [ u "timestamp_utc_iso"; u "tg_user_id"; u "username"; u "full_name";
    u "answers_json"; u "project_link"; u "project_note"; u "scores_json";
    u "overall_score"; u "top_candidate"; u "llm_model"; u "latency_ms";
    u "scoring_failed"; u "error" ].

(** [dict(zip(headers, vals))]. *)
Definition zip_dict (headers vals : list str) : dict str :=
  fold_left (fun d kv => dict_set (fst kv) (snd kv) d) (combine headers vals) [].

(** [(vals + [""] * n)[:n]]. *)
Definition pad_to (n : nat) (vals : list str) : list str :=
  firstn n (vals ++ repeat [] n).

(** [fetch_rows()] on what the worksheet gives: [headers] is
    [ws.row_values(1)] and [all_values] is [ws.get_all_values()]. *)
Definition fetch_rows_of (headers : list str) (all_values : list (list str))
  : list (dict str) :=
  match headers with
  | [] => []
  | _ =>
    if (List.length all_values <=? 1)%nat then []
    else map (fun vals => zip_dict headers (pad_to (List.length headers) vals))
             (tl all_values)
  end.

(* ================================================================== *)
(** ** Vocabulary of the further statements *)
(* ================================================================== *)

(** The world after a sequence of updates. *)
Definition run_all {L : Library} (env : Env) (upds : list update)
    (w : World) : World :=
  fold_left (fun w' upd => run (dispatch env upd) w') upds w.

Definition step_key (s : ScreeningStates) : str :=
  match s with
  | q1 => u "q1" | q2 => u "q2" | q3 => u "q3"
  | q4 => u "q4" | q5 => u "q5" | q6 => u "q6"
  | rules | link => []
  end.

Definition next_step (s : ScreeningStates) : ScreeningStates :=
  match s with
  | rules => q1 | q1 => q2 | q2 => q3 | q3 => q4
  | q4 => q5 | q5 => q6 | q6 => link | link => link
  end.

(** The prompt shown on entering a step. *)
Definition prompt_of (s : ScreeningStates) : str :=
  match s with
  | q1 => nth 0 QUESTIONS [] | q2 => nth 1 QUESTIONS []
  | q3 => nth 2 QUESTIONS [] | q4 => nth 3 QUESTIONS []
  | q5 => nth 4 QUESTIONS [] | q6 => nth 5 QUESTIONS []
  | link => LINK_PROMPT
  | rules => RULES_TEXT
  end.

Definition is_append (e : effect) : bool :=
  match e with AppendRow _ => true | _ => false end.

Definition is_oracle_call (e : effect) : bool :=
  match e with OracleCall _ _ => true | _ => false end.

(** A model as [ScoreResult] declares it: 3 criteria, scores in 0..10. *)
Definition well_formed_scores (r : ScoreResult) : Prop :=
  List.length (criteria r) = 3
  /\ Forall (fun c => (0 <= score_0_10 c <= 10)%Z) (criteria r)
  /\ (0 <= overall_score_0_10 r <= 10)%Z.

(** A library that reads a JSON scalar of the type of the field as it is. *)
Definition reads_own_type (L : Library) : Prop :=
  (forall z, int_field (JInt z) = Some z)
  /\ (forall s, str_field (JStr s) = Some s)
  /\ (forall b, bool_field (JBool b) = Some b).

(** The number a question step shows in its mark of acceptance. *)
Definition step_no (s : ScreeningStates) : nat :=
  match s with
  | q1 => 1 | q2 => 2 | q3 => 3 | q4 => 4 | q5 => 5 | q6 => 6
  | rules | link => 0
  end.

(** The effects that may come before the next prompt when an answer is
    accepted: the pacing delay, and the mark on or the removal of the
    previous prompt [last]. *)
Definition prompt_upkeep (chat : Z) (last : option Z) (n : nat) (e : effect)
  : Prop :=
  e = Sleep
  \/ exists i, truthy_id last = Some i
               /\ (e = EditMessageText chat i (accepted_text n)
                   \/ e = DeleteMessage chat i).

(** The effects of an accepted answer before the next prompt: at the steps
    q1..q5 the previous prompt is marked as accepted, at every step it is
    removed after the pacing delay. *)
Definition upkeep_effects (chat : Z) (last : option Z) (s : ScreeningStates)
  : list effect :=
  (match s with
   | q6 => []
   | _ => match truthy_id last with
          | Some i => [EditMessageText chat i (accepted_text (step_no s)); Sleep]
          | None => [Sleep]
          end
   end)
  ++ [Sleep]
  ++ match truthy_id last with
     | Some i => [DeleteMessage chat i]
     | None => []
     end.

(* ================================================================== *)
(** ** Facts about strings *)
(* ================================================================== *)

Lemma eqb_eq (a b : str) : Py.eqb a b = true <-> a = b.
Proof.
  revert b; induction a as [|x a IH]; intros [|y b]; simpl; split;
    try congruence; try reflexivity.
  - intros H. apply andb_prop in H as [H1 H2].
    apply N.eqb_eq in H1. apply IH in H2. congruence.
  - intros H. injection H as -> ->.
    rewrite N.eqb_refl. simpl. now apply IH.
Qed.

Lemma mem_In (x : str) (l : list str) : mem x l = true <-> In x l.
Proof.
  unfold mem. rewrite existsb_exists. split.
  - intros [y [Hy He]]. apply eqb_eq in He. now subst.
  - intros H. exists x. split; [assumption | now apply eqb_eq].
Qed.

Lemma has_char_In (c : char) (s : str) : has_char c s = true <-> In c s.
Proof.
  unfold has_char. rewrite existsb_exists. split.
  - intros [y [Hy He]]. apply N.eqb_eq in He. now subst.
  - intros H. exists c. split; [assumption | apply N.eqb_refl].
Qed.

Lemma has_char_false (c : char) (s : str) :
  has_char c s = false <-> ~ In c s.
Proof.
  rewrite <- has_char_In. destruct (has_char c s); split; congruence.
Qed.

Lemma startswith_prefix (p s : str) :
  startswith p s = true <-> exists r, s = p ++ r.
Proof.
  revert s; induction p as [|x p IH]; intros s; simpl.
  - split; [intros _; now exists s | reflexivity].
  - destruct s as [|y s]; split.
    + discriminate.
    + intros [r Hr]. discriminate.
    + intros H. apply andb_prop in H as [H1 H2].
      apply N.eqb_eq in H1. apply IH in H2 as [r ->]. subst. now exists r.
    + intros [r Hr]. injection Hr as -> ->.
      rewrite N.eqb_refl. simpl. apply IH. now exists r.
Qed.

Lemma startswith_lower (p s : str) :
  Forall (fun c => lower_char c = c) p ->
  startswith p s = true -> startswith p (lower s) = true.
Proof.
  intros Hp H. apply startswith_prefix in H as [r ->].
  apply startswith_prefix. exists (lower r).
  unfold lower. rewrite map_app. f_equal.
  induction Hp as [|c p Hc _ IH]; simpl; congruence.
Qed.

Lemma contains_head (c : char) (p s : str) :
  contains (c :: p) s = true -> In c s.
Proof.
  induction s as [|y s IH]; simpl.
  - discriminate.
  - intros H. apply orb_prop in H as [H | H].
    + apply andb_prop in H as [H _]. apply N.eqb_eq in H. now left.
    + right. now apply IH.
Qed.

Lemma endswith_last_char (c : char) (p s : str) :
  endswith (p ++ [c]) s = true -> In c s.
Proof.
  unfold endswith. rewrite rev_app_distr. simpl.
  intros H. apply in_rev. destruct (rev s) as [|y r]; [discriminate|].
  simpl in H. apply andb_prop in H as [H _]. apply N.eqb_eq in H. now left.
Qed.

(** *** [strip] *)

Lemma lstrip_no_lead (s : str) : no_lead (lstrip s).
Proof.
  induction s as [|c s IH]; simpl; [exact I|].
  destruct (isspace c) eqn:E; [assumption | simpl; assumption].
Qed.

Lemma lstrip_fixed (s : str) : no_lead s -> lstrip s = s.
Proof.
  destruct s as [|c s]; simpl; [reflexivity|]. now intros ->.
Qed.

Lemma lstrip_suffix (s : str) : exists ws, s = ws ++ lstrip s.
Proof.
  induction s as [|c s [ws IH]]; simpl.
  - now exists [].
  - destruct (isspace c).
    + exists (c :: ws). simpl. congruence.
    + now exists [].
Qed.

Lemma rstrip_prefix (s : str) : exists ws, s = rstrip s ++ ws.
Proof.
  unfold rstrip. destruct (lstrip_suffix (rev s)) as [ws H].
  exists (rev ws). rewrite <- rev_app_distr, <- H. now rewrite rev_involutive.
Qed.

Lemma rstrip_no_lead (s : str) : no_lead s -> no_lead (rstrip s).
Proof.
  intros H. destruct (rstrip_prefix s) as [ws E].
  destruct (rstrip s) as [|c r]; [exact I|].
  rewrite E in H. exact H.
Qed.

Lemma rstrip_idem (s : str) : rstrip (rstrip s) = rstrip s.
Proof.
  unfold rstrip. rewrite rev_involutive.
  now rewrite (lstrip_fixed _ (lstrip_no_lead (rev s))).
Qed.

Lemma strip_idem (s : str) : strip (strip s) = strip s.
Proof.
  unfold strip.
  rewrite (lstrip_fixed _ (rstrip_no_lead _ (lstrip_no_lead s))).
  apply rstrip_idem.
Qed.

Lemma norm_strip (t : option str) : strip (_norm t) = _norm t.
Proof. unfold _norm. apply strip_idem. Qed.

(** *** [split] and [replace] on a string without the character *)

Lemma replace1_absent (c : char) (r s : str) :
  ~ In c s -> replace1 c r s = s.
Proof.
  unfold replace1. induction s as [|x s IH]; simpl; [reflexivity|].
  intros H. destruct (N.eqb_spec x c) as [->|_].
  - exfalso. apply H. now left.
  - simpl. f_equal. apply IH. intros Hin. apply H. now right.
Qed.

Lemma split_absent (c : char) (s : str) : ~ In c s -> split c s = [s].
Proof.
  induction s as [|x s IH]; simpl; [reflexivity|].
  intros H. destruct (N.eqb_spec x c) as [->|_].
  - exfalso. apply H. now left.
  - rewrite IH; [reflexivity|]. intros Hin. apply H. now right.
Qed.

Lemma lower_keeps_space (s : str) : In SPACE s -> In SPACE (lower s).
Proof.
  intros H. unfold lower. change SPACE with (lower_char SPACE).
  now apply in_map.
Qed.

Lemma slice_to_length (n : nat) (s : str) :
  (List.length (slice_to n s) <= n)%nat.
Proof. unfold slice_to. apply firstn_le_length. Qed.

(* ================================================================== *)
(** ** The link classifier *)
(* ================================================================== *)

Lemma url_prefix_cases (t : str) :
  startswith HTTP t || startswith HTTPS t = true ->
  exists r, t = u "http" ++ r.
Proof.
  intros H. apply orb_prop in H as [H | H];
    apply startswith_prefix in H as [r ->].
  - now exists (u "://" ++ r).
  - now exists (u "s://" ++ r).
Qed.

Lemma url_not_decline (t : str) :
  startswith HTTP t || startswith HTTPS t = true -> _is_decline t = false.
Proof.
  intros H. apply url_prefix_cases in H as [r ->]. reflexivity.
Qed.

Lemma classify_url (text : str) :
  _is_valid_http_url text = true ->
  classify_link text = Some (strip text, None).
Proof.
  unfold classify_link, _is_valid_http_url. intros H.
  rewrite strip_idem, H.
  now rewrite (url_not_decline _ H).
Qed.

(** The note branch is the only one that sets [project_note]. *)
Lemma classify_note (text pl n : str) :
  classify_link text = Some (pl, Some n) ->
  pl = NDA /\ n = strip text /\ _is_reasonable_nda_note n = true
  /\ _is_decline n = false /\ _is_valid_http_url n = false
  /\ Py.eqb (lower n) NDA = false.
Proof.
  unfold classify_link.
  destruct (_is_decline (strip text)) eqn:Hd; [discriminate|].
  destruct (_is_valid_http_url (strip text)) eqn:Hu; [discriminate|].
  destruct (Py.eqb (lower (strip text)) NDA) eqn:Hn; [discriminate|].
  destruct (_is_reasonable_nda_note (strip text)) eqn:Hr; [|discriminate].
  intros H. injection H as <- <-. repeat split; assumption.
Qed.

Lemma classify_decline (text : str) :
  _is_decline (strip text) = true ->
  classify_link text = Some (DECLINED, None).
Proof. unfold classify_link. now intros ->. Qed.

Lemma classify_marker (text : str) :
  Py.eqb (lower (strip text)) NDA = true ->
  exists pl, classify_link text = Some (pl, None).
Proof.
  unfold classify_link. intros ->.
  destruct (_is_decline (strip text)); [now exists DECLINED|].
  destruct (_is_valid_http_url (strip text)); eauto.
Qed.

(** What [_looks_like_domain_without_scheme] has checked when it answers
    [True]. *)
Lemma bare_domain_facts (text : str) :
  _looks_like_domain_without_scheme text = true ->
  let t := lower (strip text) in
  startswith HTTP t || startswith HTTPS t = false
  /\ ~ In SPACE t /\ In DOT t.
Proof.
  unfold _looks_like_domain_without_scheme. cbv zeta.
  set (t := lower (strip text)).
  destruct (negb (truthy t)); [discriminate|].
  destruct (startswith HTTP t || startswith HTTPS t); [discriminate|].
  destruct (has_char SPACE t) eqn:Hs; [discriminate|].
  apply has_char_false in Hs.
  destruct (has_char DOT t) eqn:Hdot.
  - intros _. apply has_char_In in Hdot. auto.
  - cbn [andb].
    destruct (existsb (fun p => contains p t) DOMAIN_PATHS) eqn:He;
      [|discriminate].
    intros _. split; [reflexivity|]. split; [assumption|].
    apply existsb_exists in He as [p [Hp Hc]].
    unfold DOMAIN_PATHS in Hp. simpl in Hp.
    repeat (destruct Hp as [<- | Hp]; [now apply contains_head in Hc|]).
    contradiction.
Qed.

(** A bare domain on one line falls through the whole chain. *)
Lemma classify_bare_domain (text : str) :
  _looks_like_domain_without_scheme text = true ->
  ~ In LF (strip text) ->
  classify_link text = None.
Proof.
  intros Hd Hlf. apply bare_domain_facts in Hd. cbv zeta in Hd.
  destruct Hd as [Hurl [Hsp Hdot]].
  assert (Hsp' : ~ In SPACE (strip text)).
  { intros H. apply Hsp. now apply lower_keeps_space. }
  unfold classify_link.
  assert (Hdec : _is_decline (strip text) = false).
  { unfold _is_decline. rewrite (replace1_absent _ _ _ Hsp).
    destruct (mem (lower (strip text)) _) eqn:Hm; [|reflexivity].
    apply mem_In in Hm. simpl in Hm.
    repeat (destruct Hm as [Hm | Hm];
            [rewrite <- Hm in Hdot; vm_compute in Hdot;
             repeat (destruct Hdot as [Hdot | Hdot]; [discriminate|]);
             contradiction|]).
    contradiction. }
  rewrite Hdec.
  assert (Hu : _is_valid_http_url (strip text) = false).
  { unfold _is_valid_http_url. rewrite strip_idem.
    destruct (startswith HTTP (strip text)) eqn:H1.
    - apply startswith_lower in H1;
        [rewrite H1 in Hurl; discriminate|].
      repeat constructor.
    - destruct (startswith HTTPS (strip text)) eqn:H2; [|reflexivity].
      apply startswith_lower in H2;
        [rewrite H2, orb_true_r in Hurl; discriminate|].
      repeat constructor. }
  rewrite Hu.
  destruct (Py.eqb (lower (strip text)) NDA) eqn:Hn.
  { apply eqb_eq in Hn. rewrite Hn in Hdot. vm_compute in Hdot.
    repeat (destruct Hdot as [Hdot | Hdot]; [discriminate|]).
    contradiction. }
  unfold _is_reasonable_nda_note, nda_words. rewrite strip_idem.
  rewrite (replace1_absent _ _ _ Hlf), (split_absent _ _ Hsp'). simpl.
  destruct (negb (truthy (strip text))); [reflexivity|].
  destruct (List.length (strip text) <? 8)%nat; [reflexivity|].
  now destruct (truthy (strip (strip text))).
Qed.

Example classify_refusal :
  classify_link (u "не хочу") = Some (u "declined", None).
Proof. reflexivity. Qed.

Example classify_https :
  classify_link (u "https://x.com") = Some (u "https://x.com", None).
Proof. reflexivity. Qed.

Example classify_github : classify_link (u "github.com") = None.
Proof. reflexivity. Qed.

Example classify_nda : classify_link (u "NDA") = Some (u "nda", None).
Proof. reflexivity. Qed.

Example classify_nda_note :
  classify_link (u "nda: built a RAG pipeline")
  = Some (u "nda", Some (u "nda: built a RAG pipeline")).
Proof. reflexivity. Qed.

Example classify_ok : classify_link (u "ok") = None.
Proof. reflexivity. Qed.

Example classify_two_lines :
  _looks_like_domain_without_scheme (u "a.com" ++ [LF] ++ u "bb.com") = true
  /\ classify_link (u "a.com" ++ [LF] ++ u "bb.com")
     = Some (u "nda", Some (u "a.com" ++ [LF] ++ u "bb.com")).
Proof. split; reflexivity. Qed.

(* ================================================================== *)
(** ** Running the handlers *)
(* ================================================================== *)

Section HandlerFacts.
Context {L : Library}.
Variable env : Env.

Lemma emit_all_run (l : list effect) (w : World) :
  emit_all l w
  = (tt, {| ctx := ctx w; trace := trace w ++ l; sent := sent w |}).
Proof.
  revert w; induction l as [|e l IH]; intros w; simpl.
  - unfold ret. rewrite app_nil_r. now destruct w.
  - unfold bind, emit. rewrite IH. simpl. now rewrite <- app_assoc.
Qed.

Lemma complete_session_run (m : Message) (pl : str) (pn : option str)
    (w : World) :
  complete_session env m pl pn w
  = (tt, {| ctx := {| fsm_state := None;
                      answers := answers (ctx w);
                      last_bot_msg_id :=
                        Some (message_ids env (S (sent w))) |};
            trace := trace w ++ completion_effects env m pl pn w;
            sent := S (S (sent w)) |}).
Proof.
  unfold complete_session, completion_effects.
  unfold bind, get_data, emit, answer, _send_replace, set_state,
    update_last_bot_msg_id, with_ctx, ret, bind, get_data, emit, answer.
  cbn [fst snd ctx trace sent].
  destruct (score_candidate env _) as [calls res].
  rewrite emit_all_run. cbn [fst snd ctx trace sent].
  destruct res as [e | r]; cbn [fst snd ctx trace sent];
    (destruct (append_row env _) as [appended raised]);
    rewrite emit_all_run; cbn [fst snd ctx trace sent];
    destruct (alert_due _ _); cbn [fst snd ctx trace sent];
    destruct (truthy_id (last_bot_msg_id (ctx w)));
    cbn [fst snd ctx trace sent fsm_state answers last_bot_msg_id];
    repeat rewrite <- app_assoc; reflexivity.
Qed.

Lemma new_effects_of (h : M unit) (w : World) (d : list effect) :
  trace (run h w) = trace w ++ d -> new_effects h w = d.
Proof.
  unfold new_effects. intros ->.
  rewrite skipn_app, skipn_all, Nat.sub_diag. reflexivity.
Qed.

Lemma or_else_nil (t : str) : or_else t [] = t.
Proof. now destruct t. Qed.

Lemma norm_some (t : str) : _norm (Some t) = strip t.
Proof. unfold _norm. now rewrite or_else_nil. Qed.

Lemma classify_nil : classify_link [] = None.
Proof. reflexivity. Qed.

Lemma classify_truthy (text : str) (c : str * option str) :
  classify_link text = Some c -> truthy text = true.
Proof. destruct text; [discriminate | reflexivity]. Qed.

(** *** The question handlers *)

Lemma question_handler_empty (rp key : str) (n : nat)
    (next : ScreeningStates) (m : Message) (w : World) :
  _norm (msg_text m) = [] ->
  question_handler env rp key n next m w
  = (tt, {| ctx := ctx w;
            trace := trace w ++ [SendMessage (msg_chat_id m) rp None];
            sent := S (sent w) |}).
Proof. unfold question_handler. intros ->. reflexivity. Qed.

Lemma q6_handler_empty (m : Message) (w : World) :
  _norm (msg_text m) = [] ->
  q6_handler env m w
  = (tt, {| ctx := ctx w;
            trace := trace w ++ [SendMessage (msg_chat_id m) REPROMPT_Q6 None];
            sent := S (sent w) |}).
Proof. unfold q6_handler. intros ->. reflexivity. Qed.

(** *** The commands *)

Lemma cancel_handler_run (m : Message) (w : World) :
  cancel_handler env m w
  = (tt, {| ctx := {| fsm_state := None; answers := None;
                      last_bot_msg_id := None |};
            trace := trace w ++ [SendMessage (msg_chat_id m) CANCEL_TEXT None];
            sent := S (sent w) |}).
Proof. reflexivity. Qed.

Lemma restart_handler_run (m : Message) (w : World) :
  restart_handler env m w
  = (tt, {| ctx := {| fsm_state := Some rules; answers := None;
                      last_bot_msg_id := None |};
            trace := trace w
                     ++ [SendMessage (msg_chat_id m) RULES_TEXT (Some RulesKb)];
            sent := S (sent w) |}).
Proof. reflexivity. Qed.

(** *** The link handler *)

Lemma link_handler_rejected (m : Message) (w : World) :
  truthy (_norm (msg_text m)) = true ->
  classify_link (_norm (msg_text m)) = None ->
  link_handler env m w
  = (tt, {| ctx := ctx w;
            trace := trace w ++ [SendMessage (msg_chat_id m) FORMATS_TEXT None];
            sent := S (sent w) |}).
Proof. unfold link_handler. intros -> ->. reflexivity. Qed.

Lemma link_handler_accepted (m : Message) (w : World) (pl : str)
    (pn : option str) :
  classify_link (_norm (msg_text m)) = Some (pl, pn) ->
  link_handler env m w = complete_session env m pl pn w.
Proof.
  intros H. unfold link_handler.
  rewrite (classify_truthy _ _ H), H. reflexivity.
Qed.

Lemma dispatch_link (m : Message) (w : World) :
  fsm_state (ctx w) = Some link ->
  dispatch env (UMessage m) w = link_handler env m w.
Proof.
  intros H. unfold dispatch, bind, get_state. now rewrite H.
Qed.

Lemma accepted_effects (m : Message) (w : World) (pl : str)
    (pn : option str) :
  fsm_state (ctx w) = Some link ->
  classify_link (_norm (msg_text m)) = Some (pl, pn) ->
  new_effects (dispatch env (UMessage m)) w = completion_effects env m pl pn w
  /\ fsm_state (ctx (run (dispatch env (UMessage m)) w)) = None
  /\ answers (ctx (run (dispatch env (UMessage m)) w)) = answers (ctx w).
Proof.
  intros Hs Hc. unfold new_effects, run.
  rewrite (dispatch_link _ _ Hs), (link_handler_accepted _ _ _ _ Hc),
    complete_session_run.
  cbn [snd ctx trace fsm_state answers]. repeat split.
  rewrite skipn_app, skipn_all, Nat.sub_diag. reflexivity.
Qed.

Lemma score_candidate_calls (p : Payload) (x : effect) :
  In x (fst (score_candidate env p)) -> exists l t, x = OracleCall l t.
Proof.
  unfold score_candidate.
  destruct (oracle env 0 _ _) as [e | t]; [|destruct (parse_scores t)];
    simpl; intros H;
    repeat (destruct H as [<- | H]; [eauto|]); contradiction.
Qed.

Lemma append_row_effects (r x : SheetRow) :
  In (AppendRow x) (fst (append_row env r)) -> x = r.
Proof.
  unfold append_row. destruct (sheet_row_valid r); [|contradiction].
  destruct (store env); simpl; [contradiction|].
  intros [H | []]. congruence.
Qed.

Lemma append_row_accepts (r : SheetRow) :
  sheet_row_valid r = true -> store env = None ->
  append_row env r = ([AppendRow r], None).
Proof. unfold append_row. now intros -> ->. Qed.

(** The rows among the effects of a completion: at most the session row,
    and that row when the spreadsheet takes it. *)
Lemma completion_rows (m : Message) (w : World) (pl : str)
    (pn : option str) :
  (forall r, In (AppendRow r) (completion_effects env m pl pn w) ->
             r = session_row env m pl pn w)
  /\ (sheet_row_valid (session_row env m pl pn w) = true ->
      store env = None ->
      In (AppendRow (session_row env m pl pn w))
         (completion_effects env m pl pn w)).
Proof.
  unfold completion_effects, session_row. cbv zeta. split.
  - intros r H.
    repeat (apply in_app_or in H; destruct H as [H | H]);
      try (simpl in H; repeat (destruct H as [H | H]; [discriminate|]);
           contradiction).
    + apply score_candidate_calls in H as [l [t H]]. discriminate.
    + destruct (snd (score_candidate env _)); simpl in H;
        [contradiction | destruct H as [H | []]; discriminate].
    + now apply append_row_effects in H.
    + destruct (alert_due _ _); simpl in H;
        [destruct H as [H | []]; discriminate | contradiction].
    + destruct (truthy_id _); simpl in H;
        [destruct H as [H | []]; discriminate | contradiction].
  - intros Hv Hst. rewrite (append_row_accepts _ Hv Hst).
    apply in_or_app. right. apply in_or_app. right. apply in_or_app. right.
    apply in_or_app. left. simpl. now left.
Qed.

Lemma completion_thanks (m : Message) (w : World) (pl : str)
    (pn : option str) :
  In (SendMessage (msg_chat_id m) THANKS_TEXT (closing_keyboard env m))
     (completion_effects env m pl pn w).
Proof.
  unfold completion_effects, closing_keyboard. cbv zeta.
  repeat (apply in_or_app; right). simpl. now left.
Qed.

End HandlerFacts.

Lemma strip_fixed (s : str) : no_lead s -> no_lead (rev s) -> strip s = s.
Proof.
  intros H1 H2. unfold strip, rstrip.
  rewrite (lstrip_fixed _ H1), (lstrip_fixed _ H2). apply rev_involutive.
Qed.

Lemma dispatch_question {L : Library} (env : Env) (s : ScreeningStates)
    (m : Message) (w : World) :
  question_step s = true ->
  fsm_state (ctx w) = Some s ->
  _norm (msg_text m) = [] ->
  dispatch env (UMessage m) w
  = (tt, {| ctx := ctx w;
            trace := trace w
                     ++ [SendMessage (msg_chat_id m) (reprompt_of s) None];
            sent := S (sent w) |}).
Proof.
  intros Hq Hs Hn. unfold dispatch, bind, get_state. rewrite Hs.
  destruct s; try discriminate.
  - exact (question_handler_empty env REPROMPT_Q1 (u "q1") 1 q2 m w Hn).
  - exact (question_handler_empty env REPROMPT_Q2 (u "q2") 2 q3 m w Hn).
  - exact (question_handler_empty env REPROMPT_Q3 (u "q3") 3 q4 m w Hn).
  - exact (question_handler_empty env REPROMPT_Q4 (u "q4") 4 q5 m w Hn).
  - exact (question_handler_empty env REPROMPT_Q5 (u "q5") 5 q6 m w Hn).
  - exact (q6_handler_empty env m w Hn).
Qed.

(* ================================================================== *)
(** ** The question steps *)
(* ================================================================== *)

(** C7.  At each of the six question steps, a message whose text is empty
    once trimmed leaves the FSM context as it was (the step, and the answers
    with it), and the only effect is the reprompt of that step. *)
Theorem empty_answer_changes_nothing {L : Library} (env : Env)
    (s : ScreeningStates) (m : Message) (w : World) :
  question_step s = true ->
  fsm_state (ctx w) = Some s ->
  _norm (msg_text m) = [] ->
  ctx (run (dispatch env (UMessage m)) w) = ctx w
  /\ new_effects (dispatch env (UMessage m)) w
     = [SendMessage (msg_chat_id m) (reprompt_of s) None].
Proof.
  intros Hq Hs Hn. split.
  - unfold run. now rewrite (dispatch_question env s m w Hq Hs Hn).
  - apply new_effects_of. unfold run.
    now rewrite (dispatch_question env s m w Hq Hs Hn).
Qed.

Lemma empty_answer_changes_nothing_witness :
  ctx (run (dispatch (L := sample_library) (sample_env unreachable None)
              (UMessage (message_of (u "   "))))
           (world_at (Some q3) [(u "q1", u "a1"); (u "q2", u "a2")]))
  = ctx (world_at (Some q3) [(u "q1", u "a1"); (u "q2", u "a2")])
  /\ new_effects (dispatch (L := sample_library)
                    (sample_env unreachable None)
                    (UMessage (message_of (u "   "))))
                 (world_at (Some q3) [(u "q1", u "a1"); (u "q2", u "a2")])
     = [SendMessage 42 REPROMPT_Q3 None].
Proof.
  apply (@empty_answer_changes_nothing sample_library
           (sample_env unreachable None) q3 (message_of (u "   ")));
    reflexivity.
Defined.

(* ================================================================== *)
(** ** Cancel and restart *)
(* ================================================================== *)

(** C4, as amended.  From every state, a cancel request leaves the session
    idle with no answers and appends no row; a restart request leaves no
    answers and appends no row either, and puts the session at the rules
    step, where the start button is awaited. *)
Theorem cancel_and_restart_discard_answers {L : Library} (env : Env)
    (m : Message) (w : World) :
  (fsm_state (ctx (run (dispatch env (UCommand CmdCancel m)) w)) = None
   /\ answers_of (ctx (run (dispatch env (UCommand CmdCancel m)) w)) = []
   /\ new_effects (dispatch env (UCommand CmdCancel m)) w
      = [SendMessage (msg_chat_id m) CANCEL_TEXT None])
  /\ (fsm_state (ctx (run (dispatch env (UCommand CmdRestart m)) w))
      = Some rules
      /\ answers_of (ctx (run (dispatch env (UCommand CmdRestart m)) w)) = []
      /\ new_effects (dispatch env (UCommand CmdRestart m)) w
         = [SendMessage (msg_chat_id m) RULES_TEXT (Some RulesKb)]).
Proof.
  split; (split; [reflexivity | split; [reflexivity|]]);
    apply new_effects_of; reflexivity.
Qed.

(** C4, as stated, fails on restart: from the third question the session is
    left at the rules step, which is not the idle state. *)
Lemma restart_leaves_rules_step :
  fsm_state (ctx (world_at (Some q3) [(u "q1", u "a1"); (u "q2", u "a2")]))
  <> None
  /\ fsm_state
       (ctx (run (dispatch (L := sample_library) (sample_env unreachable None)
                    (UCommand CmdRestart (message_of (u "/restart"))))
                 (world_at (Some q3) [(u "q1", u "a1"); (u "q2", u "a2")])))
     = Some rules
  /\ fsm_state
       (ctx (run (dispatch (L := sample_library) (sample_env unreachable None)
                    (UCommand CmdRestart (message_of (u "/restart"))))
                 (world_at (Some q3) [(u "q1", u "a1"); (u "q2", u "a2")])))
     <> None.
Proof. repeat split; discriminate. Qed.

(* ================================================================== *)
(** ** The link step *)
(* ================================================================== *)

(** C3, as amended.  At the link step, a text that
    [_looks_like_domain_without_scheme] accepts and that has no line break
    once trimmed is answered with the list of formats; the FSM context is
    left as it was and nothing else happens (no call, no row). *)
Theorem bare_domain_on_one_line_rejected {L : Library} (env : Env)
    (m : Message) (w : World) (text : str) :
  fsm_state (ctx w) = Some link ->
  msg_text m = Some text ->
  _looks_like_domain_without_scheme text = true ->
  ~ In LF (strip text) ->
  classify_link (_norm (msg_text m)) = None
  /\ ctx (run (dispatch env (UMessage m)) w) = ctx w
  /\ new_effects (dispatch env (UMessage m)) w
     = [SendMessage (msg_chat_id m) FORMATS_TEXT None].
Proof.
  intros Hs Ht Hd Hlf.
  assert (Hn : _norm (msg_text m) = strip text)
    by (rewrite Ht; apply norm_some).
  assert (Hc : classify_link (_norm (msg_text m)) = None).
  { rewrite Hn. apply classify_bare_domain.
    - unfold _looks_like_domain_without_scheme in *. now rewrite strip_idem.
    - now rewrite strip_idem. }
  assert (Htr : truthy (_norm (msg_text m)) = true).
  { rewrite Hn. apply bare_domain_facts in Hd. cbv zeta in Hd.
    destruct Hd as [_ [_ Hdot]].
    destruct (strip text); [contradiction | reflexivity]. }
  split; [assumption|].
  pose proof (link_handler_rejected env m w Htr Hc) as Hr.
  split.
  - unfold run. now rewrite (dispatch_link env m w Hs), Hr.
  - apply new_effects_of. unfold run.
    now rewrite (dispatch_link env m w Hs), Hr.
Qed.

Lemma bare_domain_on_one_line_rejected_witness :
  classify_link (_norm (msg_text (message_of (u "github.com")))) = None
  /\ ctx (run (dispatch (L := sample_library)
                 (sample_env (always (u "FAIR")) None)
                 (UMessage (message_of (u "github.com"))))
              (world_at (Some link) six_answers))
     = ctx (world_at (Some link) six_answers)
  /\ new_effects (dispatch (L := sample_library)
                    (sample_env (always (u "FAIR")) None)
                    (UMessage (message_of (u "github.com"))))
                 (world_at (Some link) six_answers)
     = [SendMessage 42 FORMATS_TEXT None].
Proof.
  apply (@bare_domain_on_one_line_rejected sample_library
           (sample_env (always (u "FAIR")) None)
           (message_of (u "github.com")) (world_at (Some link) six_answers)
           (u "github.com")).
  - reflexivity.
  - reflexivity.
  - reflexivity.
  - vm_compute. intros H.
    repeat (destruct H as [H | H]; [discriminate|]). exact H.
Defined.

(** C3, as stated, fails on a text of two lines: the predicate of the code
    takes it for a domain without scheme, and the link step takes it for an
    NDA note, completes the session and appends a row. *)
Lemma bare_domain_on_two_lines_accepted :
  _looks_like_domain_without_scheme (u "a.com" ++ [LF] ++ u "bb.com") = true
  /\ fsm_state
       (ctx (run (dispatch (L := sample_library)
                    (sample_env (always (u "FAIR")) None)
                    (UMessage (message_of (u "a.com" ++ [LF] ++ u "bb.com"))))
                 (world_at (Some link) six_answers)))
     = None
  /\ exists r,
       In (AppendRow r)
          (new_effects (dispatch (L := sample_library)
                          (sample_env (always (u "FAIR")) None)
                          (UMessage
                             (message_of (u "a.com" ++ [LF] ++ u "bb.com"))))
                       (world_at (Some link) six_answers))
       /\ project_link r = u "nda"
       /\ project_note r = Some (u "a.com" ++ [LF] ++ u "bb.com").
Proof.
  split; [reflexivity|]. split; [reflexivity|].
  eexists. split; [|split].
  - vm_compute. do 4 right. left. reflexivity.
  - reflexivity.
  - reflexivity.
Qed.

(** C8.  At the link step, a text that is a valid http(s) URL and also a
    reasonable NDA note is classified as a URL: the row of the session has
    the trimmed text as its project link (the text itself when it has no
    blank at either end) and no project note; a row that is appended is that
    row, and it is appended when the spreadsheet takes it. *)
Theorem url_precedes_nda_note {L : Library} (env : Env) (m : Message)
    (w : World) (text : str) :
  fsm_state (ctx w) = Some link ->
  msg_text m = Some text ->
  _is_valid_http_url text = true ->
  _is_reasonable_nda_note text = true ->
  classify_link (_norm (msg_text m)) = Some (strip text, None)
  /\ (no_lead text -> no_lead (rev text) -> strip text = text)
  /\ (forall r,
        In (AppendRow r) (new_effects (dispatch env (UMessage m)) w) ->
        project_link r = strip text /\ project_note r = None)
  /\ (sheet_row_valid (session_row env m (strip text) None w) = true ->
      store env = None ->
      exists r,
        In (AppendRow r) (new_effects (dispatch env (UMessage m)) w)
        /\ project_link r = strip text /\ project_note r = None).
Proof.
  intros Hs Ht Hu _.
  assert (Hc : classify_link (_norm (msg_text m)) = Some (strip text, None)).
  { rewrite Ht, norm_some.
    rewrite <- (strip_idem text) at 2. apply classify_url.
    unfold _is_valid_http_url in *. now rewrite strip_idem. }
  destruct (accepted_effects env m w _ _ Hs Hc) as [He _].
  destruct (completion_rows env m w (strip text) None) as [Hall Hex].
  split; [assumption|]. split; [apply strip_fixed|]. split.
  - intros r Hr. rewrite He in Hr. apply Hall in Hr. subst r. now split.
  - intros Hv Hst. exists (session_row env m (strip text) None w).
    rewrite He. split; [now apply Hex | now split].
Qed.

Lemma url_precedes_nda_note_witness :
  classify_link
    (_norm (msg_text (message_of (u "https://x.com my demo project"))))
  = Some (strip (u "https://x.com my demo project"), None)
  /\ exists r,
       In (AppendRow r)
          (new_effects (dispatch (L := sample_library)
                          (sample_env (always (u "FAIR")) None)
                          (UMessage
                             (message_of (u "https://x.com my demo project"))))
                       (world_at (Some link) six_answers))
       /\ project_link r = strip (u "https://x.com my demo project")
       /\ project_note r = None.
Proof.
  pose proof (@url_precedes_nda_note sample_library
                (sample_env (always (u "FAIR")) None)
                (message_of (u "https://x.com my demo project"))
                (world_at (Some link) six_answers)
                (u "https://x.com my demo project")
                eq_refl eq_refl eq_refl eq_refl) as [H1 [_ [_ H4]]].
  split; [exact H1 | apply H4; reflexivity].
Defined.

(** C10.  Every row the link step appends has a project note only together
    with the project link [nda], and the note is then the trimmed text,
    accepted as a reasonable NDA note; a text that is a valid URL, a
    refusal, or the bare marker [nda] gives a row without a note. *)
Theorem project_note_only_with_nda {L : Library} (env : Env) (m : Message)
    (w : World) (r : SheetRow) :
  fsm_state (ctx w) = Some link ->
  In (AppendRow r) (new_effects (dispatch env (UMessage m)) w) ->
  (forall n, project_note r = Some n ->
             project_link r = NDA /\ n = _norm (msg_text m)
             /\ _is_reasonable_nda_note n = true)
  /\ (_is_valid_http_url (_norm (msg_text m)) = true ->
      project_note r = None)
  /\ (_is_decline (_norm (msg_text m)) = true -> project_note r = None)
  /\ (Py.eqb (lower (_norm (msg_text m))) NDA = true ->
      project_note r = None).
Proof.
  intros Hs Hr.
  destruct (truthy (_norm (msg_text m))) eqn:Htr.
  2:{ exfalso. revert Hr. unfold new_effects, run.
      rewrite (dispatch_link env m w Hs). unfold link_handler.
      rewrite Htr. cbn. rewrite skipn_app, skipn_all, Nat.sub_diag.
      simpl. intros [H | []]. discriminate. }
  destruct (classify_link (_norm (msg_text m))) as [[pl pn]|] eqn:Hc.
  2:{ exfalso. revert Hr. unfold new_effects, run.
      rewrite (dispatch_link env m w Hs),
        (link_handler_rejected env m w Htr Hc).
      cbn. rewrite skipn_app, skipn_all, Nat.sub_diag.
      simpl. intros [H | []]. discriminate. }
  destruct (accepted_effects env m w _ _ Hs Hc) as [He _].
  rewrite He in Hr.
  apply (proj1 (completion_rows env m w pl pn)) in Hr. subst r.
  cbn [project_note project_link session_row make_row].
  pose proof (norm_strip (msg_text m)) as Hn.
  repeat split.
  - destruct pn as [n'|]; [|discriminate]. injection H as <-.
    now destruct (classify_note _ _ _ Hc) as [-> _].
  - destruct pn as [n'|]; [|discriminate]. injection H as <-.
    destruct (classify_note _ _ _ Hc) as [_ [-> _]]. now rewrite Hn.
  - destruct pn as [n'|]; [|discriminate]. injection H as <-.
    now destruct (classify_note _ _ _ Hc) as [_ [_ [-> _]]].
  - intros Hu. destruct pn as [n'|]; [|reflexivity].
    destruct (classify_note _ _ _ Hc) as [_ [-> [_ [_ [Hx _]]]]].
    rewrite Hn in Hx. congruence.
  - intros Hd. destruct pn as [n'|]; [|reflexivity].
    destruct (classify_note _ _ _ Hc) as [_ [-> [_ [Hx _]]]].
    rewrite Hn in Hx. congruence.
  - intros Hm. destruct pn as [n'|]; [|reflexivity].
    destruct (classify_note _ _ _ Hc) as [_ [-> [_ [_ [_ Hx]]]]].
    rewrite Hn in Hx. congruence.
Qed.

Lemma project_note_only_with_nda_witness :
  exists r,
    In (AppendRow r)
       (new_effects (dispatch (L := sample_library)
                       (sample_env (always (u "FAIR")) None)
                       (UMessage (message_of (u "nda: built a RAG pipeline"))))
                    (world_at (Some link) six_answers))
    /\ project_note r = Some (u "nda: built a RAG pipeline")
    /\ project_link r = NDA
    /\ _is_reasonable_nda_note (u "nda: built a RAG pipeline") = true.
Proof.
  exists (session_row (L := sample_library)
            (sample_env (always (u "FAIR")) None)
            (message_of (u "nda: built a RAG pipeline"))
            NDA (Some (u "nda: built a RAG pipeline"))
            (world_at (Some link) six_answers)).
  assert (Hin : In (AppendRow
                      (session_row (L := sample_library)
                         (sample_env (always (u "FAIR")) None)
                         (message_of (u "nda: built a RAG pipeline"))
                         NDA (Some (u "nda: built a RAG pipeline"))
                         (world_at (Some link) six_answers)))
                   (new_effects
                      (dispatch (L := sample_library)
                         (sample_env (always (u "FAIR")) None)
                         (UMessage
                            (message_of (u "nda: built a RAG pipeline"))))
                      (world_at (Some link) six_answers))).
  { vm_compute. do 4 right. left. reflexivity. }
  split; [exact Hin|]. split; [reflexivity|].
  destruct (@project_note_only_with_nda sample_library
              (sample_env (always (u "FAIR")) None)
              (message_of (u "nda: built a RAG pipeline"))
              (world_at (Some link) six_answers) _ eq_refl Hin) as [H _].
  destruct (H (u "nda: built a RAG pipeline") eq_refl) as [H1 [_ H3]].
  split; assumption.
Defined.

(* ================================================================== *)
(** ** Scoring *)
(* ================================================================== *)

Lemma scoring_fails_raises {L : Library} (env : Env) (p : Payload)
    (e : exn) :
  scoring_fails env p e <-> snd (score_candidate env p) = inl e.
Proof.
  unfold scoring_fails, score_candidate. cbv zeta.
  destruct (oracle env 0 (lang_name_of p) (user_prompt p)) as [e0 | t1].
  - cbn [snd]. split.
    + intros [H | [t [e1 [H _]]]]; congruence.
    + intros H. left. congruence.
  - destruct (parse_scores t1) as [e1 | r] eqn:Hp; cbn [snd].
    + split.
      * intros [H | [t [e2 [Ht [_ [H | [t2 [H2 H3]]]]]]]];
          try discriminate.
        -- now rewrite H.
        -- now rewrite H2.
      * intros H. right. exists t1, e1. split; [reflexivity|].
        split; [assumption|].
        destruct (oracle env 1 _ _) as [e2 | t2]; [left; congruence|].
        right. now exists t2.
    + split; [|discriminate].
      intros [H | [t [e2 [Ht [Hx _]]]]]; [discriminate|].
      injection Ht as <-. congruence.
Qed.

Lemma validate_all_spec {L : Library} (l : list json)
    (cs : list ScoreCriterion) :
  validate_all l = Some cs ->
  List.length cs = List.length l
  /\ Forall (fun c => (0 <= score_0_10 c <= 10)%Z) cs
  /\ Forall2 (fun j c => validate_criterion j = Some c) l cs.
Proof.
  revert cs; induction l as [|j l IH]; simpl; intros cs H.
  - injection H as <-. repeat constructor.
  - destruct (validate_criterion j) as [c|] eqn:Hc; [|discriminate].
    destruct (validate_all l) as [cs'|]; [|discriminate].
    injection H as <-. destruct (IH cs' eq_refl) as [H1 [H2 H3]].
    split; [simpl; congruence|]. split; constructor; try assumption.
    unfold validate_criterion in Hc.
    destruct j; try discriminate.
    destruct (dict_get _ fields); [|discriminate].
    destruct (dict_get _ fields); [|discriminate].
    destruct (dict_get _ fields); [|discriminate].
    destruct (str_field _); [|discriminate].
    destruct (int_field _); [|discriminate].
    destruct (str_field _); [|discriminate].
    destruct (in_range 0 10 z) eqn:Hr; [|discriminate].
    injection Hc as <-. simpl. unfold in_range in Hr.
    apply andb_prop in Hr as [Ha Hb]. lia.
Qed.

(** What an accepted value satisfies. *)
Lemma validated_shape {L : Library} (j : json) (r : ScoreResult) :
  model_validate j = inr r ->
  List.length (criteria r) = 3
  /\ Forall (fun c => (0 <= score_0_10 c <= 10)%Z) (criteria r)
  /\ (0 <= overall_score_0_10 r <= 10)%Z.
Proof.
  unfold model_validate.
  destruct (validate_score_result j) as [r'|] eqn:Hv; [|discriminate].
  intros H. injection H as <-.
  unfold validate_score_result in Hv.
  destruct j; try discriminate.
  destruct (dict_get _ fields) as [[| | | | |l|]|]; try discriminate.
  destruct (dict_get _ fields); [|discriminate].
  destruct (dict_get _ fields); [|discriminate].
  destruct (dict_get _ fields); [|discriminate].
  destruct ((3 <=? List.length l)%nat && (List.length l <=? 3)%nat) eqn:Hl;
    [|discriminate].
  destruct (validate_all l) as [cs|] eqn:Hcs; [|discriminate].
  destruct (int_field _); [|discriminate].
  destruct (bool_field _); [|discriminate].
  destruct (str_field _); [|discriminate].
  destruct (in_range 0 10 z) eqn:Hr; [|discriminate].
  injection Hv as <-. simpl.
  destruct (validate_all_spec _ _ Hcs) as [H1 [H2 _]].
  apply andb_prop in Hl as [Ha Hb].
  apply Nat.leb_le in Ha, Hb.
  unfold in_range in Hr. apply andb_prop in Hr as [Hc Hd].
  repeat split; try assumption; lia.
Qed.

(** A criteria list that is not of length 3 is rejected. *)
Lemma wrong_count_rejected {L : Library} (o : list (str * json))
    (l : list json) :
  dict_get (u "criteria") o = Some (JArr l) ->
  List.length l <> 3 ->
  model_validate (JObj o) = inl (validation_error (JObj o)).
Proof.
  intros Hc Hl. unfold model_validate, validate_score_result. rewrite Hc.
  destruct (dict_get (u "overall_score_0_10") o); [|reflexivity].
  destruct (dict_get (u "hot") o); [|reflexivity].
  destruct (dict_get (u "summary_1_2_lines") o); [|reflexivity].
  destruct ((3 <=? List.length l)%nat && (List.length l <=? 3)%nat) eqn:Hb;
    [|reflexivity].
  exfalso. apply andb_prop in Hb as [Ha Hb].
  apply Nat.leb_le in Ha, Hb. lia.
Qed.

Lemma validate_all_In {L : Library} (l : list json)
    (cs : list ScoreCriterion) (j : json) :
  validate_all l = Some cs -> In j l ->
  exists c, validate_criterion j = Some c.
Proof.
  intros H Hin. apply validate_all_spec in H as [_ [_ H]].
  induction H as [|x c l cs Hx _ IH]; [contradiction|].
  destruct Hin as [<- | Hin]; eauto.
Qed.

(** A criterion whose score reads as an integer outside 0..10 makes the
    whole value rejected. *)
Lemma score_out_of_range_rejected {L : Library} (o fields : list (str * json))
    (l : list json) (s : json) (v : Z) :
  dict_get (u "criteria") o = Some (JArr l) ->
  In (JObj fields) l ->
  dict_get (u "score_0_10") fields = Some s ->
  int_field s = Some v ->
  (v < 0 \/ 10 < v)%Z ->
  model_validate (JObj o) = inl (validation_error (JObj o)).
Proof.
  intros Hc Hin Hs Hi Hv.
  unfold model_validate, validate_score_result. rewrite Hc.
  destruct (dict_get (u "overall_score_0_10") o); [|reflexivity].
  destruct (dict_get (u "hot") o); [|reflexivity].
  destruct (dict_get (u "summary_1_2_lines") o); [|reflexivity].
  destruct ((3 <=? List.length l)%nat && (List.length l <=? 3)%nat);
    [|reflexivity].
  destruct (validate_all l) as [cs|] eqn:Hcs; [|reflexivity].
  exfalso.
  destruct (validate_all_In _ _ _ Hcs Hin) as [c Hcv].
  revert Hcv. unfold validate_criterion. rewrite Hs.
  destruct (dict_get (u "name") fields) as [jn|]; [|discriminate].
  destruct (dict_get (u "rationale") fields) as [jr|]; [|discriminate].
  rewrite Hi.
  destruct (str_field jn); [|discriminate].
  destruct (str_field jr); [|discriminate].
  destruct (in_range 0 10 v) eqn:Hrange; [|discriminate].
  unfold in_range in Hrange. apply andb_prop in Hrange as [Ha Hb]. lia.
Qed.

(** C2.  [score_candidate] calls the oracle with the user prompt.  An
    exception of that call propagates and an output that parses and validates
    is returned, with no second call.  An output that fails to parse or to
    validate is followed by exactly one more call, whose prompt is the user
    prompt with the JSON-only instruction appended, and the outcome of that
    call is the outcome of [score_candidate]: a second rejection is raised.
    There are never more than two calls.  An accepted value has exactly 3
    criteria with scores in 0..10 and an overall score in 0..10; an output
    with 2 criteria, or with a criterion whose score is 11, is rejected and
    so followed by the one retry. *)
Theorem score_candidate_retries_once {L : Library} (env : Env)
    (p : Payload) :
  let lang := lang_name_of p in
  let user := user_prompt p in
  let retry := user ++ RETRY_SUFFIX in
  (forall e, oracle env 0 lang user = inl e ->
     score_candidate env p = ([OracleCall lang user], inl e))
  /\ (forall t r, oracle env 0 lang user = inr t -> parse_scores t = inr r ->
        score_candidate env p = ([OracleCall lang user], inr r))
  /\ (forall t e1, oracle env 0 lang user = inr t ->
        parse_scores t = inl e1 ->
        score_candidate env p
        = ([OracleCall lang user; OracleCall lang retry],
           match oracle env 1 lang retry with
           | inl e => inl e
           | inr t2 => parse_scores t2
           end))
  /\ (forall t e1 t2 e2, oracle env 0 lang user = inr t ->
        parse_scores t = inl e1 ->
        oracle env 1 lang retry = inr t2 -> parse_scores t2 = inl e2 ->
        score_candidate env p
        = ([OracleCall lang user; OracleCall lang retry], inl e2))
  /\ (List.length (fst (score_candidate env p)) <= 2)%nat
  /\ (forall j r, model_validate j = inr r ->
        List.length (criteria r) = 3
        /\ Forall (fun c => (0 <= score_0_10 c <= 10)%Z) (criteria r)
        /\ (0 <= overall_score_0_10 r <= 10)%Z)
  /\ (forall t o l, oracle env 0 lang user = inr t ->
        json_loads t = inr (JObj o) ->
        dict_get (u "criteria") o = Some (JArr l) -> List.length l = 2 ->
        fst (score_candidate env p)
        = [OracleCall lang user; OracleCall lang retry])
  /\ (forall t o l fields s, oracle env 0 lang user = inr t ->
        json_loads t = inr (JObj o) ->
        dict_get (u "criteria") o = Some (JArr l) ->
        In (JObj fields) l ->
        dict_get (u "score_0_10") fields = Some s ->
        int_field s = Some 11%Z ->
        fst (score_candidate env p)
        = [OracleCall lang user; OracleCall lang retry]).
Proof.
  cbv zeta.
  assert (Hretry : forall t e1,
            oracle env 0 (lang_name_of p) (user_prompt p) = inr t ->
            parse_scores t = inl e1 ->
            score_candidate env p
            = ([OracleCall (lang_name_of p) (user_prompt p);
                OracleCall (lang_name_of p) (user_prompt p ++ RETRY_SUFFIX)],
               match oracle env 1 (lang_name_of p)
                       (user_prompt p ++ RETRY_SUFFIX) with
               | inl e => inl e
               | inr t2 => parse_scores t2
               end)).
  { intros t e1 H1 H2. unfold score_candidate. now rewrite H1, H2. }
  repeat split.
  - intros e H. unfold score_candidate. now rewrite H.
  - intros t r H1 H2. unfold score_candidate. now rewrite H1, H2.
  - exact Hretry.
  - intros t e1 t2 e2 H1 H2 H3 H4.
    rewrite (Hretry t e1 H1 H2), H3, H4. reflexivity.
  - unfold score_candidate.
    destruct (oracle env 0 _ _) as [e | t]; [cbn; lia|].
    destruct (parse_scores t); cbn; lia.
  - now apply validated_shape in H.
  - now apply validated_shape in H.
  - now apply validated_shape in H.
  - now apply validated_shape in H.
  - intros t o l H1 H2 H3 H4.
    rewrite (Hretry t (validation_error (JObj o)) H1); [reflexivity|].
    unfold parse_scores. rewrite H2.
    apply (wrong_count_rejected o l H3). lia.
  - intros t o l fields s H1 H2 H3 H4 H5 H6.
    rewrite (Hretry t (validation_error (JObj o)) H1); [reflexivity|].
    unfold parse_scores. rewrite H2.
    apply (score_out_of_range_rejected o fields l s 11%Z H3 H4 H5 H6). lia.
Qed.

Lemma score_candidate_retries_once_witness :
  score_candidate (L := sample_library)
    (sample_env (first_then (u "TWO") (u "ELEVEN")) None) sample_payload
  = ([OracleCall (u "English") (user_prompt (L := sample_library) sample_payload);
      OracleCall (u "English")
        (user_prompt (L := sample_library) sample_payload ++ RETRY_SUFFIX)],
     inl (Exn (u "validation error for ScoreResult")))
  /\ fst (score_candidate (L := sample_library)
            (sample_env (always (u "ELEVEN")) None) sample_payload)
     = [OracleCall (u "English")
          (user_prompt (L := sample_library) sample_payload);
        OracleCall (u "English")
          (user_prompt (L := sample_library) sample_payload ++ RETRY_SUFFIX)].
Proof.
  split.
  - apply (proj1 (proj2 (proj2 (proj2
             (@score_candidate_retries_once sample_library
                (sample_env (first_then (u "TWO") (u "ELEVEN")) None)
                sample_payload))))
             (u "TWO") (Exn (u "validation error for ScoreResult"))
             (u "ELEVEN") (Exn (u "validation error for ScoreResult")));
      reflexivity.
  - eapply (proj2 (proj2 (proj2 (proj2 (proj2 (proj2 (proj2
             (@score_candidate_retries_once sample_library
                (sample_env (always (u "ELEVEN")) None)
                sample_payload)))))))).
    + reflexivity.
    + reflexivity.
    + reflexivity.
    + left. reflexivity.
    + reflexivity.
    + reflexivity.
Defined.

(* ================================================================== *)
(** ** Completion of a session *)
(* ================================================================== *)

(** C1.  When the link step accepts the text and [score_candidate] raises
    (its call raises, or both outputs are rejected), the row of the session
    has [scoring_failed] set, overall score 0, the empty object as scores and
    the first 500 characters of the error text; a row that is appended is
    that row, and it is appended when the spreadsheet takes it; the closing
    message is sent and the state is reset to none. *)
Theorem scoring_failure_recorded {L : Library} (env : Env) (m : Message)
    (w : World) (pl : str) (pn : option str) (e : exn) :
  fsm_state (ctx w) = Some link ->
  classify_link (_norm (msg_text m)) = Some (pl, pn) ->
  scoring_fails env (make_payload m (answers_of (ctx w)) pl) e ->
  let row := session_row env m pl pn w in
  (scoring_failed row = true
   /\ overall_score row = 0%Z
   /\ top_candidate row = false
   /\ scores_json row = u "{}"
   /\ error row = Some (slice_to 500 (str_of_exn e))
   /\ (List.length (slice_to 500 (str_of_exn e)) <= 500)%nat)
  /\ (forall r,
        In (AppendRow r) (new_effects (dispatch env (UMessage m)) w) ->
        r = row)
  /\ (sheet_row_valid row = true -> store env = None ->
      In (AppendRow row) (new_effects (dispatch env (UMessage m)) w))
  /\ In (SendMessage (msg_chat_id m) THANKS_TEXT (closing_keyboard env m))
        (new_effects (dispatch env (UMessage m)) w)
  /\ fsm_state (ctx (run (dispatch env (UMessage m)) w)) = None.
Proof.
  intros Hs Hc Hf row.
  apply scoring_fails_raises in Hf.
  destruct (accepted_effects env m w _ _ Hs Hc) as [He [Hst _]].
  destruct (completion_rows env m w pl pn) as [Hall Hex].
  split.
  - unfold row, session_row. cbv zeta. rewrite Hf.
    cbn [scored_of make_row scoring_failed overall_score top_candidate
         scores_json error s_scoring_failed s_overall_score s_top_candidate
         s_scores_json s_error].
    repeat split. apply slice_to_length.
  - rewrite He. repeat split; try assumption. apply completion_thanks.
Qed.

Lemma scoring_failure_recorded_witness :
  scoring_failed
    (session_row (L := sample_library)
       (sample_env (first_then (u "TWO") (u "ELEVEN")) None)
       (message_of (u "https://x.com")) (u "https://x.com") None
       (world_at (Some link) six_answers)) = true
  /\ In (AppendRow
           (session_row (L := sample_library)
              (sample_env (first_then (u "TWO") (u "ELEVEN")) None)
              (message_of (u "https://x.com")) (u "https://x.com") None
              (world_at (Some link) six_answers)))
        (new_effects
           (dispatch (L := sample_library)
              (sample_env (first_then (u "TWO") (u "ELEVEN")) None)
              (UMessage (message_of (u "https://x.com"))))
           (world_at (Some link) six_answers))
  /\ fsm_state
       (ctx (run (dispatch (L := sample_library)
                    (sample_env (first_then (u "TWO") (u "ELEVEN")) None)
                    (UMessage (message_of (u "https://x.com"))))
                 (world_at (Some link) six_answers))) = None.
Proof.
  assert (Hf : scoring_fails (L := sample_library)
                 (sample_env (first_then (u "TWO") (u "ELEVEN")) None)
                 (make_payload (message_of (u "https://x.com"))
                    (answers_of (ctx (world_at (Some link) six_answers)))
                    (u "https://x.com"))
                 (Exn (u "validation error for ScoreResult"))).
  { right. exists (u "TWO"), (Exn (u "validation error for ScoreResult")).
    split; [reflexivity|]. split; [reflexivity|].
    right. exists (u "ELEVEN"). split; reflexivity. }
  destruct (@scoring_failure_recorded sample_library
              (sample_env (first_then (u "TWO") (u "ELEVEN")) None)
              (message_of (u "https://x.com"))
              (world_at (Some link) six_answers)
              (u "https://x.com") None
              (Exn (u "validation error for ScoreResult"))
              eq_refl eq_refl Hf)
    as [[H1 _] [_ [H3 [_ H5]]]].
  split; [exact H1|]. split; [|exact H5].
  apply H3; reflexivity.
Defined.

(* ================================================================== *)
(** ** The admin alert *)
(* ================================================================== *)

(** The guard of the alert reads the error text of the spreadsheet call by
    its truth value: an error with an empty text does not count. *)
Lemma alert_due_cases (sc : Scored) (sheet_error : option str) :
  alert_due sc sheet_error = true
  <-> s_scoring_failed sc = true
      \/ (exists t, sheet_error = Some t /\ t <> [])
      \/ s_top_candidate sc = true.
Proof.
  unfold alert_due. split.
  - intros H. apply orb_prop in H as [H | H];
      [apply orb_prop in H as [H | H]|]; auto.
    destruct sheet_error as [t|]; [|discriminate].
    right. left. exists t. split; [reflexivity|].
    destruct t; [discriminate | discriminate].
  - intros [H | [[t [-> Ht]] | H]].
    + now rewrite H.
    + destruct t; [contradiction|]. simpl. now rewrite orb_true_r.
    + rewrite H. now rewrite orb_true_r.
Qed.

(** When none of the three holds, no message is added for the admin. *)
Lemma alert_not_due_silent {L : Library} (env : Env) (m : Message)
    (w : World) (pl : str) (pn : option str) :
  let row := session_row env m pl pn w in
  alert_due (scored_of (snd (score_candidate env
                                (make_payload m (answers_of (ctx w)) pl))))
            (option_map (fun e => slice_to 500 (str_of_exn e))
                        (snd (append_row env row))) = false ->
  forall l t, ~ In (SendMessage (admin_alert_chat_id env)
                      (alert_header
                         (scored_of
                            (snd (score_candidate env
                                    (make_payload m (answers_of (ctx w)) pl))))
                       ++ t) l)
                (completion_effects env m pl pn w).
Proof.
  intros row Hd l t. unfold completion_effects. cbv zeta.
  fold (session_row env m pl pn w). fold row. rewrite Hd.
  set (sc := scored_of _).
  intros H.
  repeat (apply in_app_or in H; destruct H as [H | H]);
    try contradiction.
  - simpl in H. destruct H as [H | [H | []]]; [discriminate|].
    injection H as _ H _. revert H. unfold alert_header.
    destruct (s_top_candidate sc); discriminate.
  - apply score_candidate_calls in H as [l' [t' H]]. discriminate.
  - destruct (snd (score_candidate env _)); simpl in H;
      [contradiction | destruct H as [H | []]; discriminate].
  - destruct (fst (append_row env row)) as [|x xs] eqn:Ha;
      [contradiction|].
    assert (Hx : forall y, In y (fst (append_row env row)) ->
                           exists r, y = AppendRow r).
    { unfold append_row. destruct (sheet_row_valid row); [|contradiction].
      destruct (store env); simpl; [contradiction|].
      intros y [<- | []]. eauto. }
    rewrite Ha in Hx. destruct (Hx _ H) as [r Hr]. discriminate.
  - simpl in H. destruct H as [H | []]. discriminate.
  - destruct (truthy_id _); simpl in H;
      [destruct H as [H | []]; discriminate | contradiction].
  - simpl in H. destruct H as [H | []].
    injection H as _ H _. revert H. unfold alert_header.
    destruct (s_top_candidate sc); discriminate.
Qed.

(** C5, at the failing input.  The candidate is scored (not hot), the
    spreadsheet call raises an exception whose text is empty: no row is
    appended and no alert is sent; the effects of the link step are the
    scoring exchange and the closing message only. *)
Theorem alert_skipped_when_store_error_has_no_text :
  snd (append_row (L := sample_library)
         (sample_env (always (u "FAIR")) (Some (Exn [])))
         (session_row (L := sample_library)
            (sample_env (always (u "FAIR")) (Some (Exn [])))
            (message_of (u "https://x.com")) (u "https://x.com") None
            (world_at (Some link) six_answers)))
  = Some (Exn [])
  /\ new_effects
       (dispatch (L := sample_library)
          (sample_env (always (u "FAIR")) (Some (Exn [])))
          (UMessage (message_of (u "https://x.com"))))
       (world_at (Some link) six_answers)
     = [SendChatAction 42;
        SendMessage 42 SCORING_TEXT None;
        OracleCall (u "English")
          (user_prompt (L := sample_library) sample_payload);
        DeleteMessage 42 500;
        Sleep;
        DeleteMessage 42 499;
        SendMessage 42 THANKS_TEXT None].
Proof. split; reflexivity. Qed.

(** The same session with an error text: the alert is sent. *)
Example alert_sent_when_store_error_has_text :
  exists t,
    In (SendMessage (-100) t None)
       (new_effects
          (dispatch (L := sample_library)
             (sample_env (always (u "FAIR")) (Some (Exn (u "quota"))))
             (UMessage (message_of (u "https://x.com"))))
          (world_at (Some link) six_answers)).
Proof. eexists. vm_compute. do 4 right. left. reflexivity. Qed.

Lemma alert_display_cases (m : Message) :
  alert_display m
  = (if truthy (sender_full_name m) then sender_full_name m
     else u "Кандидат")
    ++ (if truthy (sender_handle m)
        then u " (@" ++ sender_handle m ++ u ")" else []).
Proof.
  unfold alert_display, sender_full_name, sender_handle.
  destruct (msg_from_user m) as [usr|]; [|reflexivity].
  rewrite (or_else_nil (user_full_name usr)).
  assert (Hh : strip match user_username usr with
                     | Some n => or_else n []
                     | None => []
                     end
               = strip match user_username usr with
                       | Some n => n
                       | None => []
                       end).
  { destruct (user_username usr); [now rewrite or_else_nil | reflexivity]. }
  rewrite Hh. unfold or_else.
  destruct (truthy (strip match user_username usr with
                          | Some n => n
                          | None => []
                          end)); [reflexivity | now rewrite app_nil_r].
Qed.

(** C9, as amended.  In the admin alert the display name is the full name
    of the sender, or the placeholder when the sender has no full name,
    followed by the handle in brackets when the sender has one; the alert
    text is its header line followed by that display name. *)
Theorem alert_display_full_name_then_handle {L : Library} (m : Message) :
  alert_display m
  = (if truthy (sender_full_name m) then sender_full_name m
     else u "Кандидат")
    ++ (if truthy (sender_handle m)
        then u " (@" ++ sender_handle m ++ u ")" else [])
  /\ forall pl sc sheet_error,
       exists rest,
         alert_text m pl sc sheet_error
         = alert_header sc ++ alert_display m ++ rest.
Proof.
  split; [apply alert_display_cases|].
  intros pl sc se. unfold alert_text, alert_header. cbv zeta.
  destruct (s_top_candidate sc); eexists;
    repeat rewrite <- app_assoc; reflexivity.
Qed.

(** C9, as stated, fails for a sender with both a handle and a full name:
    the display name starts with the full name, not with the handle. *)
Lemma alert_display_not_handle_first :
  alert_display (message_of (u "https://x.com")) = u "Ann Lee (@ann)"
  /\ display_handle_first (message_of (u "https://x.com")) = u "@ann"
  /\ alert_display (message_of (u "https://x.com"))
     <> display_handle_first (message_of (u "https://x.com")).
Proof. repeat split. discriminate. Qed.

(* ================================================================== *)
(** ** The admin summary *)
(* ================================================================== *)

Lemma str_ltb_asym (a b : str) : str_ltb a b = true -> str_ltb b a = false.
Proof.
  revert b; induction a as [|x a IH]; intros [|y b]; simpl;
    try congruence.
  intros H. apply orb_prop in H as [H | H].
  - apply N.ltb_lt in H.
    destruct (N.ltb_spec y x); [lia|].
    destruct (N.eqb_spec y x); [lia | reflexivity].
  - apply andb_prop in H as [H1 H2]. apply N.eqb_eq in H1. subst y.
    rewrite N.ltb_irrefl, N.eqb_refl. simpl. now apply IH.
Qed.

Lemma str_ltb_negtrans (a b c : str) :
  str_ltb a b = false -> str_ltb b c = false -> str_ltb a c = false.
Proof.
  revert b c; induction a as [|x a IH]; intros [|y b] [|z c]; simpl;
    try congruence.
  intros H1 H2.
  apply orb_false_elim in H1 as [H1 H1'].
  apply orb_false_elim in H2 as [H2 H2'].
  apply N.ltb_ge in H1, H2.
  destruct (N.ltb_spec x z) as [Hlt | Hge]; [lia|]. simpl.
  destruct (N.eqb_spec x z) as [-> | Hne]; [|reflexivity]. simpl.
  assert (y = z) by lia. subst y.
  rewrite N.eqb_refl in H1', H2'. simpl in H1', H2'.
  now apply (IH b c).
Qed.

Lemma key_ltb_asym (a b : NormRow) : key_ltb a b = true -> key_ltb b a = false.
Proof.
  unfold key_ltb. intros H. apply orb_prop in H as [H | H].
  - apply Z.ltb_lt in H.
    destruct (Z.ltb_spec (n_overall b) (n_overall a)); [lia|].
    destruct (Z.eqb_spec (n_overall b) (n_overall a)); [lia | reflexivity].
  - apply andb_prop in H as [H1 H2]. apply Z.eqb_eq in H1.
    rewrite H1, Z.ltb_irrefl, Z.eqb_refl. simpl. now apply str_ltb_asym.
Qed.

Lemma key_ltb_negtrans (a b c : NormRow) :
  key_ltb a b = false -> key_ltb b c = false -> key_ltb a c = false.
Proof.
  unfold key_ltb. intros H1 H2.
  apply orb_false_elim in H1 as [H1 H1'].
  apply orb_false_elim in H2 as [H2 H2'].
  apply Z.ltb_ge in H1, H2.
  destruct (Z.ltb_spec (n_overall a) (n_overall c)) as [Hlt | Hge]; [lia|].
  simpl.
  destruct (Z.eqb_spec (n_overall a) (n_overall c)) as [Heq | Hne];
    [|reflexivity].
  simpl.
  assert (Hb : n_overall b = n_overall c) by lia.
  rewrite Heq, <- Hb, Z.eqb_refl in H1'.
  rewrite Hb, Z.eqb_refl in H2'. simpl in H1', H2'.
  now apply (str_ltb_negtrans _ (n_ts b)).
Qed.

Lemma insert_desc_perm (x : NormRow) (l : list NormRow) :
  Permutation (x :: l) (insert_desc x l).
Proof.
  induction l as [|y l IH]; simpl; [apply Permutation_refl|].
  destruct (key_ltb x y); [|apply Permutation_refl].
  apply perm_trans with (y :: x :: l); [apply perm_swap|].
  now apply perm_skip.
Qed.

Lemma sorted_desc_perm (l : list NormRow) : Permutation l (sorted_desc l).
Proof.
  induction l as [|x l IH]; simpl; [apply perm_nil|].
  apply perm_trans with (x :: sorted_desc l);
    [now apply perm_skip | apply insert_desc_perm].
Qed.

Lemma insert_desc_sorted (x : NormRow) (l : list NormRow) :
  StronglySorted not_below l -> StronglySorted not_below (insert_desc x l).
Proof.
  induction l as [|y l IH]; simpl; intros Hs.
  - constructor; constructor.
  - apply StronglySorted_inv in Hs as [Hs Hy].
    destruct (key_ltb x y) eqn:Hxy.
    + constructor; [now apply IH|].
      apply (Permutation_Forall (insert_desc_perm x l)).
      constructor; [|assumption].
      unfold not_below. now apply key_ltb_asym.
    + constructor; [now constructor|].
      constructor; [exact Hxy|].
      eapply Forall_impl; [|exact Hy].
      intros z Hz. unfold not_below in *.
      now apply (key_ltb_negtrans x y z).
Qed.

Lemma sorted_desc_sorted (l : list NormRow) :
  StronglySorted not_below (sorted_desc l).
Proof.
  induction l as [|x l IH]; simpl; [constructor|].
  now apply insert_desc_sorted.
Qed.

Section ReportingFacts.
Context {L : Library}.

Lemma normalize_all (rows : list (dict str)) :
  normalize false rows = map norm_of rows.
Proof. induction rows as [|r rows IH]; simpl; congruence. Qed.

(** With [only_top], the loop keeps the rows whose flag is set. *)
Lemma normalize_top (rows : list (dict str)) :
  normalize true rows = map norm_of (filter row_is_top rows).
Proof.
  induction rows as [|r rows IH]; simpl; [reflexivity|].
  destruct (row_is_top r); simpl; congruence.
Qed.

Lemma count_if_map {A B} (f : B -> bool) (g : A -> B) (l : list A) :
  count_if f (map g l) = count_if (fun a => f (g a)) l.
Proof.
  unfold count_if. induction l as [|a l IH]; simpl; [reflexivity|].
  destruct (f (g a)); simpl; congruence.
Qed.

Lemma count_if_all {A} (f : A -> bool) (l : list A) :
  count_if f (filter f l) = List.length (filter f l).
Proof.
  unfold count_if. induction l as [|a l IH]; simpl; [reflexivity|].
  destruct (f a) eqn:E; simpl; [rewrite E; simpl|]; congruence.
Qed.

Lemma sum_overall_map (l : list (dict str)) :
  sum_overall (map norm_of l)
  = fold_right (fun r acc =>
      (_to_int (get_or (u "overall_score") (u "0") r) 0 + acc)%Z) 0%Z l.
Proof. induction l as [|r l IH]; simpl; congruence. Qed.

End ReportingFacts.

(** C6.  With [only_top] set, the loop keeps exactly the fetched rows whose
    top-candidate flag is set, and every number of the summary is computed
    from those rows: the count, the average (the rounded quotient of their
    score sum by their count), the count of top candidates, the count of
    scoring failures and the leaderboard, which is the first three of the
    kept rows in descending order of score, then of timestamp.  When rows
    were fetched and none is kept, the answer is the text for no top
    candidates, which differs from the text for an empty store. *)
Theorem top_only_summary_over_top_rows {L : Library}
    (rows : list (dict str)) :
  let top_rows := filter row_is_top rows in
  let norm := map norm_of top_rows in
  normalize true rows = norm
  /\ (top_rows <> [] ->
      _render_admin_stats true rows = render_summary true (summarize norm))
  /\ (total (summarize norm) = List.length top_rows
      /\ avg (summarize norm)
         = round1_div
             (fold_right (fun r acc =>
                (_to_int (get_or (u "overall_score") (u "0") r) 0 + acc)%Z)
                0%Z top_rows)
             (Z.of_nat (Nat.max (List.length top_rows) 1))
      /\ top_count (summarize norm) = List.length top_rows
      /\ failed_count (summarize norm)
         = count_if (fun r =>
             _to_bool (get_or (u "scoring_failed") (u "false") r)) top_rows
      /\ top3 (summarize norm) = firstn 3 (sorted_desc norm))
  /\ (Permutation norm (sorted_desc norm)
      /\ StronglySorted not_below (sorted_desc norm))
  /\ (rows <> [] -> top_rows = [] ->
      _render_admin_stats true rows = NO_TOP_TEXT)
  /\ (forall only_top, _render_admin_stats only_top [] = NO_DATA_TEXT)
  /\ NO_TOP_TEXT <> NO_DATA_TEXT.
Proof.
  intros top_rows norm.
  assert (Hn : normalize true rows = norm) by apply normalize_top.
  split; [exact Hn|]. split; [|split; [|split; [|split; [|split]]]].
  - intros Hne. unfold _render_admin_stats. rewrite Hn.
    destruct rows as [|r rows']; [now elim Hne|].
    unfold norm. destruct top_rows; [now elim Hne | reflexivity].
  - unfold summarize, norm. cbn [total avg top_count failed_count top3].
    rewrite length_map, sum_overall_map.
    repeat split.
    + rewrite count_if_map. unfold top_rows.
      change (fun a => n_top_candidate (norm_of a)) with row_is_top.
      apply count_if_all.
    + now rewrite count_if_map.
  - split; [apply sorted_desc_perm | apply sorted_desc_sorted].
  - intros Hne He. unfold _render_admin_stats. rewrite Hn.
    unfold norm. rewrite He.
    destruct rows; [now elim Hne | reflexivity].
  - reflexivity.
  - discriminate.
Qed.

Lemma top_only_summary_over_top_rows_witness :
  _render_admin_stats (L := sample_library) true three_rows
  = render_summary true
      (summarize (L := sample_library)
         (map (norm_of (L := sample_library))
            (filter row_is_top three_rows)))
  /\ _render_admin_stats (L := sample_library) true no_top_rows = NO_TOP_TEXT.
Proof.
  destruct (@top_only_summary_over_top_rows sample_library three_rows)
    as [_ [H2 _]].
  destruct (@top_only_summary_over_top_rows sample_library no_top_rows)
    as [_ [_ [_ [_ [H5 _]]]]].
  split.
  - apply H2. vm_compute. discriminate.
  - apply H5; [discriminate | reflexivity].
Defined.

Example admin_summary_all :
  _render_admin_stats (L := sample_library) false three_rows
  = u "📊 Статистика" ++ [LF]
    ++ u "Всего прохождений: 3" ++ [LF]
    ++ u "Средний балл: 8.0" ++ [LF]
    ++ u "Топ-кандидаты: 2" ++ [LF]
    ++ u "LLM errors: 0" ++ [LF]
    ++ [LF]
    ++ u "🏆 Топ-3:" ++ [LF]
    ++ u "1) 🔥 @eve — 10/10" ++ [LF]
    ++ u "2) 🔥 @ann — 8/10" ++ [LF]
    ++ u "3) Bob Ray — 6/10".
Proof. reflexivity. Qed.

Example admin_summary_top :
  _render_admin_stats (L := sample_library) true three_rows
  = u "📊 Статистика (топ)" ++ [LF]
    ++ u "Всего прохождений: 2" ++ [LF]
    ++ u "Средний балл: 9.0" ++ [LF]
    ++ u "Топ-кандидаты: 2" ++ [LF]
    ++ u "LLM errors: 0" ++ [LF]
    ++ [LF]
    ++ u "🏆 Топ-3:" ++ [LF]
    ++ u "1) 🔥 @eve — 10/10" ++ [LF]
    ++ u "2) 🔥 @ann — 8/10".
Proof. reflexivity. Qed.

(* ================================================================== *)
(** ** Further properties: the question flow *)
(* ================================================================== *)

Lemma eqb_refl (a : str) : Py.eqb a a = true.
Proof. now apply eqb_eq. Qed.

Lemma eqb_neq (a b : str) : a <> b -> Py.eqb a b = false.
Proof.
  intros H. destruct (Py.eqb a b) eqn:E; [|reflexivity].
  apply eqb_eq in E. contradiction.
Qed.

Lemma dict_get_set_same {V} (k : str) (v : V) (d : dict V) :
  dict_get k (dict_set k v d) = Some v.
Proof.
  induction d as [|[k' v'] d IH]; simpl.
  - now rewrite eqb_refl.
  - destruct (Py.eqb k k') eqn:E; simpl; rewrite E; [reflexivity | exact IH].
Qed.

Lemma dict_get_set_other {V} (k k' : str) (v : V) (d : dict V) :
  k' <> k -> dict_get k' (dict_set k v d) = dict_get k' d.
Proof.
  intros Hne. induction d as [|[k0 v0] d IH]; simpl.
  - now rewrite (eqb_neq _ _ Hne).
  - destruct (Py.eqb k k0) eqn:E; simpl.
    + apply eqb_eq in E. subst k0. now rewrite (eqb_neq _ _ Hne).
    + destruct (Py.eqb k' k0); [reflexivity | exact IH].
Qed.

Lemma truthy_nonempty (s : str) : s <> [] -> truthy s = true.
Proof. destruct s; [contradiction | reflexivity]. Qed.

Section FlowFacts.
Context {L : Library}.
Variable env : Env.

(** The world an accepted answer leaves. *)
Lemma dispatch_answer (s : ScreeningStates) (m : Message) (w : World) :
  question_step s = true ->
  fsm_state (ctx w) = Some s ->
  _norm (msg_text m) <> [] ->
  dispatch env (UMessage m) w
  = (tt, {| ctx := {| fsm_state := Some (next_step s);
                      answers := Some (dict_set (step_key s)
                                         (_norm (msg_text m))
                                         (answers_of (ctx w)));
                      last_bot_msg_id := Some (message_ids env (sent w)) |};
            trace := trace w
                     ++ upkeep_effects (msg_chat_id m)
                          (last_bot_msg_id (ctx w)) s
                     ++ [SendMessage (msg_chat_id m)
                           (prompt_of (next_step s)) None];
            sent := S (sent w) |}).
Proof.
  intros Hq Hs Hn. apply truthy_nonempty in Hn.
  unfold dispatch, bind, get_state. rewrite Hs.
  destruct s; try discriminate;
    unfold q1_handler, q2_handler, q3_handler, q4_handler, q5_handler,
      q6_handler, question_handler; rewrite Hn; cbn [negb];
    unfold bind, get_data, update_answers, with_ctx, _transition_accepted,
      set_state, _ask_q, _send_replace, bind, get_data, emit, answer,
      update_last_bot_msg_id, with_ctx, ret, upkeep_effects;
    cbn [fst snd ctx trace sent fsm_state answers last_bot_msg_id];
    destruct (truthy_id (last_bot_msg_id (ctx w))) as [i|] eqn:Hi;
    cbn [fst snd ctx trace sent fsm_state answers last_bot_msg_id];
    rewrite ?Hi;
    cbn [fst snd ctx trace sent fsm_state answers last_bot_msg_id];
    repeat rewrite <- app_assoc; reflexivity.
Qed.

Lemma upkeep_only (chat : Z) (last : option Z) (s : ScreeningStates) :
  Forall (prompt_upkeep chat last (step_no s)) (upkeep_effects chat last s).
Proof.
  unfold upkeep_effects, prompt_upkeep.
  destruct (truthy_id last) as [i|]; destruct s;
    repeat (apply Forall_cons || apply Forall_nil || cbn [app]);
    first [ left; reflexivity
          | right; exists i; split; [reflexivity | left; reflexivity]
          | right; exists i; split; [reflexivity | right; reflexivity] ].
Qed.

End FlowFacts.

(** X1.  At a question step, a message whose trimmed text is not empty is
    stored under the key of that step and nothing else in the answers
    changes; the state moves to the next step, whose prompt is the last
    effect and becomes the tracked prompt; before it there are only the
    pacing delays and the mark on and removal of the previous prompt. *)
Theorem answer_recorded_and_step_advanced {L : Library} (env : Env)
    (s : ScreeningStates) (m : Message) (w : World) :
  question_step s = true ->
  fsm_state (ctx w) = Some s ->
  _norm (msg_text m) <> [] ->
  fsm_state (ctx (run (dispatch env (UMessage m)) w)) = Some (next_step s)
  /\ dict_get (step_key s) (answers_of (ctx (run (dispatch env (UMessage m)) w)))
     = Some (_norm (msg_text m))
  /\ (forall k, k <> step_key s ->
        dict_get k (answers_of (ctx (run (dispatch env (UMessage m)) w)))
        = dict_get k (answers_of (ctx w)))
  /\ last_bot_msg_id (ctx (run (dispatch env (UMessage m)) w))
     = Some (message_ids env (sent w))
  /\ exists pre,
       new_effects (dispatch env (UMessage m)) w
       = pre ++ [SendMessage (msg_chat_id m) (prompt_of (next_step s)) None]
       /\ Forall (prompt_upkeep (msg_chat_id m) (last_bot_msg_id (ctx w))
                    (step_no s)) pre.
Proof.
  intros Hq Hs Hn. unfold run, answers_of.
  pose proof (dispatch_answer env s m w Hq Hs Hn) as Hd.
  rewrite Hd. cbn [snd ctx fsm_state answers last_bot_msg_id].
  split; [reflexivity|]. split; [apply dict_get_set_same|].
  split; [intros k Hk; now apply dict_get_set_other|].
  split; [reflexivity|].
  exists (upkeep_effects (msg_chat_id m) (last_bot_msg_id (ctx w)) s).
  split; [|apply upkeep_only].
  apply new_effects_of. unfold run. now rewrite Hd.
Qed.

Lemma answer_recorded_and_step_advanced_witness :
  fsm_state
    (ctx (run (dispatch (L := sample_library) (sample_env unreachable None)
                 (UMessage (message_of (u " I built a bot "))))
              (world_at (Some q2) [(u "q1", u "a1")])))
  = Some q3
  /\ answers_of
       (ctx (run (dispatch (L := sample_library) (sample_env unreachable None)
                    (UMessage (message_of (u " I built a bot "))))
                 (world_at (Some q2) [(u "q1", u "a1")])))
     = [(u "q1", u "a1"); (u "q2", u "I built a bot")].
Proof.
  destruct (@answer_recorded_and_step_advanced sample_library
              (sample_env unreachable None) q2
              (message_of (u " I built a bot "))
              (world_at (Some q2) [(u "q1", u "a1")])
              eq_refl eq_refl) as [H1 _].
  - discriminate.
  - split; [exact H1 | reflexivity].
Defined.

Lemma run_all_cons {L : Library} (env : Env) (upd : update)
    (upds : list update) (w : World) :
  run_all env (upd :: upds) w = run_all env upds (run (dispatch env upd) w).
Proof. reflexivity. Qed.

(** X2.  After a start command and a press on the start button, six
    messages with non-empty trimmed texts bring the session to the link
    step with exactly the six trimmed texts under q1..q6, in that order,
    whatever the session held before. *)
Theorem six_answers_reach_link_step {L : Library} (env : Env)
    (m0 mb m1 m2 m3 m4 m5 m6 : Message) (w : World) :
  _norm (msg_text m1) <> [] -> _norm (msg_text m2) <> [] ->
  _norm (msg_text m3) <> [] -> _norm (msg_text m4) <> [] ->
  _norm (msg_text m5) <> [] -> _norm (msg_text m6) <> [] ->
  fsm_state
    (ctx (run_all env
            [UCommand CmdStart m0; UGoStart mb; UMessage m1; UMessage m2;
             UMessage m3; UMessage m4; UMessage m5; UMessage m6] w))
  = Some link
  /\ answers
       (ctx (run_all env
               [UCommand CmdStart m0; UGoStart mb; UMessage m1; UMessage m2;
                UMessage m3; UMessage m4; UMessage m5; UMessage m6] w))
     = Some [(u "q1", _norm (msg_text m1)); (u "q2", _norm (msg_text m2));
             (u "q3", _norm (msg_text m3)); (u "q4", _norm (msg_text m4));
             (u "q5", _norm (msg_text m5)); (u "q6", _norm (msg_text m6))].
Proof.
  intros H1 H2 H3 H4 H5 H6.
  rewrite !run_all_cons.
  set (w1 := run (dispatch env (UGoStart mb))
               (run (dispatch env (UCommand CmdStart m0)) w)).
  assert (Hw1 : fsm_state (ctx w1) = Some q1 /\ answers (ctx w1) = Some [])
    by (split; reflexivity).
  destruct Hw1 as [Hs1 Ha1].
  set (w2 := run (dispatch env (UMessage m1)) w1).
  assert (Hw2 : ctx w2 = {| fsm_state := Some q2;
                            answers := Some [(u "q1", _norm (msg_text m1))];
                            last_bot_msg_id :=
                              Some (message_ids env (sent w1)) |}).
  { unfold w2, run. rewrite (dispatch_answer env q1 m1 w1 eq_refl Hs1 H1).
    cbn [snd ctx]. unfold answers_of. now rewrite Ha1. }
  set (w3 := run (dispatch env (UMessage m2)) w2).
  assert (Hw3 : ctx w3 = {| fsm_state := Some q3;
                            answers := Some [(u "q1", _norm (msg_text m1));
                                             (u "q2", _norm (msg_text m2))];
                            last_bot_msg_id :=
                              Some (message_ids env (sent w2)) |}).
  { unfold w3, run. rewrite (dispatch_answer env q2 m2 w2 eq_refl); trivial;
      [|now rewrite Hw2].
    cbn [snd ctx]. unfold answers_of. now rewrite Hw2. }
  set (w4 := run (dispatch env (UMessage m3)) w3).
  assert (Hw4 : ctx w4 = {| fsm_state := Some q4;
                            answers := Some [(u "q1", _norm (msg_text m1));
                                             (u "q2", _norm (msg_text m2));
                                             (u "q3", _norm (msg_text m3))];
                            last_bot_msg_id :=
                              Some (message_ids env (sent w3)) |}).
  { unfold w4, run. rewrite (dispatch_answer env q3 m3 w3 eq_refl); trivial;
      [|now rewrite Hw3].
    cbn [snd ctx]. unfold answers_of. now rewrite Hw3. }
  set (w5 := run (dispatch env (UMessage m4)) w4).
  assert (Hw5 : ctx w5 = {| fsm_state := Some q5;
                            answers := Some [(u "q1", _norm (msg_text m1));
                                             (u "q2", _norm (msg_text m2));
                                             (u "q3", _norm (msg_text m3));
                                             (u "q4", _norm (msg_text m4))];
                            last_bot_msg_id :=
                              Some (message_ids env (sent w4)) |}).
  { unfold w5, run. rewrite (dispatch_answer env q4 m4 w4 eq_refl); trivial;
      [|now rewrite Hw4].
    cbn [snd ctx]. unfold answers_of. now rewrite Hw4. }
  set (w6 := run (dispatch env (UMessage m5)) w5).
  assert (Hw6 : ctx w6 = {| fsm_state := Some q6;
                            answers := Some [(u "q1", _norm (msg_text m1));
                                             (u "q2", _norm (msg_text m2));
                                             (u "q3", _norm (msg_text m3));
                                             (u "q4", _norm (msg_text m4));
                                             (u "q5", _norm (msg_text m5))];
                            last_bot_msg_id :=
                              Some (message_ids env (sent w5)) |}).
  { unfold w6, run. rewrite (dispatch_answer env q5 m5 w5 eq_refl); trivial;
      [|now rewrite Hw5].
    cbn [snd ctx]. unfold answers_of. now rewrite Hw5. }
  unfold run_all. cbn [fold_left]. unfold run at 1 2.
  rewrite (dispatch_answer env q6 m6 w6 eq_refl); trivial;
    [|now rewrite Hw6].
  cbn [snd ctx fsm_state answers]. unfold answers_of. rewrite Hw6.
  split; reflexivity.
Qed.

Lemma six_answers_reach_link_step_witness :
  fsm_state
    (ctx (run_all (L := sample_library) (sample_env unreachable None)
            [UCommand CmdStart (message_of (u "/start"));
             UGoStart (message_of (u "rules"));
             UMessage (message_of (u "a1")); UMessage (message_of (u "a2"));
             UMessage (message_of (u "a3")); UMessage (message_of (u "a4"));
             UMessage (message_of (u "a5")); UMessage (message_of (u "a6"))]
            (world_at (Some q4) [(u "q1", u "old")])))
  = Some link
  /\ answers
       (ctx (run_all (L := sample_library) (sample_env unreachable None)
               [UCommand CmdStart (message_of (u "/start"));
                UGoStart (message_of (u "rules"));
                UMessage (message_of (u "a1")); UMessage (message_of (u "a2"));
                UMessage (message_of (u "a3")); UMessage (message_of (u "a4"));
                UMessage (message_of (u "a5")); UMessage (message_of (u "a6"))]
               (world_at (Some q4) [(u "q1", u "old")])))
     = Some six_answers.
Proof.
  apply (@six_answers_reach_link_step sample_library
           (sample_env unreachable None));
    discriminate.
Defined.

(** X3.  A press on the start button outside the rules step changes
    nothing and is only acknowledged; at the rules step it removes the
    button and its message, opens the first question with an empty answers
    mapping and tracks the question as the current prompt. *)
Theorem start_button_only_at_rules_step {L : Library} (env : Env)
    (m : Message) (w : World) :
  (fsm_state (ctx w) <> Some rules ->
   ctx (run (dispatch env (UGoStart m)) w) = ctx w
   /\ new_effects (dispatch env (UGoStart m)) w
      = [AnswerCallback (Some (u "Ок"))])
  /\ (fsm_state (ctx w) = Some rules ->
      ctx (run (dispatch env (UGoStart m)) w)
      = {| fsm_state := Some q1; answers := Some [];
           last_bot_msg_id := Some (message_ids env (sent w)) |}
      /\ new_effects (dispatch env (UGoStart m)) w
         = [EditReplyMarkup (msg_chat_id m) (msg_message_id m);
            DeleteMessage (msg_chat_id m) (msg_message_id m);
            Sleep;
            SendMessage (msg_chat_id m) (prompt_of q1) None;
            AnswerCallback None]).
Proof.
  split; intros Hs.
  - assert (Hd : dispatch env (UGoStart m) w
                 = (tt, {| ctx := ctx w;
                           trace := trace w ++ [AnswerCallback (Some (u "Ок"))];
                           sent := sent w |})).
    { unfold dispatch, go_start_cb, bind, get_state.
      destruct (fsm_state (ctx w)) as [[]|]; try reflexivity.
      now elim Hs. }
    split; [unfold run; now rewrite Hd|].
    apply new_effects_of. unfold run. now rewrite Hd.
  - assert (Hd : dispatch env (UGoStart m) w
                 = (tt, {| ctx := {| fsm_state := Some q1; answers := Some [];
                                     last_bot_msg_id :=
                                       Some (message_ids env (sent w)) |};
                           trace := trace w
                             ++ [EditReplyMarkup (msg_chat_id m)
                                   (msg_message_id m);
                                 DeleteMessage (msg_chat_id m)
                                   (msg_message_id m);
                                 Sleep;
                                 SendMessage (msg_chat_id m) (prompt_of q1) None;
                                 AnswerCallback None];
                           sent := S (sent w) |})).
    { unfold dispatch, go_start_cb, bind, get_state. rewrite Hs.
      unfold emit, set_state, update_answers, update_last_bot_msg_id,
        with_ctx, _ask_q, _send_replace, bind, get_data, emit, answer,
        update_last_bot_msg_id, with_ctx, ret.
      cbn [fst snd ctx trace sent fsm_state answers last_bot_msg_id
           truthy_id].
      repeat rewrite <- app_assoc. reflexivity. }
    split; [unfold run; now rewrite Hd|].
    apply new_effects_of. unfold run. now rewrite Hd.
Qed.

Lemma start_button_only_at_rules_step_witness :
  ctx (run (dispatch (L := sample_library) (sample_env unreachable None)
              (UGoStart (message_of (u "rules"))))
           (world_at (Some q3) [(u "q1", u "a1")]))
  = ctx (world_at (Some q3) [(u "q1", u "a1")])
  /\ fsm_state
       (ctx (run (dispatch (L := sample_library) (sample_env unreachable None)
                    (UGoStart (message_of (u "rules"))))
                 (world_at (Some rules) [])))
     = Some q1.
Proof.
  destruct (@start_button_only_at_rules_step sample_library
              (sample_env unreachable None) (message_of (u "rules"))
              (world_at (Some q3) [(u "q1", u "a1")])) as [H1 _].
  destruct (@start_button_only_at_rules_step sample_library
              (sample_env unreachable None) (message_of (u "rules"))
              (world_at (Some rules) [])) as [_ H2].
  split.
  - apply H1. discriminate.
  - destruct (H2 eq_refl) as [H _]. now rewrite H.
Defined.

(** X4.  At the link step, a message whose trimmed text is empty (or that
    has no text) leaves the FSM context as it was; the only effect is the
    reprompt for a link, and nothing is scored or stored. *)
Theorem empty_link_changes_nothing {L : Library} (env : Env)
    (m : Message) (w : World) :
  fsm_state (ctx w) = Some link ->
  _norm (msg_text m) = [] ->
  ctx (run (dispatch env (UMessage m)) w) = ctx w
  /\ new_effects (dispatch env (UMessage m)) w
     = [SendMessage (msg_chat_id m) REPROMPT_LINK None].
Proof.
  intros Hs Hn.
  assert (Hd : dispatch env (UMessage m) w
               = (tt, {| ctx := ctx w;
                         trace := trace w
                           ++ [SendMessage (msg_chat_id m) REPROMPT_LINK None];
                         sent := S (sent w) |})).
  { rewrite (dispatch_link env m w Hs). unfold link_handler.
    rewrite Hn. reflexivity. }
  split; [unfold run; now rewrite Hd|].
  apply new_effects_of. unfold run. now rewrite Hd.
Qed.

Lemma empty_link_changes_nothing_witness :
  ctx (run (dispatch (L := sample_library) (sample_env (always (u "FAIR")) None)
              (UMessage {| msg_from_user := Some ann; msg_text := None;
                           msg_chat_id := 42; msg_message_id := 7 |}))
           (world_at (Some link) six_answers))
  = ctx (world_at (Some link) six_answers)
  /\ new_effects
       (dispatch (L := sample_library) (sample_env (always (u "FAIR")) None)
          (UMessage {| msg_from_user := Some ann; msg_text := None;
                       msg_chat_id := 42; msg_message_id := 7 |}))
       (world_at (Some link) six_answers)
     = [SendMessage 42 REPROMPT_LINK None].
Proof.
  apply (@empty_link_changes_nothing sample_library); reflexivity.
Defined.

(* ================================================================== *)
(** ** Further properties: the completion of a session *)
(* ================================================================== *)

Section CompletionFacts.
Context {L : Library}.
Variable env : Env.

Lemma parse_scores_valid (t : str) (r : ScoreResult) :
  parse_scores t = inr r -> well_formed_scores r.
Proof.
  unfold parse_scores. destruct (json_loads t) as [e | j]; [discriminate|].
  apply validated_shape.
Qed.

Lemma score_candidate_valid (p : Payload) (r : ScoreResult) :
  snd (score_candidate env p) = inr r -> well_formed_scores r.
Proof.
  unfold score_candidate.
  destruct (oracle env 0 _ _) as [e | t]; [discriminate|].
  destruct (parse_scores t) as [e1 | r1] eqn:Hp; cbn [snd].
  - destruct (oracle env 1 _ _) as [e2 | t2]; [discriminate|].
    apply parse_scores_valid.
  - intros H. injection H as <-. now apply parse_scores_valid in Hp.
Qed.

Lemma score_candidate_calls_shape (p : Payload) :
  fst (score_candidate env p)
  = [OracleCall (lang_name_of p) (user_prompt p)]
  \/ fst (score_candidate env p)
     = [OracleCall (lang_name_of p) (user_prompt p);
        OracleCall (lang_name_of p) (user_prompt p ++ RETRY_SUFFIX)].
Proof.
  unfold score_candidate.
  destruct (oracle env 0 _ _) as [e | t]; [now left|].
  destruct (parse_scores t); [now right | now left].
Qed.

Lemma append_row_shape (r : SheetRow) :
  fst (append_row env r) = [] \/ fst (append_row env r) = [AppendRow r].
Proof.
  unfold append_row. destruct (sheet_row_valid r); [|now left].
  destruct (store env); [now left | now right].
Qed.

Lemma completion_ctx (m : Message) (w : World) (pl : str)
    (pn : option str) :
  fsm_state (ctx w) = Some link ->
  classify_link (_norm (msg_text m)) = Some (pl, pn) ->
  run (dispatch env (UMessage m)) w
  = {| ctx := {| fsm_state := None;
                 answers := answers (ctx w);
                 last_bot_msg_id := Some (message_ids env (S (sent w))) |};
       trace := trace w ++ completion_effects env m pl pn w;
       sent := S (S (sent w)) |}.
Proof.
  intros Hs Hc. unfold run.
  now rewrite (dispatch_link env m w Hs),
    (link_handler_accepted env m w pl pn Hc), complete_session_run.
Qed.

Lemma overall_in_range (m : Message) (w : World) (pl : str)
    (pn : option str) :
  in_range 0 10 (overall_score (session_row env m pl pn w)) = true.
Proof.
  unfold session_row. cbv zeta. cbn [overall_score make_row].
  destruct (snd (score_candidate env _)) as [e | r] eqn:Hr;
    cbn [scored_of s_overall_score]; [reflexivity|].
  apply score_candidate_valid in Hr. destruct Hr as [_ [_ Hr]].
  unfold in_range. apply andb_true_intro. split; apply Z.leb_le; lia.
Qed.

Lemma completion_last (m : Message) (w : World) (pl : str)
    (pn : option str) :
  exists pre,
    completion_effects env m pl pn w
    = pre ++ [SendMessage (msg_chat_id m) THANKS_TEXT
                (closing_keyboard env m)].
Proof.
  unfold completion_effects, closing_keyboard. cbv zeta.
  eexists. repeat rewrite app_assoc. reflexivity.
Qed.

End CompletionFacts.

(** X5.  When the link step accepts the text and [score_candidate]
    returns a model, that model has 3 criteria with scores in 0..10 and an
    overall score in 0..10, and the row of the session carries it: no
    failure flag, no error text, its overall score, its hot flag and its
    dump as scores; the notice shown during scoring is removed. *)
Theorem accepted_scores_recorded {L : Library} (env : Env) (m : Message)
    (w : World) (pl : str) (pn : option str) (r : ScoreResult) :
  fsm_state (ctx w) = Some link ->
  classify_link (_norm (msg_text m)) = Some (pl, pn) ->
  snd (score_candidate env (make_payload m (answers_of (ctx w)) pl)) = inr r ->
  well_formed_scores r
  /\ scoring_failed (session_row env m pl pn w) = false
  /\ error (session_row env m pl pn w) = None
  /\ overall_score (session_row env m pl pn w) = overall_score_0_10 r
  /\ top_candidate (session_row env m pl pn w) = hot r
  /\ scores_json (session_row env m pl pn w) = json_dumps (model_dump r)
  /\ In (DeleteMessage (msg_chat_id m) (message_ids env (sent w)))
        (new_effects (dispatch env (UMessage m)) w).
Proof.
  intros Hs Hc Hr.
  split; [now apply (score_candidate_valid env _ _ Hr)|].
  unfold session_row. cbv zeta. rewrite Hr.
  cbn [scored_of make_row scoring_failed error overall_score top_candidate
       scores_json s_scoring_failed s_error s_overall_score s_top_candidate
       s_scores_json].
  repeat split.
  rewrite (proj1 (accepted_effects env m w pl pn Hs Hc)).
  unfold completion_effects. cbv zeta. rewrite Hr.
  apply in_or_app. right. apply in_or_app. right. apply in_or_app. left.
  now left.
Qed.

Lemma accepted_scores_recorded_witness :
  overall_score
    (session_row (L := sample_library) (sample_env (always (u "HOT")) None)
       (message_of (u "https://x.com")) (u "https://x.com") None
       (world_at (Some link) six_answers)) = 9%Z
  /\ top_candidate
       (session_row (L := sample_library) (sample_env (always (u "HOT")) None)
          (message_of (u "https://x.com")) (u "https://x.com") None
          (world_at (Some link) six_answers)) = true
  /\ scoring_failed
       (session_row (L := sample_library) (sample_env (always (u "HOT")) None)
          (message_of (u "https://x.com")) (u "https://x.com") None
          (world_at (Some link) six_answers)) = false.
Proof.
  destruct (@accepted_scores_recorded sample_library
              (sample_env (always (u "HOT")) None)
              (message_of (u "https://x.com"))
              (world_at (Some link) six_answers) (u "https://x.com") None
              {| criteria :=
                   [ {| name := u "Criterion"; score_0_10 := 9;
                        rationale := u "Clear." |};
                     {| name := u "Criterion"; score_0_10 := 8;
                        rationale := u "Clear." |};
                     {| name := u "Criterion"; score_0_10 := 9;
                        rationale := u "Clear." |} ];
                 overall_score_0_10 := 9; hot := true;
                 summary_1_2_lines := u "Summary." |}
              eq_refl eq_refl eq_refl)
    as [_ [H2 [_ [H4 [H5 _]]]]].
  split; [exact H4|]. split; [exact H5 | exact H2].
Defined.

(** X6.  The overall score of the row the link step builds is always
    within 0..10, so [append_row] refuses that row only for a negative user
    id or a negative latency; a message without sender gives user id 0. *)
Theorem session_row_refused_only_for_id_or_latency {L : Library}
    (env : Env) (m : Message) (w : World) (pl : str) (pn : option str) :
  in_range 0 10 (overall_score (session_row env m pl pn w)) = true
  /\ sheet_row_valid (session_row env m pl pn w)
     = (0 <=? tg_user_id (session_row env m pl pn w))%Z
       && (0 <=? elapsed_ms env)%Z
  /\ (msg_from_user m = None -> tg_user_id (session_row env m pl pn w) = 0%Z).
Proof.
  pose proof (overall_in_range env m w pl pn) as Ho.
  split; [exact Ho|]. split.
  - unfold sheet_row_valid. rewrite Ho. now rewrite andb_true_r.
  - intros Hn. unfold session_row. cbv zeta. cbn [tg_user_id make_row].
    now rewrite Hn.
Qed.

(** X7.  An accepted link message makes one or two calls to the oracle and
    appends at most one row, which is the row of the session and is
    appended when the spreadsheet takes it; the closing message is the last
    effect. *)
Theorem one_exchange_at_most_one_row {L : Library} (env : Env)
    (m : Message) (w : World) (pl : str) (pn : option str) :
  fsm_state (ctx w) = Some link ->
  classify_link (_norm (msg_text m)) = Some (pl, pn) ->
  (1 <= List.length (filter is_oracle_call
                       (new_effects (dispatch env (UMessage m)) w)) <= 2)%nat
  /\ (filter is_append (new_effects (dispatch env (UMessage m)) w) = []
      \/ filter is_append (new_effects (dispatch env (UMessage m)) w)
         = [AppendRow (session_row env m pl pn w)])
  /\ (sheet_row_valid (session_row env m pl pn w) = true ->
      store env = None ->
      filter is_append (new_effects (dispatch env (UMessage m)) w)
      = [AppendRow (session_row env m pl pn w)])
  /\ exists pre,
       new_effects (dispatch env (UMessage m)) w
       = pre ++ [SendMessage (msg_chat_id m) THANKS_TEXT
                   (closing_keyboard env m)].
Proof.
  intros Hs Hc.
  rewrite (proj1 (accepted_effects env m w pl pn Hs Hc)).
  pose proof (completion_last env m w pl pn) as Hlast.
  revert Hlast.
  unfold completion_effects. cbv zeta.
  fold (session_row env m pl pn w).
  intros Hlast.
  set (p := make_payload m (answers_of (ctx w)) pl).
  set (row := session_row env m pl pn w).
  set (alert := if alert_due _ _ then _ else _).
  assert (Ha : filter is_append alert = [] /\ filter is_oracle_call alert = []).
  { unfold alert. destruct (alert_due _ _); split; reflexivity. }
  set (del1 := match snd (score_candidate env p) with
               | inl _ => [] | inr _ => _ end).
  assert (Hd1 : filter is_append del1 = [] /\ filter is_oracle_call del1 = []).
  { unfold del1. destruct (snd (score_candidate env p)); split; reflexivity. }
  set (del2 := match truthy_id (last_bot_msg_id (ctx w)) with
               | Some i => _ | None => [] end).
  assert (Hd2 : filter is_append del2 = [] /\ filter is_oracle_call del2 = []).
  { unfold del2. destruct (truthy_id _); split; reflexivity. }
  assert (Hcalls : filter is_append (fst (score_candidate env p)) = []
                   /\ (1 <= List.length (filter is_oracle_call
                                           (fst (score_candidate env p)))
                       <= 2)%nat).
  { destruct (score_candidate_calls_shape env p) as [-> | ->];
      split; cbn; try reflexivity; lia. }
  assert (Hrow : filter is_oracle_call (fst (append_row env row)) = []
                 /\ (filter is_append (fst (append_row env row)) = []
                     \/ filter is_append (fst (append_row env row))
                        = [AppendRow row])).
  { destruct (append_row_shape env row) as [-> | ->]; split; cbn; auto. }
  destruct Ha as [Ha1 Ha2], Hd1 as [Hd11 Hd12], Hd2 as [Hd21 Hd22],
    Hcalls as [Hc1 Hc2], Hrow as [Hr1 Hr2].
  rewrite !filter_app, Ha1, Ha2, Hd11, Hd12, Hd21, Hd22, Hc1, Hr1.
  cbn [filter is_append is_oracle_call app].
  rewrite !app_nil_r.
  split; [exact Hc2|]. split; [exact Hr2|]. split.
  - intros Hv Hst. unfold row in *.
    now rewrite (append_row_accepts env _ Hv Hst).
  - exact Hlast.
Qed.

Lemma one_exchange_at_most_one_row_witness :
  filter is_append
    (new_effects
       (dispatch (L := sample_library) (sample_env (always (u "FAIR")) None)
          (UMessage (message_of (u "https://x.com"))))
       (world_at (Some link) six_answers))
  = [AppendRow
       (session_row (L := sample_library)
          (sample_env (always (u "FAIR")) None)
          (message_of (u "https://x.com")) (u "https://x.com") None
          (world_at (Some link) six_answers))].
Proof.
  destruct (@one_exchange_at_most_one_row sample_library
              (sample_env (always (u "FAIR")) None)
              (message_of (u "https://x.com"))
              (world_at (Some link) six_answers) (u "https://x.com") None
              eq_refl eq_refl) as [_ [_ [H _]]].
  apply H; reflexivity.
Defined.

Lemma slice_to_nonempty (n : nat) (s : str) :
  s <> [] -> slice_to (S n) s <> [].
Proof. destruct s; [contradiction | discriminate]. Qed.

(** X8.  An accepted link message sends the admin alert whenever scoring
    failed, or the candidate is hot, or [append_row] raised an exception
    with a non-empty text; the alert is one message to the alert chat with
    the alert text, sent as plain text without keyboard. *)
Theorem alert_sent_on_failure_or_hot {L : Library} (env : Env)
    (m : Message) (w : World) (pl : str) (pn : option str) :
  fsm_state (ctx w) = Some link ->
  classify_link (_norm (msg_text m)) = Some (pl, pn) ->
  scoring_failed (session_row env m pl pn w) = true
  \/ top_candidate (session_row env m pl pn w) = true
  \/ (exists e, snd (append_row env (session_row env m pl pn w)) = Some e
                /\ str_of_exn e <> []) ->
  In (SendMessage (admin_alert_chat_id env)
        (alert_text m pl
           (scored_of (snd (score_candidate env
                              (make_payload m (answers_of (ctx w)) pl))))
           (option_map (fun e => slice_to 500 (str_of_exn e))
              (snd (append_row env (session_row env m pl pn w)))))
        None)
     (new_effects (dispatch env (UMessage m)) w).
Proof.
  intros Hs Hc Hdue.
  rewrite (proj1 (accepted_effects env m w pl pn Hs Hc)).
  assert (Had : alert_due
                  (scored_of (snd (score_candidate env
                                     (make_payload m (answers_of (ctx w)) pl))))
                  (option_map (fun e => slice_to 500 (str_of_exn e))
                     (snd (append_row env (session_row env m pl pn w))))
                = true).
  { apply alert_due_cases.
    destruct Hdue as [H | [H | [e [H1 H2]]]].
    - left. exact H.
    - right. right. exact H.
    - right. left. exists (slice_to 500 (str_of_exn e)).
      rewrite H1. split; [reflexivity|].
      now apply slice_to_nonempty. }
  unfold completion_effects. cbv zeta.
  fold (session_row env m pl pn w). rewrite Had.
  do 4 (apply in_or_app; right). apply in_or_app. left. now left.
Qed.

Lemma alert_sent_on_failure_or_hot_witness :
  exists t,
    In (SendMessage (-100) t None)
       (new_effects
          (dispatch (L := sample_library) (sample_env unreachable None)
             (UMessage (message_of (u "https://x.com"))))
          (world_at (Some link) six_answers)).
Proof.
  eexists.
  apply (@alert_sent_on_failure_or_hot sample_library
           (sample_env unreachable None) (message_of (u "https://x.com"))
           (world_at (Some link) six_answers) (u "https://x.com") None
           eq_refl eq_refl).
  left. reflexivity.
Defined.

(** X9.  An accepted link message resets the state only: the answers stay
    in the FSM data and the closing message becomes the tracked prompt.
    The prompt tracked before is removed ahead of the closing message, and
    a further plain message finds no handler and changes nothing. *)
Theorem completion_keeps_answers {L : Library} (env : Env) (m m' : Message)
    (w : World) (pl : str) (pn : option str) :
  fsm_state (ctx w) = Some link ->
  classify_link (_norm (msg_text m)) = Some (pl, pn) ->
  fsm_state (ctx (run (dispatch env (UMessage m)) w)) = None
  /\ answers (ctx (run (dispatch env (UMessage m)) w)) = answers (ctx w)
  /\ last_bot_msg_id (ctx (run (dispatch env (UMessage m)) w))
     = Some (message_ids env (S (sent w)))
  /\ (forall i, truthy_id (last_bot_msg_id (ctx w)) = Some i ->
        exists pre,
          new_effects (dispatch env (UMessage m)) w
          = pre ++ [DeleteMessage (msg_chat_id m) i;
                    SendMessage (msg_chat_id m) THANKS_TEXT
                      (closing_keyboard env m)])
  /\ run (dispatch env (UMessage m')) (run (dispatch env (UMessage m)) w)
     = run (dispatch env (UMessage m)) w.
Proof.
  intros Hs Hc.
  pose proof (completion_ctx env m w pl pn Hs Hc) as Hw.
  rewrite Hw. cbn [ctx fsm_state answers last_bot_msg_id].
  repeat split.
  intros i Hi.
  pose proof (proj1 (accepted_effects env m w pl pn Hs Hc)) as He.
  rewrite He.
  unfold completion_effects, closing_keyboard. cbv zeta. rewrite Hi.
  eexists.
  change ([DeleteMessage (msg_chat_id m) i;
           SendMessage (msg_chat_id m) THANKS_TEXT
             (if _is_admin env m then Some AdminEntryKb else None)])
    with ([DeleteMessage (msg_chat_id m) i]
          ++ [SendMessage (msg_chat_id m) THANKS_TEXT
                (if _is_admin env m then Some AdminEntryKb else None)]).
  repeat rewrite app_assoc. reflexivity.
Qed.

Lemma completion_keeps_answers_witness :
  answers
    (ctx (run (dispatch (L := sample_library)
                 (sample_env (always (u "FAIR")) None)
                 (UMessage (message_of (u "nda"))))
              (world_at (Some link) six_answers)))
  = Some six_answers.
Proof.
  destruct (@completion_keeps_answers sample_library
              (sample_env (always (u "FAIR")) None)
              (message_of (u "nda")) (message_of (u "hello"))
              (world_at (Some link) six_answers) NDA None
              eq_refl eq_refl) as [_ [H _]].
  exact H.
Defined.

(* ================================================================== *)
(** ** Further properties: the link classifier *)
(* ================================================================== *)

Lemma classify_shape (text pl : str) (pn : option str) :
  classify_link text = Some (pl, pn) ->
  (pl = DECLINED /\ pn = None)
  \/ (pl = strip text /\ pn = None
      /\ (startswith HTTP pl || startswith HTTPS pl) = true)
  \/ (pl = NDA /\ pn = None)
  \/ (pl = NDA /\ pn = Some (strip text)).
Proof.
  unfold classify_link.
  destruct (_is_decline (strip text)).
  { intros H. injection H as <- <-. now left. }
  destruct (_is_valid_http_url (strip text)) eqn:Hu.
  { intros H. injection H as <- <-. right. left.
    unfold _is_valid_http_url in Hu. rewrite strip_idem in Hu. auto. }
  destruct (Py.eqb (lower (strip text)) NDA).
  { intros H. injection H as <- <-. right. right. now left. }
  destruct (_is_reasonable_nda_note (strip text)); [|discriminate].
  intros H. injection H as <- <-. right. right. now right.
Qed.

(** X10.  The project link of every row the link step appends is the tag
    [declined], the tag [nda], or the trimmed text of the message, which
    then starts with [http://] or [https://]. *)
Theorem project_link_is_tag_or_url {L : Library} (env : Env) (m : Message)
    (w : World) (r : SheetRow) :
  fsm_state (ctx w) = Some link ->
  In (AppendRow r) (new_effects (dispatch env (UMessage m)) w) ->
  project_link r = DECLINED
  \/ project_link r = NDA
  \/ (project_link r = _norm (msg_text m)
      /\ (startswith HTTP (project_link r)
          || startswith HTTPS (project_link r)) = true).
Proof.
  intros Hs Hr.
  destruct (truthy (_norm (msg_text m))) eqn:Htr.
  2:{ exfalso. revert Hr. unfold new_effects, run.
      rewrite (dispatch_link env m w Hs). unfold link_handler.
      rewrite Htr. cbn. rewrite skipn_app, skipn_all, Nat.sub_diag.
      simpl. intros [H | []]. discriminate. }
  destruct (classify_link (_norm (msg_text m))) as [[pl pn]|] eqn:Hc.
  2:{ exfalso. revert Hr. unfold new_effects, run.
      rewrite (dispatch_link env m w Hs),
        (link_handler_rejected env m w Htr Hc).
      cbn. rewrite skipn_app, skipn_all, Nat.sub_diag.
      simpl. intros [H | []]. discriminate. }
  rewrite (proj1 (accepted_effects env m w pl pn Hs Hc)) in Hr.
  apply (proj1 (completion_rows env m w pl pn)) in Hr. subst r.
  cbn [project_link session_row make_row].
  destruct (classify_shape _ _ _ Hc) as [[-> _] | [[-> [_ H]] | [[-> _] | [-> _]]]];
    auto.
  right. right. rewrite norm_strip in *. now split.
Qed.

Lemma project_link_is_tag_or_url_witness :
  project_link
    (session_row (L := sample_library) (sample_env (always (u "FAIR")) None)
       (message_of (u "НЕ ХОЧУ")) DECLINED None
       (world_at (Some link) six_answers)) = DECLINED
  \/ project_link
       (session_row (L := sample_library) (sample_env (always (u "FAIR")) None)
          (message_of (u "НЕ ХОЧУ")) DECLINED None
          (world_at (Some link) six_answers)) = NDA
  \/ (project_link
        (session_row (L := sample_library)
           (sample_env (always (u "FAIR")) None)
           (message_of (u "НЕ ХОЧУ")) DECLINED None
           (world_at (Some link) six_answers))
      = _norm (msg_text (message_of (u "НЕ ХОЧУ")))
      /\ (startswith HTTP
            (project_link
               (session_row (L := sample_library)
                  (sample_env (always (u "FAIR")) None)
                  (message_of (u "НЕ ХОЧУ")) DECLINED None
                  (world_at (Some link) six_answers)))
          || startswith HTTPS
               (project_link
                  (session_row (L := sample_library)
                     (sample_env (always (u "FAIR")) None)
                     (message_of (u "НЕ ХОЧУ")) DECLINED None
                     (world_at (Some link) six_answers)))) = true).
Proof.
  apply (@project_link_is_tag_or_url sample_library
           (sample_env (always (u "FAIR")) None) (message_of (u "НЕ ХОЧУ"))
           (world_at (Some link) six_answers)).
  - reflexivity.
  - vm_compute. do 4 right. left. reflexivity.
Defined.

(** X11.  A text [_looks_like_domain_without_scheme] accepts is never
    taken for a refusal, a URL or the bare marker: the link step either
    rejects it or takes the whole trimmed text as an NDA note, so it is
    never stored as a project link. *)
Theorem bare_domain_never_a_link (text : str) :
  _looks_like_domain_without_scheme text = true ->
  classify_link text = None
  \/ classify_link text = Some (NDA, Some (strip text)).
Proof.
  intros Hd. apply bare_domain_facts in Hd. cbv zeta in Hd.
  destruct Hd as [Hurl [Hsp Hdot]].
  assert (Hdec : _is_decline (strip text) = false).
  { unfold _is_decline. rewrite (replace1_absent _ _ _ Hsp).
    destruct (mem (lower (strip text)) _) eqn:Hm; [|reflexivity].
    apply mem_In in Hm. simpl in Hm.
    repeat (destruct Hm as [Hm | Hm];
            [rewrite <- Hm in Hdot; vm_compute in Hdot;
             repeat (destruct Hdot as [Hdot | Hdot]; [discriminate|]);
             contradiction|]).
    contradiction. }
  assert (Hu : _is_valid_http_url (strip text) = false).
  { unfold _is_valid_http_url. rewrite strip_idem.
    destruct (startswith HTTP (strip text)) eqn:H1.
    - apply startswith_lower in H1;
        [rewrite H1 in Hurl; discriminate|].
      repeat constructor.
    - destruct (startswith HTTPS (strip text)) eqn:H2; [|reflexivity].
      apply startswith_lower in H2;
        [rewrite H2, orb_true_r in Hurl; discriminate|].
      repeat constructor. }
  assert (Hn : Py.eqb (lower (strip text)) NDA = false).
  { destruct (Py.eqb (lower (strip text)) NDA) eqn:Hn; [|reflexivity].
    apply eqb_eq in Hn. rewrite Hn in Hdot. vm_compute in Hdot.
    repeat (destruct Hdot as [Hdot | Hdot]; [discriminate|]).
    contradiction. }
  unfold classify_link. rewrite Hdec, Hu, Hn.
  destruct (_is_reasonable_nda_note (strip text)); auto.
Qed.

Lemma bare_domain_never_a_link_witness :
  classify_link (u "github.com/user/repo") = None
  \/ classify_link (u "github.com/user/repo")
     = Some (NDA, Some (strip (u "github.com/user/repo"))).
Proof. apply bare_domain_never_a_link. reflexivity. Defined.

(** X12.  A text accepted as an NDA note has at least 8 characters once
    trimmed and contains a space or a line break: a single token is never
    a note, whatever its length. *)
Theorem nda_note_has_two_words (text : str) :
  _is_reasonable_nda_note text = true ->
  (8 <= List.length (strip text))%nat
  /\ (In SPACE (strip text) \/ In LF (strip text)).
Proof.
  unfold _is_reasonable_nda_note, nda_words. cbv zeta.
  destruct (negb (truthy (strip text))); [discriminate|].
  destruct (List.length (strip text) <? 8)%nat eqn:Hlen; [discriminate|].
  apply Nat.ltb_ge in Hlen. intros Hw. split; [assumption|].
  destruct (has_char SPACE (strip text)) eqn:Hs.
  { left. now apply has_char_In. }
  destruct (has_char LF (strip text)) eqn:Hl.
  { right. now apply has_char_In. }
  exfalso. apply has_char_false in Hs, Hl.
  rewrite (replace1_absent _ _ _ Hl), (split_absent _ _ Hs) in Hw.
  simpl in Hw. destruct (truthy (strip (strip text))); discriminate.
Qed.

Lemma nda_note_has_two_words_witness :
  (8 <= List.length (strip (u "nda: built a RAG pipeline")))%nat
  /\ (In SPACE (strip (u "nda: built a RAG pipeline"))
      \/ In LF (strip (u "nda: built a RAG pipeline"))).
Proof. apply nda_note_has_two_words. reflexivity. Defined.







(* ================================================================== *)
(** ** Further properties: the helpers of the alert *)
(* ================================================================== *)

(** X14.  The star rating clamps the score to 0..10 and shows half of it,
    rounded up: a score of 0 or less shows the dash, a positive score shows
    between 1 and 5 stars, and 9 or more shows 5. *)
Theorem stars_between_one_and_five (score : Z) :
  ((score <= 0)%Z -> _stars_0_10 score = DASH)
  /\ ((0 < score)%Z ->
      exists n, (1 <= n <= 5)%nat
                /\ _stars_0_10 score = repeat_str STAR n
                /\ (2 * Z.of_nat n - 1 <= Z.min 10 score <= 2 * Z.of_nat n)%Z)
  /\ ((9 <= score)%Z -> _stars_0_10 score = repeat_str STAR 5).
Proof.
  unfold _stars_0_10. cbv zeta.
  assert (Hs : forall s, (0 <= s <= 10)%Z ->
             s = 0%Z \/ s = 1%Z \/ s = 2%Z \/ s = 3%Z \/ s = 4%Z \/ s = 5%Z
             \/ s = 6%Z \/ s = 7%Z \/ s = 8%Z \/ s = 9%Z \/ s = 10%Z)
    by (intros; lia).
  repeat split.
  - intros H. replace (Z.max 0 (Z.min 10 score)) with 0%Z by lia.
    reflexivity.
  - intros H.
    assert (Hm : Z.max 0 (Z.min 10 score) = Z.min 10 score) by lia.
    rewrite Hm.
    destruct (Hs (Z.min 10 score)) as [E | Hc]; [lia | lia |].
    repeat (destruct Hc as [E | Hc]; [rewrite E|]); try rewrite Hc.
    1,2: (exists 1%nat; repeat split; cbn; lia).
    1,2: (exists 2%nat; repeat split; cbn; lia).
    1,2: (exists 3%nat; repeat split; cbn; lia).
    1,2: (exists 4%nat; repeat split; cbn; lia).
    1,2: (exists 5%nat; repeat split; cbn; lia).
  - intros H.
    destruct (Z.eq_dec score 9) as [-> | Hne]; [reflexivity|].
    replace (Z.max 0 (Z.min 10 score)) with 10%Z by lia. reflexivity.
Qed.

Lemma stars_between_one_and_five_witness :
  _stars_0_10 (-3) = DASH
  /\ _stars_0_10 7 = repeat_str STAR 4
  /\ _stars_0_10 25 = repeat_str STAR 5.
Proof.
  destruct (stars_between_one_and_five (-3)) as [H1 _].
  destruct (stars_between_one_and_five 25) as [_ [_ H3]].
  split; [apply H1; lia|]. split; [reflexivity | apply H3; lia].
Defined.

Lemma lstrip_keeps_last (c : char) (x : str) :
  isspace c = false -> exists y, lstrip (x ++ [c]) = y ++ [c].
Proof.
  intros Hc. induction x as [|a x [y IH]]; simpl.
  - rewrite Hc. now exists [].
  - destruct (isspace a); [now exists y | now exists (a :: x)].
Qed.

Lemma strip_keeps_head (c : char) (r : str) :
  isspace c = false -> exists r', strip (c :: r) = c :: r'.
Proof.
  intros Hc. unfold strip, rstrip. simpl lstrip. rewrite Hc.
  simpl rev. destruct (lstrip_keeps_last c (rev r) Hc) as [y ->].
  rewrite rev_app_distr. simpl. now exists (rev y).
Qed.

(** X15.  The line of the alert about materials shows a project link that
    starts with [http://] or [https://] as it is; for every pair the link
    step accepts it is that URL, the refusal phrase for [declined], or the
    NDA phrase for [nda], with or without a note. *)
Theorem material_line_of_accepted_link (text pl : str) (pn : option str) :
  (forall l, (startswith HTTP l || startswith HTTPS l) = true ->
             _material_line (Some l) = l)
  /\ (classify_link text = Some (pl, pn) ->
      (pl = DECLINED
       /\ _material_line (Some pl) = u "Отказался делиться ссылкой.")
      \/ (pl = NDA /\ _material_line (Some pl) = u "NDA (ссылка в анкете).")
      \/ (pl = strip text /\ _material_line (Some pl) = pl)).
Proof.
  assert (Hurl : forall l, (startswith HTTP l || startswith HTTPS l) = true ->
                           _material_line (Some l) = l).
  { intros l H. unfold _material_line. cbv zeta. rewrite H.
    apply url_prefix_cases in H as [r ->].
    change (u "http" ++ r) with (104%N :: (u "ttp" ++ r)).
    destruct (strip_keeps_head 104%N (u "ttp" ++ r) eq_refl) as [r' Hr'].
    assert (Hr : strip (104%N :: (u "ttp" ++ r)) = 104%N :: r') by exact Hr'.
    rewrite Hr. reflexivity. }
  split; [exact Hurl|].
  intros Hc.
  destruct (classify_shape _ _ _ Hc)
    as [[-> _] | [[-> [_ H]] | [[-> _] | [-> _]]]].
  - left. split; reflexivity.
  - right. right. split; [reflexivity | now apply Hurl].
  - right. left. split; reflexivity.
  - right. left. split; reflexivity.
Qed.

Lemma material_line_of_accepted_link_witness :
  _material_line (Some (u "https://x.com/Demo")) = u "https://x.com/Demo".
Proof.
  destruct (material_line_of_accepted_link (u "https://x.com/Demo")
              (u "https://x.com/Demo") None) as [H _].
  apply H. reflexivity.
Defined.

Lemma replace1_char_length (c d : char) (s : str) :
  List.length (replace1 c [d] s) = List.length s.
Proof.
  unfold replace1. induction s as [|x s IH]; [reflexivity|].
  cbn [flat_map]. rewrite length_app, IH.
  now destruct (x =? c)%N.
Qed.

Lemma replace1_removes (c d : char) (s : str) :
  d <> c -> ~ In c (replace1 c [d] s).
Proof.
  intros Hd. unfold replace1. induction s as [|x s IH]; [intros []|].
  cbn [flat_map]. intros H. apply in_app_or in H as [H | H]; [|now apply IH].
  destruct (N.eqb_spec x c) as [-> | Hx]; destruct H as [H | []]; congruence.
Qed.

Lemma firstn_subset {A} (n : nat) (l : list A) (x : A) :
  In x (firstn n l) -> In x l.
Proof.
  intros H. rewrite <- (firstn_skipn n l). apply in_or_app. now left.
Qed.


Lemma rstrip_incl (s : str) (c : char) : In c (rstrip s) -> In c s.
Proof.
  destruct (rstrip_prefix s) as [ws H]. intros Hin.
  rewrite H. apply in_or_app. now left.
Qed.

Lemma rstrip_length (s : str) : (List.length (rstrip s) <= List.length s)%nat.
Proof.
  destruct (rstrip_prefix s) as [ws H].
  rewrite H at 2. rewrite length_app. lia.
Qed.

Lemma py_slice_to_incl (k : Z) (s : str) (c : char) :
  In c (py_slice_to k s) -> In c s.
Proof.
  unfold py_slice_to. destruct (0 <=? k)%Z; apply firstn_subset.
Qed.

Lemma py_slice_to_length (k : Z) (s : str) :
  (0 <= k)%Z -> (List.length (py_slice_to k s) <= Z.to_nat k)%nat.
Proof.
  intros Hk. unfold py_slice_to.
  destruct (Z.leb_spec 0 k); [apply firstn_le_length | lia].
Qed.

(** X16.  [_shorten] returns a single line; a trimmed text that fits
    [max_len] is returned whole (line breaks turned into spaces), and for
    [max_len] of 3 or more the result never exceeds [max_len] characters. *)
Theorem shorten_fits (text : str) (max_len : Z) :
  ~ In LF (_shorten text max_len)
  /\ ((Z.of_nat (List.length (strip text)) <= max_len)%Z ->
      _shorten text max_len = replace1 LF [SPACE] (strip text))
  /\ ((3 <= max_len)%Z ->
      (Z.of_nat (List.length (_shorten text max_len)) <= max_len)%Z).
Proof.
  unfold _shorten. cbv zeta.
  pose proof (replace1_char_length LF SPACE (strip text)) as Hlen.
  assert (Hno : ~ In LF (replace1 LF [SPACE] (strip text)))
    by (apply replace1_removes; discriminate).
  set (t := replace1 LF [SPACE] (strip text)) in *.
  repeat split.
  - destruct (Z.of_nat (List.length t) <=? max_len)%Z; [exact Hno|].
    intros H. apply in_app_or in H as [H | H].
    + apply Hno. eapply py_slice_to_incl. eapply rstrip_incl. exact H.
    + vm_compute in H.
      repeat (destruct H as [H | H]; [discriminate|]). exact H.
  - intros H. rewrite Hlen.
    destruct (Z.leb_spec (Z.of_nat (List.length (strip text))) max_len);
      [reflexivity | lia].
  - intros H.
    destruct (Z.leb_spec (Z.of_nat (List.length t)) max_len); [assumption|].
    rewrite length_app.
    pose proof (rstrip_length (py_slice_to (max_len - 3) t)) as H1.
    assert (H2 : (0 <= max_len - 3)%Z) by lia.
    pose proof (py_slice_to_length (max_len - 3) t H2) as H3.
    change (List.length (u "...")) with 3%nat. lia.
Qed.

Lemma shorten_fits_witness :
  (Z.of_nat (List.length (_shorten (u "a long line of text, cut  ") 12)) <= 12)%Z
  /\ _shorten (u " ok ") 12 = replace1 LF [SPACE] (strip (u " ok ")).
Proof.
  destruct (shorten_fits (u "a long line of text, cut  ") 12) as [_ [_ H3]].
  destruct (shorten_fits (u " ok ") 12) as [_ [H2 _]].
  split; [apply H3; lia | apply H2; vm_compute; discriminate].
Defined.

Lemma insert_score_In (x y : str * Z) (l : list (str * Z)) :
  In y (insert_score x l) -> y = x \/ In y l.
Proof.
  induction l as [|a l IH]; simpl.
  - intros [H | []]. now left.
  - destruct (snd x <? snd a)%Z; simpl.
    + intros [H | H]; [right; now left|].
      destruct (IH H) as [H' | H']; [now left | right; now right].
    + intros [H | H]; [now left | now right].
Qed.

Lemma sort_scores_head (l : list (str * Z)) :
  l <> [] ->
  exists x rest pre post,
    sort_scores l = x :: rest
    /\ l = pre ++ x :: post
    /\ Forall (fun y => (snd y < snd x)%Z) pre
    /\ Forall (fun y => (snd y <= snd x)%Z) post.
Proof.
  induction l as [|a r IH]; [congruence|]. intros _.
  destruct r as [|b r'].
  - exists a, [], [], []. repeat split; constructor.
  - destruct IH as [x [rest [pre [post [Hs [Hl [Hpre Hpost]]]]]]];
      [discriminate|].
    cbn [sort_scores] in *. rewrite Hs. cbn [insert_score].
    destruct (Z.ltb_spec (snd a) (snd x)) as [Hlt | Hge].
    + exists x, (insert_score a rest), (a :: pre), post.
      repeat split; [now rewrite Hl | now constructor | assumption].
    + exists a, (x :: rest), [], (b :: r').
      repeat split; [constructor|].
      rewrite Hl. apply Forall_app. split.
      * eapply Forall_impl; [|exact Hpre]. cbn. intros; lia.
      * constructor; [lia|].
        eapply Forall_impl; [|exact Hpost]. cbn. intros; lia.
Qed.

(** X17.  [_top_strength_ru] answers the fixed phrase when no score is
    given; otherwise it answers the label of the first criterion, in the
    order experience, control, product, whose score is the highest given. *)
Theorem top_strength_is_first_maximum (c1 c2 c3 : option Z) :
  (strength_items c1 c2 c3 = [] ->
   _top_strength_ru c1 c2 c3 = u "сильные стороны")
  /\ (strength_items c1 c2 c3 <> [] ->
      exists x pre post,
        _top_strength_ru c1 c2 c3 = fst x
        /\ strength_items c1 c2 c3 = pre ++ x :: post
        /\ Forall (fun y => (snd y < snd x)%Z) pre
        /\ Forall (fun y => (snd y <= snd x)%Z) post).
Proof.
  unfold _top_strength_ru. split.
  - now intros ->.
  - intros Hne.
    destruct (sort_scores_head _ Hne)
      as [x [rest [pre [post [Hs [Hl [Hpre Hpost]]]]]]].
    rewrite Hs. exists x, pre, post. repeat split; assumption.
Qed.

Lemma top_strength_is_first_maximum_witness :
  _top_strength_ru None None None = u "сильные стороны"
  /\ _top_strength_ru (Some 7%Z) (Some 9%Z) (Some 9%Z) = u "контроль и логика".
Proof.
  destruct (top_strength_is_first_maximum None None None) as [H _].
  split; [apply H; reflexivity | reflexivity].
Defined.

(* ================================================================== *)
(** ** Further properties: scoring *)
(* ================================================================== *)




Lemma validate_dump_criterion {L : Library} (c : ScoreCriterion) :
  reads_own_type L ->
  (0 <= score_0_10 c <= 10)%Z ->
  validate_criterion (dump_criterion c) = Some c.
Proof.
  intros [Hi [Hs _]] Hr. destruct c as [n s r]. cbn in Hr.
  unfold validate_criterion, dump_criterion.
  cbn [name score_0_10 rationale].
  change (dict_get (u "name") _) with (Some (JStr n)).
  change (dict_get (u "score_0_10") _) with (Some (JInt s)).
  change (dict_get (u "rationale") _) with (Some (JStr r)).
  cbv beta iota. rewrite !Hs, Hi.
  unfold in_range.
  destruct (Z.leb_spec 0 s); [|lia]. destruct (Z.leb_spec s 10); [|lia].
  reflexivity.
Qed.

(** X19.  Validation undoes the dump: for a library that reads a JSON
    integer, string and boolean as they are, the dump of a model with 3
    criteria and scores in 0..10 is accepted and gives back that model. *)
Theorem validate_after_dump {L : Library} (r : ScoreResult) :
  reads_own_type L ->
  well_formed_scores r ->
  model_validate (model_dump r) = inr r.
Proof.
  intros HL [Hlen [Hcs Hov]].
  destruct r as [cs ov h sm]. cbn in Hlen, Hcs, Hov.
  destruct cs as [|c1 [|c2 [|c3 [|c4 cs]]]]; try discriminate.
  apply Forall_cons_iff in Hcs as [Hs1 Hcs].
  apply Forall_cons_iff in Hcs as [Hs2 Hcs].
  apply Forall_cons_iff in Hcs as [Hs3 _].
  unfold model_validate, validate_score_result, model_dump.
  cbn [criteria overall_score_0_10 hot summary_1_2_lines map].
  change (dict_get (u "criteria") _)
    with (Some (JArr [dump_criterion c1; dump_criterion c2;
                      dump_criterion c3])).
  change (dict_get (u "overall_score_0_10") _) with (Some (JInt ov)).
  change (dict_get (u "hot") _) with (Some (JBool h)).
  change (dict_get (u "summary_1_2_lines") _) with (Some (JStr sm)).
  cbv beta iota.
  cbn [List.length Nat.leb andb validate_all].
  rewrite !(validate_dump_criterion _ HL) by assumption.
  destruct HL as [Hi [Hs Hb]]. rewrite Hi, Hb, Hs.
  unfold in_range.
  destruct (Z.leb_spec 0 ov); [|lia]. destruct (Z.leb_spec ov 10); [|lia].
  reflexivity.
Qed.

Lemma validate_after_dump_witness :
  model_validate (L := sample_library)
    (model_dump
       {| criteria :=
            [ {| name := u "Practical AI Application"; score_0_10 := 9;
                 rationale := u "Clear." |};
              {| name := u "AI Reasoning & Control"; score_0_10 := 0;
                 rationale := u "None." |};
              {| name := u "AI Product Thinking"; score_0_10 := 10;
                 rationale := u "Strong." |} ];
          overall_score_0_10 := 6; hot := false;
          summary_1_2_lines := u "Summary." |})
  = inr {| criteria :=
             [ {| name := u "Practical AI Application"; score_0_10 := 9;
                  rationale := u "Clear." |};
               {| name := u "AI Reasoning & Control"; score_0_10 := 0;
                  rationale := u "None." |};
               {| name := u "AI Product Thinking"; score_0_10 := 10;
                  rationale := u "Strong." |} ];
           overall_score_0_10 := 6; hot := false;
           summary_1_2_lines := u "Summary." |}.
Proof.
  apply (@validate_after_dump sample_library).
  - repeat split.
  - repeat split; cbn; try lia.
    repeat constructor; cbn; lia.
Defined.

(* ================================================================== *)
(** ** Further properties: the spreadsheet *)
(* ================================================================== *)

Lemma dict_set_fresh {V} (k : str) (v : V) (d : dict V) :
  ~ In k (map fst d) -> dict_set k v d = d ++ [(k, v)].
Proof.
  induction d as [|[k' v'] d IH]; simpl; [reflexivity|].
  intros H. rewrite eqb_neq; [|intros ->; apply H; now left].
  f_equal. apply IH. intros Hin. apply H. now right.
Qed.

Lemma zip_fold_fresh (hs vs : list str) (d : dict str) :
  NoDup hs -> (forall k, In k hs -> ~ In k (map fst d)) ->
  fold_left (fun d' kv => dict_set (fst kv) (snd kv) d') (combine hs vs) d
  = d ++ combine hs vs.
Proof.
  revert vs d. induction hs as [|h hs IH]; intros vs d Hnd Hfresh.
  - simpl. now rewrite app_nil_r.
  - destruct vs as [|v vs]; [simpl; now rewrite app_nil_r|].
    cbn [combine fold_left fst snd].
    inversion Hnd as [|? ? Hh Hnd']. subst.
    rewrite dict_set_fresh by (apply Hfresh; now left).
    rewrite IH; [now rewrite <- app_assoc | assumption |].
    intros k Hk. rewrite map_app, in_app_iff. cbn.
    intros [Hin | [<- | []]].
    + apply (Hfresh k); [now right | assumption].
    + contradiction.
Qed.

Lemma zip_dict_combine (hs vs : list str) :
  NoDup hs -> zip_dict hs vs = combine hs vs.
Proof.
  intros Hnd. unfold zip_dict.
  now rewrite zip_fold_fresh by (assumption || intros k _ []).
Qed.

Lemma dict_get_combine (hs vs : list str) (i : nat) :
  NoDup hs -> (i < List.length hs)%nat -> List.length vs = List.length hs ->
  dict_get (nth i hs []) (combine hs vs) = Some (nth i vs []).
Proof.
  revert vs i. induction hs as [|h hs IH]; intros vs i Hnd Hi Hlen.
  - cbn in Hi. lia.
  - destruct vs as [|v vs]; [discriminate|].
    inversion Hnd as [|? ? Hh Hnd']. subst.
    destruct i as [|i]; cbn [nth combine dict_get].
    + now rewrite eqb_refl.
    + rewrite eqb_neq.
      * apply IH; [assumption | cbn in Hi; lia | cbn in Hlen; lia].
      * intros E. apply Hh. rewrite <- E. apply nth_In. cbn in Hi. lia.
Qed.

Lemma pad_to_length (n : nat) (vals : list str) :
  List.length (pad_to n vals) = n.
Proof.
  unfold pad_to. rewrite length_firstn, length_app, repeat_length. lia.
Qed.

Lemma pad_to_nth (n i : nat) (vals : list str) :
  (i < n)%nat -> nth i (pad_to n vals) [] = nth i vals [].
Proof.
  intros Hi. unfold pad_to. rewrite nth_firstn.
  destruct (Nat.ltb_spec i n); [|lia].
  destruct (Nat.lt_ge_cases i (List.length vals)) as [Hlt | Hge].
  - now rewrite app_nth1.
  - rewrite app_nth2 by assumption.
    rewrite (nth_overflow vals) by assumption.
    destruct (Nat.lt_ge_cases (i - List.length vals) n) as [Hl | Hg].
    + now rewrite nth_repeat_lt.
    + apply nth_overflow. now rewrite repeat_length.
Qed.

(** X20.  [fetch_rows] gives no row when the header row is empty or when
    the sheet has at most its header row; otherwise it gives one row per
    line after the first.  With distinct column names, the row of a line
    maps each column name to the cell of that column, the empty string when
    the line is shorter than the header. *)
Theorem fetched_rows_follow_header (headers : list str)
    (all_values : list (list str)) :
  (headers = [] \/ (List.length all_values <= 1)%nat ->
   fetch_rows_of headers all_values = [])
  /\ (headers <> [] ->
      List.length (fetch_rows_of headers all_values)
      = (List.length all_values - 1)%nat)
  /\ (headers <> [] -> NoDup headers ->
      forall j i, (S j < List.length all_values)%nat ->
                  (i < List.length headers)%nat ->
        exists row,
          nth_error (fetch_rows_of headers all_values) j = Some row
          /\ dict_get (nth i headers []) row
             = Some (nth i (nth (S j) all_values []) [])).
Proof.
  unfold fetch_rows_of. repeat split.
  - intros [-> | H]; [reflexivity|].
    destruct headers; [reflexivity|].
    now destruct (Nat.leb_spec (List.length all_values) 1); [|lia].
  - intros Hne. destruct headers as [|h hs]; [congruence|].
    destruct (Nat.leb_spec (List.length all_values) 1) as [Hle | Hgt].
    + cbn. lia.
    + rewrite length_map. destruct all_values; cbn; lia.
  - intros Hne Hnd j i Hj Hi.
    destruct headers as [|h hs]; [congruence|].
    destruct (Nat.leb_spec (List.length all_values) 1) as [Hle | Hgt]; [lia|].
    destruct all_values as [|hd rows]; [cbn in Hj; lia|].
    cbn [tl]. change (nth (S j) (hd :: rows) []) with (nth j rows []).
    cbn in Hj.
    exists (zip_dict (h :: hs)
              (pad_to (List.length (h :: hs)) (nth j rows []))).
    split.
    + rewrite nth_error_map.
      rewrite (nth_error_nth' rows []) by lia. reflexivity.
    + rewrite zip_dict_combine by assumption.
      rewrite dict_get_combine;
        [| assumption | assumption | apply pad_to_length].
      now rewrite pad_to_nth.
Qed.

Lemma fetched_rows_follow_header_witness :
  exists row,
    nth_error
      (fetch_rows_of [u "username"; u "overall_score"; u "top_candidate"]
         [ [u "username"; u "overall_score"; u "top_candidate"];
           [u "ann"; u "8"; u "TRUE"];
           [u "bob"] ]) 1 = Some row
    /\ dict_get (nth 2 [u "username"; u "overall_score"; u "top_candidate"] [])
         row
       = Some (nth 2 (nth 2 [ [u "username"; u "overall_score";
                               u "top_candidate"];
                              [u "ann"; u "8"; u "TRUE"];
                              [u "bob"] ] []) []).
Proof.
  refine (proj2 (proj2 (fetched_rows_follow_header
                          [u "username"; u "overall_score"; u "top_candidate"]
                          [ [u "username"; u "overall_score";
                             u "top_candidate"];
                            [u "ann"; u "8"; u "TRUE"];
                            [u "bob"] ])) _ _ 1%nat 2%nat _ _).
  - discriminate.
  - repeat constructor; cbn; intuition discriminate.
  - cbn. lia.
  - cbn. lia.
Defined.

Lemma zip_sheet_columns (v1 v2 v3 v4 v5 v6 v7 v8 v9 v10 v11 v12 v13 v14 : str) :
  zip_dict SHEET_COLUMNS
    [v1; v2; v3; v4; v5; v6; v7; v8; v9; v10; v11; v12; v13; v14]
  = combine SHEET_COLUMNS
      [v1; v2; v3; v4; v5; v6; v7; v8; v9; v10; v11; v12; v13; v14].
Proof. reflexivity. Qed.

Lemma to_bool_cell (b : bool) : _to_bool (bool_cell b) = b.
Proof. now destruct b. Qed.

(** X21.  What [append_row] writes, [_render_admin_stats] reads back: for
    a sheet whose columns are the fields of [SheetRow], the fetched form of
    a written row gives the same top-candidate and failure flags, the same
    timestamp (trimmed) and, when [int] reads the decimal text of the
    overall score back, the same overall score; the display name is the
    handle after [@], else the full name, else [unknown]. *)
Theorem written_row_reads_back {L : Library} (r : SheetRow) :
  int_of_str (strip (str_of_Z (overall_score r))) = Some (overall_score r) ->
  fetch_rows_of SHEET_COLUMNS [SHEET_COLUMNS; sheet_values r]
  = [zip_dict SHEET_COLUMNS (sheet_values r)]
  /\ row_is_top (zip_dict SHEET_COLUMNS (sheet_values r)) = top_candidate r
  /\ norm_of (zip_dict SHEET_COLUMNS (sheet_values r))
     = {| n_top_candidate := top_candidate r;
          n_overall := overall_score r;
          n_scoring_failed := scoring_failed r;
          n_display :=
            if truthy (strip (or_empty (username r)))
            then u "@" ++ strip (or_empty (username r))
            else or_else (strip (or_empty (full_name r))) (u "unknown");
          n_ts := strip (timestamp_utc_iso r) |}.
Proof.
  intros Hint. unfold sheet_values. split; [reflexivity|].
  rewrite zip_sheet_columns.
  unfold norm_of, row_is_top, get_or, _to_int.
  change (dict_get (u "top_candidate") _)
    with (Some (bool_cell (top_candidate r))).
  change (dict_get (u "overall_score") _)
    with (Some (str_of_Z (overall_score r))).
  change (dict_get (u "scoring_failed") _)
    with (Some (bool_cell (scoring_failed r))).
  change (dict_get (u "username") _) with (Some (or_empty (username r))).
  change (dict_get (u "full_name") _) with (Some (or_empty (full_name r))).
  change (dict_get (u "timestamp_utc_iso") _)
    with (Some (timestamp_utc_iso r)).
  cbv beta iota.
  rewrite !to_bool_cell, Hint, !or_else_nil.
  split; reflexivity.
Qed.

Lemma written_row_reads_back_witness :
  n_overall
    (norm_of (L := sample_library)
       (zip_dict SHEET_COLUMNS
          (sheet_values
             (session_row (L := sample_library)
                (sample_env (always (u "HOT")) None)
                (message_of (u "https://x.com")) (u "https://x.com") None
                (world_at (Some link) six_answers))))) = 9%Z
  /\ row_is_top
       (zip_dict SHEET_COLUMNS
          (sheet_values
             (session_row (L := sample_library)
                (sample_env (always (u "HOT")) None)
                (message_of (u "https://x.com")) (u "https://x.com") None
                (world_at (Some link) six_answers)))) = true.
Proof.
  destruct (@written_row_reads_back sample_library
              (session_row (L := sample_library)
                 (sample_env (always (u "HOT")) None)
                 (message_of (u "https://x.com")) (u "https://x.com") None
                 (world_at (Some link) six_answers)) eq_refl)
    as [_ [H2 H3]].
  split; [now rewrite H3 | exact H2].
Defined.

(* ================================================================== *)
(** ** Further properties: the admin summary and the admin views *)
(* ================================================================== *)

(** X22.  Without the filter every fetched row is counted: when rows were
    fetched the answer is the summary over all of them, with their number
    as total, and it is neither the text for no top candidates nor the
    text for an empty store. *)
Theorem unfiltered_summary_counts_every_row {L : Library}
    (rows : list (dict str)) :
  rows <> [] ->
  _render_admin_stats false rows
  = render_summary false (summarize (map norm_of rows))
  /\ total (summarize (map norm_of rows)) = List.length rows
  /\ _render_admin_stats false rows <> NO_TOP_TEXT
  /\ _render_admin_stats false rows <> NO_DATA_TEXT.
Proof.
  intros Hne.
  assert (Hr : _render_admin_stats false rows
               = render_summary false (summarize (map norm_of rows))).
  { unfold _render_admin_stats. rewrite normalize_all.
    destruct rows as [|r rows]; [congruence | reflexivity]. }
  split; [exact Hr|]. split; [cbn; apply length_map|].
  rewrite Hr. unfold render_summary.
  cbn [app join].
  split; intros H; apply (f_equal (firstn 14)) in H;
    vm_compute in H; discriminate.
Qed.

Lemma unfiltered_summary_counts_every_row_witness :
  total (summarize (L := sample_library)
           (map (norm_of (L := sample_library)) three_rows)) = 3%nat.
Proof.
  destruct (@unfiltered_summary_counts_every_row sample_library three_rows)
    as [_ [H _]].
  - discriminate.
  - exact H.
Defined.

Lemma sorted_app_split {A} (R : A -> A -> Prop) (l1 l2 : list A) :
  StronglySorted R (l1 ++ l2) -> Forall (fun a => Forall (R a) l2) l1.
Proof.
  induction l1 as [|a l1 IH]; cbn; intros H; [constructor|].
  apply StronglySorted_inv in H as [Hs Ha].
  constructor; [|now apply IH].
  apply Forall_app in Ha. tauto.
Qed.

(** X23.  The leaderboard holds the first three rows of the descending
    order, all of them when there are fewer: its rows are rows of the
    summary, and no row left out of it ranks above a row in it. *)
Theorem leaderboard_holds_the_best {L : Library} (norm : list NormRow) :
  List.length (top3 (summarize norm)) = Nat.min 3 (List.length norm)
  /\ (forall a, In a (top3 (summarize norm)) -> In a norm)
  /\ exists rest,
       Permutation norm (top3 (summarize norm) ++ rest)
       /\ Forall (fun a => Forall (not_below a) rest) (top3 (summarize norm)).
Proof.
  cbn [top3 summarize].
  pose proof (sorted_desc_perm norm) as Hp.
  pose proof (sorted_desc_sorted norm) as Hs.
  repeat split.
  - rewrite length_firstn, <- (Permutation_length Hp). reflexivity.
  - intros a Ha. apply (Permutation_in a (Permutation_sym Hp)).
    now apply (firstn_subset 3).
  - exists (skipn 3 (sorted_desc norm)).
    rewrite firstn_skipn. split; [exact Hp|].
    apply sorted_app_split. now rewrite firstn_skipn.
Qed.

Lemma insert_desc_front (x : NormRow) (l : list NormRow) :
  Forall (not_below x) l -> insert_desc x l = x :: l.
Proof.
  destruct l as [|y l]; [reflexivity|].
  intros H. inversion H as [|? ? Hy _]. subst. cbn.
  unfold not_below in Hy. now rewrite Hy.
Qed.

(** X24.  The sort of the leaderboard is stable: rows that already are in
    descending order, rows with equal score and timestamp among them, keep
    the order in which they were fetched. *)
Theorem sorted_rows_keep_their_order (l : list NormRow) :
  StronglySorted not_below l -> sorted_desc l = l.
Proof.
  induction l as [|x l IH]; [reflexivity|].
  intros H. apply StronglySorted_inv in H as [Hs Hx].
  cbn. rewrite (IH Hs). now apply insert_desc_front.
Qed.

Lemma sorted_rows_keep_their_order_witness :
  sorted_desc
    [ {| n_top_candidate := true; n_overall := 8; n_scoring_failed := false;
         n_display := u "@ann"; n_ts := u "2026-01-02T10:00:00Z" |};
      {| n_top_candidate := false; n_overall := 8; n_scoring_failed := false;
         n_display := u "@bob"; n_ts := u "2026-01-02T10:00:00Z" |};
      {| n_top_candidate := false; n_overall := 6; n_scoring_failed := false;
         n_display := u "@eve"; n_ts := u "2026-01-05T10:00:00Z" |} ]
  = [ {| n_top_candidate := true; n_overall := 8; n_scoring_failed := false;
         n_display := u "@ann"; n_ts := u "2026-01-02T10:00:00Z" |};
      {| n_top_candidate := false; n_overall := 8; n_scoring_failed := false;
         n_display := u "@bob"; n_ts := u "2026-01-02T10:00:00Z" |};
      {| n_top_candidate := false; n_overall := 6; n_scoring_failed := false;
         n_display := u "@eve"; n_ts := u "2026-01-05T10:00:00Z" |} ].
Proof.
  apply sorted_rows_keep_their_order.
  repeat (constructor; [|repeat constructor; reflexivity]). constructor.
Defined.

Lemma buffer_get_set_same (uid : Z) (buf : list (Z * Z)) (b : admin_buffers) :
  buffer_get uid (buffer_set uid buf b) = buf.
Proof.
  induction b as [|[k v] b IH]; cbn.
  - now rewrite Z.eqb_refl.
  - destruct (Z.eqb_spec k uid) as [-> | Hk]; cbn.
    + now rewrite Z.eqb_refl.
    + destruct (Z.eqb_spec k uid); [contradiction | exact IH].
Qed.

Lemma buffer_get_set_other (uid uid' : Z) (buf : list (Z * Z))
    (b : admin_buffers) :
  uid' <> uid ->
  buffer_get uid' (buffer_set uid buf b) = buffer_get uid' b.
Proof.
  intros Hne. induction b as [|[k v] b IH]; cbn.
  - destruct (Z.eqb_spec uid uid'); [congruence | reflexivity].
  - destruct (Z.eqb_spec k uid) as [-> | Hk]; cbn.
    + destruct (Z.eqb_spec uid uid'); [congruence | reflexivity].
    + destruct (Z.eqb_spec k uid'); [reflexivity | exact IH].
Qed.

Lemma last_n_length {A} (n : nat) (l : list A) :
  List.length (last_n n l) = Nat.min n (List.length l).
Proof. unfold last_n. rewrite length_skipn. lia. Qed.

Lemma last_n_last {A} (n : nat) (l : list A) (x d : A) :
  (0 < n)%nat -> last (last_n n (l ++ [x])) d = x.
Proof.
  intros Hn. unfold last_n. rewrite length_app. cbn [List.length].
  rewrite skipn_app.
  replace (List.length l + 1 - n - List.length l)%nat with 0%nat by lia.
  cbn [skipn]. apply last_last.
Qed.

Lemma track_buffer (uid c mid : Z) (b : admin_buffers) :
  buffer_get uid (_track_admin_msg uid c mid b)
  = last_n _ADMIN_MSG_LIMIT (buffer_get uid b ++ [(c, mid)]).
Proof.
  unfold _track_admin_msg. cbv zeta. rewrite buffer_get_set_same.
  destruct (Nat.ltb_spec _ADMIN_MSG_LIMIT
              (List.length (buffer_get uid b ++ [(c, mid)]))) as [Hlt | Hge];
    [reflexivity|].
  unfold last_n.
  replace (List.length (buffer_get uid b ++ [(c, mid)]) - _ADMIN_MSG_LIMIT)%nat
    with 0%nat by lia.
  reflexivity.
Qed.

(** X25.  Tracking an admin message keeps the last 6 pairs of that user,
    the new pair last: the buffer never holds more than 6 pairs after a
    tracking, whatever it held before, and the buffers of the other users
    are left as they were. *)
Theorem tracked_messages_bounded (uid c mid : Z) (b : admin_buffers) :
  buffer_get uid (_track_admin_msg uid c mid b)
  = last_n 6 (buffer_get uid b ++ [(c, mid)])
  /\ (List.length (buffer_get uid (_track_admin_msg uid c mid b)) <= 6)%nat
  /\ last (buffer_get uid (_track_admin_msg uid c mid b)) (0%Z, 0%Z)
     = (c, mid)
  /\ (forall uid', uid' <> uid ->
        buffer_get uid' (_track_admin_msg uid c mid b) = buffer_get uid' b).
Proof.
  rewrite track_buffer. change _ADMIN_MSG_LIMIT with 6%nat.
  repeat split.
  - rewrite last_n_length. lia.
  - apply last_n_last. lia.
  - intros uid' Hne. unfold _track_admin_msg. cbv zeta.
    now apply buffer_get_set_other.
Qed.

Section AdminFacts.
Context {L : Library}.
Variable env : Env.
Variable fetched : exn + list (dict str).


End AdminFacts.



(** X27.  The admin views answer only the admin.  For any other sender
    (or none) the command gets the refusal text and a button press gets the
    refusal alert: the buffers stay as they were, no message is tracked and
    no statistics are read, whatever the sheet holds.  For the admin, a
    statistics button sends the summary, or the first 300 characters of the
    error when the sheet can not be read, and tracks that message as the
    newest of the buffer. *)
Theorem admin_views_only_for_admin {L : Library} (env : Env)
    (fetched : exn + list (dict str)) :
  (forall m w, _is_admin env m = false ->
     admin_handler env fetched m w
     = {| buffers := buffers w;
          a_trace := a_trace w
                     ++ [ASendMessage (msg_chat_id m) ADMIN_ONLY_TEXT None];
          a_sent := S (a_sent w) |})
  /\ (forall cb w only_top, cb_is_admin env cb = false ->
        admin_menu_cb env cb w
        = {| buffers := buffers w;
             a_trace := a_trace w
                        ++ [AAnswerCallback (Some ADMIN_ONLY_ALERT) true];
             a_sent := a_sent w |}
        /\ admin_stats_cb env fetched only_top cb w = admin_menu_cb env cb w
        /\ admin_close_cb env cb w = admin_menu_cb env cb w)
  /\ (forall cb w only_top, cb_is_admin env cb = true ->
        a_trace (admin_stats_cb env fetched only_top cb w)
        = a_trace w
          ++ [ASendMessage (msg_chat_id (cb_message cb))
                (stats_or_error fetched only_top) None;
              AAnswerCallback None false]
        /\ last (buffer_get (admin_user_id env)
                   (buffers (admin_stats_cb env fetched only_top cb w)))
                (0%Z, 0%Z)
           = (msg_chat_id (cb_message cb), message_ids env (a_sent w))
        /\ (List.length
              (buffer_get (admin_user_id env)
                 (buffers (admin_stats_cb env fetched only_top cb w)))
            <= 6)%nat)
  /\ (forall e only_top, fetched = inl e ->
        stats_or_error fetched only_top
        = SHEET_ERROR_PREFIX ++ slice_to 300 (str_of_exn e)
        /\ (List.length (stats_or_error fetched only_top)
            <= List.length SHEET_ERROR_PREFIX + 300)%nat).
Proof.
  repeat split.
  - intros m w Ha. unfold admin_handler. now rewrite Ha.
  - unfold admin_menu_cb. now rewrite H.
  - unfold admin_stats_cb, admin_menu_cb. now rewrite H.
  - unfold admin_close_cb, admin_menu_cb. now rewrite H.
  - unfold admin_stats_cb. rewrite H. cbn [negb].
    unfold admin_callback_answer, admin_answer. cbn [a_trace].
    now rewrite <- app_assoc.
  - unfold admin_stats_cb. rewrite H. cbn [negb].
    unfold admin_callback_answer, admin_answer. cbn [buffers].
    apply (tracked_messages_bounded (admin_user_id env)).
  - unfold admin_stats_cb. rewrite H. cbn [negb].
    unfold admin_callback_answer, admin_answer. cbn [buffers].
    apply (tracked_messages_bounded (admin_user_id env)).
  - unfold stats_or_error. now rewrite H.
  - unfold stats_or_error. rewrite H. rewrite length_app.
    pose proof (slice_to_length 300 (str_of_exn e)). lia.
Qed.

Lemma admin_views_only_for_admin_witness :
  admin_stats_cb (L := sample_library) (sample_env unreachable None)
    (inr three_rows) true
    {| cb_from_user := Some ann; cb_message := message_of (u "menu") |}
    {| buffers := []; a_trace := []; a_sent := 0 |}
  = {| buffers := [];
       a_trace := [AAnswerCallback (Some ADMIN_ONLY_ALERT) true];
       a_sent := 0 |}.
Proof.
  destruct (@admin_views_only_for_admin sample_library
              (sample_env unreachable None) (inr three_rows))
    as [_ [H _]].
  destruct (H {| cb_from_user := Some ann;
                 cb_message := message_of (u "menu") |}
              {| buffers := []; a_trace := []; a_sent := 0 |} true eq_refl)
    as [H1 [H2 _]].
  rewrite H2. exact H1.
Defined.

Lemma after_first_token_app (cmd ws arg : str) :
  Forall (fun c => isspace c = false) cmd ->
  Forall (fun c => isspace c = true) ws -> ws <> [] ->
  after_first_token (cmd ++ ws ++ arg) = lstrip arg.
Proof.
  intros Hcmd Hws Hne. induction Hcmd as [|c cmd Hc _ IH].
  - destruct ws as [|x ws]; [congruence|].
    inversion Hws as [|? ? Hx Hws']. subst. cbn. rewrite Hx.
    clear Hne Hws Hx. induction Hws' as [|y ws Hy _ IH]; [reflexivity|].
    cbn. now rewrite Hy.
  - cbn. now rewrite Hc.
Qed.

(** X28.  The filter of the [/admin] command is its second word: after a
    command word and a run of blanks, a trimmed argument sets the filter
    exactly when its lower-case form is [top] or [топ]; the command word
    alone, or a message without text, shows all rows. *)
Theorem admin_filter_is_second_word (cmd ws arg : str) :
  cmd <> [] -> Forall (fun c => isspace c = false) cmd ->
  ws <> [] -> Forall (fun c => isspace c = true) ws ->
  arg <> [] -> no_lead arg -> no_lead (rev arg) ->
  admin_only_top (Some (cmd ++ ws ++ arg))
  = mem (lower arg) [u "top"; u "топ"]
  /\ admin_only_top (Some cmd) = false
  /\ admin_only_top None = false.
Proof.
  intros Hc Hcmd Hw Hws Ha Hl Hr.
  assert (Hstrip : strip (cmd ++ ws ++ arg) = cmd ++ ws ++ arg).
  { apply strip_fixed.
    - destruct cmd as [|c cmd]; [congruence|].
      inversion Hcmd. subst. assumption.
    - rewrite !rev_app_distr.
      destruct (rev arg) as [|x r] eqn:E.
      + apply (f_equal (@rev char)) in E. rewrite rev_involutive in E.
        cbn in E. congruence.
      + exact Hr. }
  repeat split.
  - unfold admin_only_top.
    destruct cmd as [|c cmd]; [congruence|]. cbn [app truthy].
    change (c :: cmd ++ ws ++ arg) with ((c :: cmd) ++ ws ++ arg).
    rewrite Hstrip, (after_first_token_app _ _ _ Hcmd Hws Hw).
    rewrite (lstrip_fixed _ Hl), (strip_fixed _ Hl Hr).
    now rewrite (truthy_nonempty _ Ha).
  - unfold admin_only_top.
    rewrite (truthy_nonempty _ Hc).
    assert (Hs : strip cmd = cmd).
    { apply strip_fixed.
      - destruct cmd as [|c cmd']; [congruence|].
        inversion Hcmd. subst. assumption.
      - destruct (rev cmd) as [|x r] eqn:E; [exact I|].
        assert (Hin : In x cmd) by (apply in_rev; rewrite E; now left).
        rewrite Forall_forall in Hcmd. cbn. now apply Hcmd. }
    rewrite Hs.
    assert (Hn : after_first_token cmd = []).
    { clear Hs Hstrip Hc. induction Hcmd as [|c cmd' Hc' _ IH];
        [reflexivity|]. cbn. now rewrite Hc'. }
    now rewrite Hn.
Qed.

Lemma admin_filter_is_second_word_witness :
  admin_only_top (Some (u "/admin" ++ u "  " ++ u "ТОП")) = true
  /\ admin_only_top (Some (u "/admin")) = false.
Proof.
  destruct (admin_filter_is_second_word (u "/admin") (u "  ") (u "ТОП"))
    as [H1 [H2 _]];
    [ discriminate | repeat constructor | discriminate | repeat constructor
    | discriminate | reflexivity | reflexivity | ].
  split; [rewrite H1; reflexivity | exact H2].
Defined.

(** X29.  A text [_is_nda_word] accepts is neither a refusal nor a URL:
    the link step rejects it or stores the tag [nda], never [declined] and
    never the text as a link. *)
Theorem nda_word_never_refusal_or_url (text : str) :
  _is_nda_word text = true ->
  _is_decline (strip text) = false
  /\ _is_valid_http_url text = false
  /\ (classify_link text = None
      \/ exists pn, classify_link text = Some (NDA, pn)).
Proof.
  intros Hw.
  assert (Hcases :
    In (replace1 SPACE [] (lower (strip text)))
       [u "nda"; u "ндав"; u "подnda"; u "подnda:"; u "подnda.";
        u "подnda!"; u "подnda?"; u "поднда"]).
  { unfold _is_nda_word in Hw. cbv zeta in Hw.
    apply orb_prop in Hw as [Hw | Hw]; apply mem_In in Hw.
    - simpl in Hw. simpl. tauto.
    - simpl in Hw.
      destruct Hw as [Hw | [Hw | [Hw | []]]]; rewrite <- Hw; simpl; tauto. }
  assert (Hd : _is_decline (strip text) = false).
  { unfold _is_decline.
    simpl in Hcases.
    repeat (destruct Hcases as [Hc | Hcases]; [now rewrite <- Hc|]).
    contradiction. }
  assert (Hu : _is_valid_http_url text = false).
  { unfold _is_valid_http_url.
    destruct (startswith HTTP (strip text) || startswith HTTPS (strip text))
      eqn:E; [|reflexivity].
    exfalso. apply url_prefix_cases in E as [r Hr].
    rewrite Hr in Hcases. simpl in Hcases.
    repeat (destruct Hcases as [Hc | Hcases]; [discriminate|]).
    contradiction. }
  split; [exact Hd|]. split; [exact Hu|].
  unfold classify_link. rewrite Hd.
  unfold _is_valid_http_url in *. rewrite strip_idem, Hu.
  destruct (Py.eqb (lower (strip text)) NDA); [right; eauto|].
  destruct (_is_reasonable_nda_note (strip text)); [right; eauto | now left].
Qed.

Lemma nda_word_never_refusal_or_url_witness :
  _is_decline (strip (u " Под  NDA ")) = false
  /\ _is_valid_http_url (u " Под  NDA ") = false
  /\ (classify_link (u " Под  NDA ") = None
      \/ exists pn, classify_link (u " Под  NDA ") = Some (NDA, pn)).
Proof. apply nda_word_never_refusal_or_url. reflexivity. Defined.

Lemma session_row_refused_only_for_id_or_latency_witness :
  tg_user_id
    (session_row (L := sample_library) (sample_env (always (u "FAIR")) None)
       {| msg_from_user := None; msg_text := Some (u "nda");
          msg_chat_id := 42; msg_message_id := 7 |}
       NDA None (world_at (Some link) six_answers)) = 0%Z.
Proof.
  apply (proj2 (proj2
           (@session_row_refused_only_for_id_or_latency sample_library
              (sample_env (always (u "FAIR")) None)
              {| msg_from_user := None; msg_text := Some (u "nda");
                 msg_chat_id := 42; msg_message_id := 7 |}
              (world_at (Some link) six_answers) NDA None))).
  reflexivity.
Defined.


Lemma leaderboard_holds_the_best_witness :
  In {| n_top_candidate := true; n_overall := 10; n_scoring_failed := false;
        n_display := u "@eve"; n_ts := u "2026-01-01T10:00:00Z" |}
     (map (norm_of (L := sample_library)) three_rows).
Proof.
  apply (proj1 (proj2 (@leaderboard_holds_the_best sample_library
                         (map (norm_of (L := sample_library)) three_rows)))).
  left. reflexivity.
Defined.

Lemma tracked_messages_bounded_witness :
  buffer_get 2 (_track_admin_msg 1 42 9 [(1%Z, [(42%Z, 8%Z)]); (2%Z, [(7%Z, 3%Z)])])
  = buffer_get 2 [(1%Z, [(42%Z, 8%Z)]); (2%Z, [(7%Z, 3%Z)])].
Proof.
  apply (proj2 (proj2 (proj2
           (tracked_messages_bounded 1 42 9
              [(1%Z, [(42%Z, 8%Z)]); (2%Z, [(7%Z, 3%Z)])])))).
  discriminate.
Defined.
